(** * AI-Review-System: a shallow embedding of the review pipeline

    The development follows the Python sources module by module:
    [utils.py], [papersearch.py], [text_extraction.py],
    [paper_analyzer.py], [draft_generator.py], [app.py] and
    [pipeline.py].  Python [str] and [bytes] values are modelled as Rocq
    [string]s (sequences of 8-bit code points), dictionaries that are used
    as maps as [gmap]s, insertion-ordered dictionaries as association
    lists, and code that touches the file system, the network or the
    generation service as a state-and-exception monad over an explicit
    [world]. *)

From Stdlib Require Import ZArith Lia Ascii String List Bool Sorted.
From stdpp Require Import base gmap strings list fin_maps pretty.

Local Open Scope string_scope.
Local Open Scope list_scope.
Local Open Scope Z_scope.

(** ** Python string primitives *)

Module Py.

(** [len(s)] *)
Definition len (s : string) : nat := String.length s.

(** [s[:n]] *)
Fixpoint take (n : nat) (s : string) : string :=
  match n, s with
  | O, _ => EmptyString
  | S _, EmptyString => EmptyString
  | S n', String c s' => String c (take n' s')
  end.

(** [bool(s)] for a string: the empty string is falsy. *)
Definition truthy (s : string) : bool :=
  match s with EmptyString => false | String _ _ => true end.

(** [sep.join(parts)] *)
Fixpoint join (sep : string) (parts : list string) : string :=
  match parts with
  | [] => EmptyString
  | x :: rest =>
      match rest with
      | [] => x
      | _ :: _ => x +:+ sep +:+ join sep rest
      end
  end.

(** The character test behind [c in s] for a single character. *)
Fixpoint contains (c : ascii) (s : string) : bool :=
  match s with
  | EmptyString => false
  | String d s' => Ascii.eqb c d || contains c s'
  end.

(** [forall]/[exists] over the characters of a string. *)
Fixpoint all_chars (p : ascii -> bool) (s : string) : bool :=
  match s with
  | EmptyString => true
  | String c s' => p c && all_chars p s'
  end.

(** Per-character rewriting, the shape of [re.sub] with a character class. *)
Fixpoint map_chars (f : ascii -> ascii) (s : string) : string :=
  match s with
  | EmptyString => EmptyString
  | String c s' => String (f c) (map_chars f s')
  end.

(** [c * n] for a one-character string [c]. *)
Fixpoint replicate_char (n : nat) (c : ascii) : string :=
  match n with
  | O => EmptyString
  | S n' => String c (replicate_char n' c)
  end.

Definition newline : ascii := "010"%char.

(** The separator ['\n\n']. *)
Definition para_sep : string := String newline (String newline EmptyString).

(** Put a character in front of the first piece of a split. *)
Definition push_front (c : ascii) (parts : list string) : list string :=
  match parts with
  | [] => [String c EmptyString]
  | p :: rest => String c p :: rest
  end.

(** [text.split('\n\n')]: a left-to-right scan for non-overlapping
    occurrences of the separator; the result always has at least one piece. *)
Fixpoint split_paragraphs (s : string) : list string :=
  match s with
  | EmptyString => [EmptyString]
  | String c1 s1 =>
      match s1 with
      | EmptyString => [String c1 EmptyString]
      | String c2 s2 =>
          if Ascii.eqb c1 newline && Ascii.eqb c2 newline
          then EmptyString :: split_paragraphs s2
          else push_front c1 (split_paragraphs s1)
      end
  end.

(** [name, ext = s.rsplit('.', 1)], when ['.' in s]; [None] when there is no
    dot. *)
Fixpoint rsplit_dot (s : string) : option (string * string) :=
  match s with
  | EmptyString => None
  | String c s' =>
      match rsplit_dot s' with
      | Some (name, ext) => Some (String c name, ext)
      | None => if Ascii.eqb c "."%char then Some (EmptyString, s') else None
      end
  end.

(** ASCII part of [str.lower()]. *)
Definition lower_char (c : ascii) : ascii :=
  let n := nat_of_ascii c in
  if (65 <=? n)%nat && (n <=? 90)%nat then ascii_of_nat (n + 32) else c.

Definition lower (s : string) : string := map_chars lower_char s.

(** ASCII part of [str.upper()] on one character. *)
Definition upper_char (c : ascii) : ascii :=
  let n := nat_of_ascii c in
  if (97 <=? n)%nat && (n <=? 122)%nat then ascii_of_nat (n - 32) else c.

(** [s.capitalize()] *)
Definition capitalize (s : string) : string :=
  match s with
  | EmptyString => EmptyString
  | String c s' => String (upper_char c) (lower s')
  end.

(** [c.isspace()] on the code points below 256. *)
Definition isspace (c : ascii) : bool :=
  let n := nat_of_ascii c in
  ((9 <=? n)%nat && (n <=? 13)%nat) || ((28 <=? n)%nat && (n <=? 32)%nat)
  || (n =? 133)%nat || (n =? 160)%nat.

(** [s.lstrip()] *)
Fixpoint lstrip (s : string) : string :=
  match s with
  | EmptyString => EmptyString
  | String c s' => if isspace c then lstrip s' else s
  end.

(** [s.rstrip()] *)
Fixpoint rstrip (s : string) : string :=
  match s with
  | EmptyString => EmptyString
  | String c s' =>
      match rstrip s' with
      | EmptyString => if isspace c then EmptyString else String c EmptyString
      | String _ _ as t => String c t
      end
  end.

(** [s.strip()] *)
Definition strip (s : string) : string := rstrip (lstrip s).

End Py.

(** ** JSON values and Python dictionaries

    What [json.loads] returns: [dict] values keep the order in which their
    keys were inserted, so they are association lists. *)

Local Unset Elimination Schemes.
Inductive json : Type :=
| JNull
| JBool (b : bool)
| JNum (n : Z)
| JStr (s : string)
| JArr (items : list json)
| JObj (fields : list (string * json)).
Local Set Elimination Schemes.

Module Dict.

(** [d.get(key)] *)
Fixpoint get {V : Type} (key : string) (d : list (string * V)) : option V :=
  match d with
  | [] => None
  | (k, v) :: rest => if String.eqb key k then Some v else get key rest
  end.

(** [d[key] = value]: an existing key keeps its place. *)
Fixpoint set {V : Type} (key : string) (value : V) (d : list (string * V))
  : list (string * V) :=
  match d with
  | [] => [(key, value)]
  | (k, v) :: rest =>
      if String.eqb key k then (k, value) :: rest else (k, v) :: set key value rest
  end.

(** [d.values()] *)
Definition values {V : Type} (d : list (string * V)) : list V := map snd d.

End Dict.

(** [bool(v)] for a JSON value. *)
Definition json_truthy (v : json) : bool :=
  match v with
  | JNull => false
  | JBool b => b
  | JNum n => negb (n =? 0)
  | JStr s => Py.truthy s
  | JArr items => negb (bool_decide (items = []))
  | JObj fields => negb (bool_decide (fields = []))
  end.

(** ** utils.py *)

Module Utils.

(** The nine characters of the class that [sanitize_filename] replaces:
    less-than, greater-than, colon, double quote, slash, backslash, bar,
    question mark and star (by code point, in that order). *)
Definition invalid_char (c : ascii) : bool :=
  let n := nat_of_ascii c in
  (n =? 60)%nat || (n =? 62)%nat || (n =? 58)%nat || (n =? 34)%nat
  || (n =? 47)%nat || (n =? 92)%nat || (n =? 124)%nat || (n =? 63)%nat
  || (n =? 42)%nat.

(** [re.sub] of that class with an underscore. *)
Definition replace_invalid (filename : string) : string :=
  Py.map_chars (fun c => if invalid_char c then "_"%char else c) filename.

Definition sanitize_filename (filename : string) : string :=
  let filename := replace_invalid filename in
  if (200 <? Py.len filename)%nat then
    let '(name, ext) :=
      match Py.rsplit_dot filename with
      | Some p => p
      | None => (filename, EmptyString)
      end in
    Py.take 195 name +:+ "..." +:+ (if Py.truthy ext then "." +:+ ext else EmptyString)
  else filename.

Section Chunking.

(** [tiktoken]'s token count for a text, [None] when the encoder raises. *)
Variable tiktoken_count : string -> option Z.

Definition count_tokens (text : string) : Z :=
  match tiktoken_count text with
  | Some n => n
  | None => Z.of_nat (Py.len text) / 4
  end.

(** The loop state of [chunk_text]: [(chunks, current_chunk, current_tokens)]. *)
Definition chunk_state : Type := list string * list string * Z.

Definition chunk_step (max_tokens : Z) (st : chunk_state) (para : string)
  : chunk_state :=
  let '(chunks, current_chunk, current_tokens) := st in
  let para_tokens := count_tokens para in
  if (max_tokens <? current_tokens + para_tokens)
     && negb (bool_decide (current_chunk = []))
  then (chunks ++ [Py.join Py.para_sep current_chunk], [para], para_tokens)
  else (chunks, current_chunk ++ [para], current_tokens + para_tokens).

Definition chunk_text (text : string) (max_tokens : Z) : list string :=
  let paragraphs := Py.split_paragraphs text in
  let '(chunks, current_chunk, _) :=
    fold_left (chunk_step max_tokens) paragraphs ([], [], 0) in
  if bool_decide (current_chunk = []) then chunks
  else chunks ++ [Py.join Py.para_sep current_chunk].

End Chunking.

Section JsonLoading.

(** [json.loads]: the parsed value, [None] for [JSONDecodeError]. *)
Variable json_loads : string -> option json.

(** The first group matched by the code-fence pattern
    (three backquotes, an optional [json], the block, three backquotes),
    [None] when [re.findall] finds nothing. *)
Variable first_fenced_block : string -> option string.

Definition safe_json_loads (json_str : string) : json :=
  match json_loads json_str with
  | Some v => v
  | None =>
      match first_fenced_block json_str with
      | Some block =>
          match json_loads block with
          | Some v => v
          | None => JObj []
          end
      | None => JObj []
      end
  end.

End JsonLoading.

End Utils.

(** ** Exceptions, the world and its monad *)

(** The exception classes that the modelled code raises or catches.
    [RequestException] stands for [requests.exceptions.RequestException] and
    its subclasses, [OSError] for the file-system errors, [RetryError] for
    what [tenacity] raises once its attempts are used up. *)
Inductive exn : Type :=
| RequestException (msg : string)
| PaperSearchError (msg : string)
| TextExtractionError (msg : string)
| DraftGenerationError (msg : string)
| OSError (msg : string)
| TypeError (msg : string)
| RuntimeError (msg : string)
| RetryError (last : exn).

(** [str(e)]; for [RetryError] an abbreviation of tenacity's text. *)
Fixpoint exn_str (e : exn) : string :=
  match e with
  | RequestException msg | PaperSearchError msg | TextExtractionError msg
  | DraftGenerationError msg | OSError msg | TypeError msg
  | RuntimeError msg => msg
  | RetryError last => "RetryError[" +:+ exn_str last +:+ "]"
  end.

Inductive result (A : Type) : Type :=
| Ok (a : A)
| Raise (e : exn).
Arguments Ok {A} a.
Arguments Raise {A} e.

(** A file on disk: its bytes, and whether this process may read them. *)
Record file : Type := { content : string; readable : bool }.

(** What the program does to the outside, in order. *)
Inductive event : Type :=
| EvExists (path : string)
| EvStat (path : string)
| EvRead (path : string)
| EvUnlink (path : string)
| EvOpenWrite (path : string)
| EvHttpGet (url : string)
| EvSleep (seconds : Z)
| EvGenerate (model : string).

Record world : Type := { fs : gmap string file; log : list event }.

Definition emit (ev : event) (w : world) : world :=
  {| fs := fs w; log := log w ++ [ev] |}.

Definition set_fs (m : gmap string file) (w : world) : world :=
  {| fs := m; log := log w |}.

(** Computations: they read and change the world, and return or raise.
    As in Python, what was done before a [raise] stays done. *)
Definition io (A : Type) : Type := world -> result A * world.

(** [return a] *)
Definition ret {A : Type} (a : A) : io A := fun w => (Ok a, w).

(** [raise e] *)
Definition throw {A : Type} (e : exn) : io A := fun w => (Raise e, w).

Global Instance io_ret : MRet io := @ret.

Global Instance io_bind : MBind io := fun A B f m w =>
  match m w with
  | (Ok a, w') => f a w'
  | (Raise e, w') => (Raise e, w')
  end.

Global Instance io_throw : MThrow exn io := @throw.

(** [try: body  except <classes matched by handler>: ...]; an exception for
    which [handler] answers [None] passes through. *)
Definition try_except {A : Type} (body : io A) (handler : exn -> option (io A))
  : io A := fun w =>
  match body w with
  | (Ok a, w') => (Ok a, w')
  | (Raise e, w') =>
      match handler e with
      | Some h => h w'
      | None => (Raise e, w')
      end
  end.

Definition is_http_get (ev : event) : bool :=
  match ev with EvHttpGet _ => true | _ => false end.

Definition is_generate (ev : event) : bool :=
  match ev with EvGenerate _ => true | _ => false end.

Definition is_sleep (ev : event) : bool :=
  match ev with EvSleep _ => true | _ => false end.

(** How many events of a kind a log holds. *)
Definition count_events (kind : event -> bool) (l : list event) : nat :=
  length (filter (fun ev => kind ev = true) l).

(** ** pathlib and the file system *)

Module Path.

(** [Path(p).name]: what follows the last slash. *)
Fixpoint name (p : string) : string :=
  match p with
  | EmptyString => EmptyString
  | String c p' =>
      if Py.contains "/"%char p' then name p'
      else if Ascii.eqb c "/"%char then p' else p
  end.

(** [Path(p).suffix]: the last dot of the name and what follows it, unless
    that dot starts or ends the name. *)
Definition suffix (p : string) : string :=
  match Py.rsplit_dot (name p) with
  | Some (stem, ext) =>
      if Py.truthy stem && Py.truthy ext then "." +:+ ext else EmptyString
  | None => EmptyString
  end.

(** [dir / child] *)
Definition join (dir child : string) : string := dir +:+ "/" +:+ child.

(** [p.exists()] *)
Definition exists_ (p : string) : io bool := fun w =>
  (Ok (bool_decide (is_Some (fs w !! p))), emit (EvExists p) w).

(** [p.stat().st_size] *)
Definition st_size (p : string) : io nat := fun w =>
  match fs w !! p with
  | Some f => (Ok (Py.len (content f)), emit (EvStat p) w)
  | None => (Raise (OSError "No such file or directory"), emit (EvStat p) w)
  end.

(** [with open(p, 'rb') as f: f.read(n)] *)
Definition read_bytes (p : string) (n : nat) : io string := fun w =>
  match fs w !! p with
  | Some f =>
      if readable f then (Ok (Py.take n (content f)), emit (EvRead p) w)
      else (Raise (OSError "Permission denied"), emit (EvRead p) w)
  | None => (Raise (OSError "No such file or directory"), emit (EvRead p) w)
  end.

(** [p.unlink()] *)
Definition unlink (p : string) : io unit := fun w =>
  match fs w !! p with
  | Some _ => (Ok tt, emit (EvUnlink p) (set_fs (delete p (fs w)) w))
  | None => (Raise (OSError "No such file or directory"), emit (EvUnlink p) w)
  end.

(** [open(p, 'wb')]: the file is created, or emptied when it exists. *)
Definition open_wb (p : string) : io unit := fun w =>
  (Ok tt, emit (EvOpenWrite p)
            (set_fs (<[p := {| content := EmptyString; readable := true |}]> (fs w)) w)).

(** [f.write(chunk)] on the file opened at [p]. *)
Definition write (p : string) (chunk : string) : io unit := fun w =>
  match fs w !! p with
  | Some f =>
      (Ok tt, set_fs (<[p := {| content := content f +:+ chunk;
                                readable := readable f |}]> (fs w)) w)
  | None => (Raise (OSError "I/O operation on closed file"), w)
  end.

End Path.

(** ** tenacity *)

Module Tenacity.

(** [wait_exponential(multiplier, min, max)] at a given attempt number. *)
Definition wait_exponential (multiplier min max : Z) (attempt_number : nat) : Z :=
  Z.max (Z.max 0 min) (Z.min (multiplier * 2 ^ (Z.of_nat attempt_number - 1)) max).

(** [time.sleep] between two attempts. *)
Definition sleep (seconds : Z) : io unit := fun w => (Ok tt, emit (EvSleep seconds) w).

(** One attempt and, when it raises, either the end
    ([stop_after_attempt] reached: [RetryError]) or a sleep and the next
    attempt.  [remaining] is the number of attempts still allowed after
    this one. *)
Fixpoint attempts {A : Type} (remaining : nat) (attempt_number : nat)
    (wait : nat -> Z) (op : io A) : io A := fun w =>
  match op w with
  | (Ok a, w') => (Ok a, w')
  | (Raise e, w') =>
      match remaining with
      | O => (Raise (RetryError e), w')
      | S r =>
          let '(_, w'') := sleep (wait attempt_number) w' in
          attempts r (S attempt_number) wait op w''
      end
  end.

(** [@retry(stop=stop_after_attempt(n), wait=wait)]: the first attempt is
    always made. *)
Definition retry {A : Type} (stop_after_attempt : nat) (wait : nat -> Z)
    (op : io A) : io A :=
  attempts (stop_after_attempt - 1) 1 wait op.

End Tenacity.

(** ** papersearch.py *)

(** One search result as [search_papers] builds it, and later as
    [process_topic] extends it with [local_path]. *)
Module Paper.
Record t : Type := {
  title : string;
  abstract : string;
  pdf_url : string;
  url : string;
  year : option Z;
  authors : list (option string);
  venue : option string;
  citation_count : Z;
  local_path : option string
}.
End Paper.

(** What the remote side answers to one request for a PDF. *)
Inductive http_outcome : Type :=
| ConnectionFailed (msg : string)
    (** [session.get] raises a [RequestException] *)
| BadStatus (code : Z)
    (** [raise_for_status] raises *)
| Streamed (content_type : string) (chunks : list string) (broken : bool).
    (** the body arrives in chunks; [broken] when the stream raises a
        [RequestException] after the last of them *)

(** One entry of the ["data"] array of the search answer.  A field that is
    absent from the JSON is [None]. *)
Record search_entry : Type := {
  e_title : option string;
  e_abstract : option string;
  e_url : option string;
  e_open_access_pdf : option string;
  e_year : option Z;
  e_authors : list (option string);
  e_venue : option string;
  e_citation_count : option Z
}.

Inductive search_outcome : Type :=
| SearchFailed (msg : string)
| SearchData (data : list search_entry).

Module PaperSearcher.

Section Remote.

(** The remote services: the answer to the [n]-th request of the run. *)
Variable fetch : string -> nat -> http_outcome.
Variable search_api : string -> Z -> nat -> search_outcome.

Definition base_url : string := "https://api.semanticscholar.org/graph/v1".

(** [self.session.get(url, stream=True, ...)] *)
Definition session_get (url : string) : io http_outcome := fun w =>
  (Ok (fetch url (count_events is_http_get (log w))), emit (EvHttpGet url) w).

(** [self.session.get(url, params=params, timeout=30)] on the search
    endpoint, with [raise_for_status] and [json] folded into the outcome. *)
Definition session_search (query : string) (limit : Z) : io search_outcome :=
  fun w =>
  (Ok (search_api query limit (count_events is_http_get (log w))),
   emit (EvHttpGet (base_url +:+ "/paper/search")) w).

Definition validate_pdf (file_path : string) : io bool :=
  present ← Path.exists_ file_path;
  if negb present then ret false
  else if negb (String.eqb (Py.lower (Path.suffix file_path)) ".pdf") then ret false
  else
    size ← Path.st_size file_path;
    if (size =? 0)%nat then ret false
    else
      try_except
        (header ← Path.read_bytes file_path 4;
         ret (String.eqb header "%PDF"))
        (fun _ => Some (ret false)).

(** The loop of [search_papers] over the entries of the answer. *)
Fixpoint collect_papers (limit : Z) (data : list search_entry)
    (papers : list Paper.t) : list Paper.t :=
  match data with
  | [] => papers
  | entry :: rest =>
      match e_open_access_pdf entry with
      | Some pdf =>
          if Py.truthy pdf then
            let paper_data :=
              {| Paper.title := default "Untitled" (e_title entry);
                 Paper.abstract := default EmptyString (e_abstract entry);
                 Paper.pdf_url := pdf;
                 Paper.url := default EmptyString (e_url entry);
                 Paper.year := e_year entry;
                 Paper.authors := e_authors entry;
                 Paper.venue := e_venue entry;
                 Paper.citation_count := default 0 (e_citation_count entry);
                 Paper.local_path := None |} in
            let papers := papers ++ [paper_data] in
            if (limit <=? Z.of_nat (length papers)) then papers
            else collect_papers limit rest papers
          else collect_papers limit rest papers
      | None => collect_papers limit rest papers
      end
  end.

(** The body of [search_papers], one attempt. *)
Definition search_papers_once (topic : string) (limit : Z) : io (list Paper.t) :=
  try_except
    (answer ← session_search topic (limit * 2);
     match answer with
     | SearchFailed msg => throw (RequestException msg)
     | SearchData data => ret (collect_papers limit data [])
     end)
    (fun e =>
       match e with
       | RequestException msg =>
           Some (throw (PaperSearchError ("Failed to search papers: " +:+ msg)))
       | _ => None
       end).

Definition search_papers (topic : string) (limit : Z) : io (list Paper.t) :=
  Tenacity.retry 3 (Tenacity.wait_exponential 1 2 10)
    (search_papers_once topic limit).

(** [for chunk in response.iter_content(...): if chunk: f.write(chunk)] *)
Fixpoint write_chunks (pdf_path : string) (chunks : list string) : io unit :=
  match chunks with
  | [] => ret tt
  | chunk :: rest =>
      (if Py.truthy chunk then Path.write pdf_path chunk else ret tt);;
      write_chunks pdf_path rest
  end.

(** The [try] block of [download_pdf] with its handler. *)
Definition fetch_and_validate (paper : Paper.t) (pdf_path : string)
  : io (option string) :=
  try_except
    (response ← session_get (Paper.pdf_url paper);
     match response with
     | ConnectionFailed msg => throw (RequestException msg)
     | BadStatus code => throw (RequestException ("HTTP error " +:+ pretty code))
     | Streamed _ chunks broken =>
         Path.open_wb pdf_path;;
         write_chunks pdf_path chunks;;
         (if broken then throw (RequestException "stream interrupted")
          else ret tt);;
         valid ← validate_pdf pdf_path;
         if (valid : bool) then ret (Some pdf_path)
         else Path.unlink pdf_path;; ret None
     end)
    (fun e =>
       match e with
       | RequestException _ =>
           Some (present ← Path.exists_ pdf_path;
                 (if (present : bool) then Path.unlink pdf_path else ret tt);;
                 ret None)
       | _ => None
       end).

(** The body of [download_pdf], one attempt. *)
Definition download_pdf_once (paper : Paper.t) (save_dir : string)
  : io (option string) :=
  let safe_title := Utils.sanitize_filename (Paper.title paper) in
  let pdf_path := Path.join save_dir (safe_title +:+ ".pdf") in
  present ← Path.exists_ pdf_path;
  if (present : bool) then
    valid ← validate_pdf pdf_path;
    if (valid : bool) then ret (Some pdf_path)
    else Path.unlink pdf_path;; fetch_and_validate paper pdf_path
  else fetch_and_validate paper pdf_path.

Definition download_pdf (paper : Paper.t) (save_dir : string)
  : io (option string) :=
  Tenacity.retry 3 (Tenacity.wait_exponential 1 2 10)
    (download_pdf_once paper save_dir).

(** [MAX_PAPERS] and [PAPERS_DIR] of [config.py], the time stamp of
    [save_metadata], and [json.dump(metadata, f, indent=2, ...)]: the text
    written for a topic, a time stamp, a count and the papers. *)
Variable MAX_PAPERS : Z.
Variable PAPERS_DIR : string.
Variable metadata_timestamp : string.
Variable dump_metadata : string -> string -> nat -> list Paper.t -> string.

(** The dictionary that [process_topic] returns. *)
Record topic_result : Type := {
  success : bool;
  message : string;
  papers : list Paper.t
}.

(** [time.sleep(seconds)] *)
Definition time_sleep (seconds : Z) : io unit := fun w =>
  (Ok tt, emit (EvSleep seconds) w).

(** [paper["local_path"] = str(pdf_path)] *)
Definition set_local_path (pdf_path : string) (paper : Paper.t) : Paper.t :=
  {| Paper.title := Paper.title paper;
     Paper.abstract := Paper.abstract paper;
     Paper.pdf_url := Paper.pdf_url paper;
     Paper.url := Paper.url paper;
     Paper.year := Paper.year paper;
     Paper.authors := Paper.authors paper;
     Paper.venue := Paper.venue paper;
     Paper.citation_count := Paper.citation_count paper;
     Paper.local_path := Some pdf_path |}.

Definition save_metadata (found : list Paper.t) (topic save_dir : string)
  : io string :=
  let safe_topic := Utils.sanitize_filename topic in
  let meta_path := Path.join save_dir (safe_topic +:+ "_metadata.json") in
  Path.open_wb meta_path;;
  Path.write meta_path
    (dump_metadata topic metadata_timestamp (length found) found);;
  ret meta_path.

(** The loop of [process_topic] over the papers found. *)
Fixpoint download_papers (found downloaded_papers : list Paper.t)
  : io (list Paper.t) :=
  match found with
  | [] => ret downloaded_papers
  | paper :: rest =>
      pdf_path ← download_pdf paper PAPERS_DIR;
      let downloaded_papers :=
        match pdf_path with
        | Some p => downloaded_papers ++ [set_local_path p paper]
        | None => downloaded_papers
        end in
      time_sleep 1;;
      download_papers rest downloaded_papers
  end.

Definition process_topic (topic : string) : io topic_result :=
  found ← search_papers topic MAX_PAPERS;
  if bool_decide (found = []) then
    ret {| success := false;
           message := "No papers found with PDF links";
           papers := [] |}
  else
    downloaded_papers ← download_papers found [];
    if bool_decide (downloaded_papers = []) then
      ret {| success := false;
             message := "Failed to download any valid PDFs";
             papers := [] |}
    else
      save_metadata downloaded_papers topic PAPERS_DIR;;
      ret {| success := true;
             message := "Successfully downloaded "
                        +:+ pretty (length downloaded_papers) +:+ " valid PDFs";
             papers := downloaded_papers |}.

End Remote.

End PaperSearcher.

(** ** text_extraction.py *)

Module TextExtractor.

Section Fitz.

(** PyMuPDF: the text of every page of a document with these bytes, in
    page order; [None] when the library raises. *)
Variable fitz_pages : string -> option (list string).

Definition validate_pdf (file_path : string) : io bool :=
  present ← Path.exists_ file_path;
  if negb present then ret false
  else if negb (String.eqb (Py.lower (Path.suffix file_path)) ".pdf") then ret false
  else
    size ← Path.st_size file_path;
    if (size =? 0)%nat then ret false
    else
      try_except
        (header ← Path.read_bytes file_path 4;
         ret (String.eqb header "%PDF"))
        (fun _ => Some (ret false)).

(** [fitz.open(pdf_path)] and [page.get_text("text")] for each page. *)
Definition fitz_open (pdf_path : string) : io (list string) := fun w =>
  match fs w !! pdf_path with
  | Some f =>
      match fitz_pages (content f) with
      | Some pages => (Ok pages, emit (EvRead pdf_path) w)
      | None => (Raise (RuntimeError "cannot open document"), emit (EvRead pdf_path) w)
      end
  | None => (Raise (RuntimeError "no such file"), emit (EvRead pdf_path) w)
  end.

(** [if text.strip()] *)
Definition has_text (text : string) : bool := Py.truthy (Py.strip text).

(** The pages kept by the loop of [extract_raw_text]. *)
Definition kept_pages (page_texts : list string) : list string :=
  List.filter has_text page_texts.

Definition extract_raw_text (pdf_path : string) : io string :=
  valid ← validate_pdf pdf_path;
  if negb valid
  then throw (TextExtractionError ("File is not a valid PDF: " +:+ pdf_path))
  else
    try_except
      (page_texts ← fitz_open pdf_path;
       let pages := kept_pages page_texts in
       if bool_decide (pages = [])
       then throw (TextExtractionError "No text extracted from PDF")
       else ret (Py.join Py.para_sep pages))
      (fun e =>
         Some (throw (TextExtractionError
                         ("Text extraction failed: " +:+ exn_str e)))).

End Fitz.

End TextExtractor.

(** ** config.py *)

Module Config.

Definition AVAILABLE_MODELS : list string :=
  ["gemini-2.0-flash"; "gemini-2.0-flash-lite"; "gemini-2.5-flash"; "gemini-2.5-pro"].

Definition GEMINI_MODEL : string := "gemini-2.0-flash".

Definition SECTION_ONTOLOGY : list string :=
  ["abstract"; "introduction"; "related_work"; "methodology"; "experiments";
   "results"; "discussion"; "conclusion"; "references"].

End Config.

(** ** The generation service *)

Section Generation.

(** [client.models.generate_content(model=..., contents=...)] at the
    [n]-th call of the run: the [text] of the response (empty when the
    response has none), or the exception of the client. *)
Variable generate_content : string -> string -> nat -> result string.

Definition generate (model_name prompt : string) : io string := fun w =>
  (generate_content model_name prompt (count_events is_generate (log w)),
   emit (EvGenerate model_name) w).

End Generation.

(** ** paper_analyzer.py *)

Module PaperAnalyzer.

Section Analyzer.

Variable generate_content : string -> string -> nat -> result string.
Variable json_loads : string -> option json.
Variable first_fenced_block : string -> option string.

(** [json.dumps(value, indent=2)] and the prompt template of [config.py]
    with its [sections] slot. *)
Variable json_dumps : json -> string.
Variable ANALYSIS_PROMPT : string -> string.

Definition model : string := Config.GEMINI_MODEL.
Definition model_fallbacks : list string := Config.AVAILABLE_MODELS.

Definition _get_default_insights : json :=
  JObj [("key_findings", JArr [JStr "Analysis temporarily unavailable - API issue"]);
        ("contributions", JArr []);
        ("limitations", JArr []);
        ("future_work", JArr [])].

Definition required_fields : list string :=
  ["key_findings"; "contributions"; "limitations"; "future_work"].

(** One round of the loop over [required_fields]:
    [if field not in insights or not insights[field]: insights[field] = []].
    On anything but a [dict] the test or the assignment raises
    [TypeError]. *)
Definition ensure_field (insights : json) (field : string) : result json :=
  match insights with
  | JObj fields =>
      match Dict.get field fields with
      | Some v =>
          if json_truthy v then Ok insights
          else Ok (JObj (Dict.set field (JArr []) fields))
      | None => Ok (JObj (Dict.set field (JArr []) fields))
      end
  | _ => Raise (TypeError "not a dict")
  end.

Fixpoint ensure_fields (insights : json) (fields : list string) : result json :=
  match fields with
  | [] => Ok insights
  | field :: rest =>
      match ensure_field insights field with
      | Ok insights' => ensure_fields insights' rest
      | Raise e => Raise e
      end
  end.

(** [len(v)], which only strings, lists and dicts have. *)
Definition json_len (v : json) : result nat :=
  match v with
  | JStr s => Ok (Py.len s)
  | JArr items => Ok (length items)
  | JObj fields => Ok (length fields)
  | _ => Raise (TypeError "object has no len()")
  end.

(** [insights.get('key_findings', [])] *)
Definition key_findings (insights : json) : json :=
  match insights with
  | JObj fields => default (JArr []) (Dict.get "key_findings" fields)
  | _ => JArr []
  end.

(** A pure step that may raise, inside [io]. *)
Definition lift {A : Type} (r : result A) : io A := fun w => (r, w).

(** The body of the loop over [models_to_try] for one model: [Some] is
    what the function returns, [None] stands for [continue]. *)
Definition insights_from (model_name prompt : string) : io (option json) :=
  try_except
    (text ← generate generate_content model_name prompt;
     if negb (Py.truthy text) then ret None
     else
       insights ← lift (ensure_fields
                          (Utils.safe_json_loads json_loads first_fenced_block text)
                          required_fields);
       _ ← lift (json_len (key_findings insights));
       ret (Some insights))
    (fun _ => Some (ret None)).

Fixpoint insights_from_models (models_to_try : list string) (prompt : string)
  : io json :=
  match models_to_try with
  | [] => ret _get_default_insights
  | model_name :: rest =>
      found ← insights_from model_name prompt;
      match found with
      | Some insights => ret insights
      | None => insights_from_models rest prompt
      end
  end.

(** The loop that prepares [sections_summary]. *)
Definition summarize (sections : list (string * string)) : list (string * json) :=
  fold_left
    (fun sections_summary '(key, value) =>
       if Py.truthy value then
         Dict.set key
           (JStr (if (3000 <? Py.len value)%nat then Py.take 3000 value +:+ "..."
                  else value))
           sections_summary
       else sections_summary)
    sections [].

(** The body of [extract_insights], one attempt. *)
Definition extract_insights_once (sections : list (string * string)) : io json :=
  if negb (existsb Py.truthy (Dict.values sections))
  then ret _get_default_insights
  else
    let sections_summary := summarize sections in
    let prompt := ANALYSIS_PROMPT (json_dumps (JObj sections_summary)) in
    insights_from_models (model :: model_fallbacks) prompt.

Definition extract_insights (sections : list (string * string)) : io json :=
  Tenacity.retry 2 (Tenacity.wait_exponential 1 2 5)
    (extract_insights_once sections).

(** [tiktoken]'s token count (see [Utils.count_tokens]) and the prompt
    template of [config.py] with its [sections] and [text] slots. *)
Variable tiktoken_count : string -> option Z.
Variable SECTIONING_PROMPT : string -> string -> string.

(** [{section: "" for section in SECTION_ONTOLOGY}] *)
Definition empty_sections : json :=
  JObj (map (fun section => (section, JStr "")) Config.SECTION_ONTOLOGY).

(** [if section not in sections: sections[section] = ""] on a dict. *)
Definition pad_section (sections : list (string * json)) (section : string)
  : list (string * json) :=
  match Dict.get section sections with
  | Some _ => sections
  | None => Dict.set section (JStr "") sections
  end.

(** The loop over [SECTION_ONTOLOGY] and the count of the non-empty values
    that follows it: on anything but a [dict] one of the two raises
    ([TypeError] from the membership test or the assignment, or the missing
    [values] method). *)
Definition pad_sections (sections : json) : result json :=
  match sections with
  | JObj fields => Ok (JObj (fold_left pad_section Config.SECTION_ONTOLOGY fields))
  | _ => Raise (TypeError "not a dict")
  end.

(** The body of the loop of [section_paper] for one model: [Some] is what
    the function returns, [None] stands for [continue]. *)
Definition sections_from (model_name prompt : string) : io (option json) :=
  try_except
    (text ← generate generate_content model_name prompt;
     if negb (Py.truthy text) then ret None
     else
       sections ← lift (pad_sections
                          (Utils.safe_json_loads json_loads first_fenced_block text));
       ret (Some sections))
    (fun _ => Some (ret None)).

Fixpoint sections_from_models (models_to_try : list string) (prompt : string)
  : io json :=
  match models_to_try with
  | [] => ret empty_sections
  | model_name :: rest =>
      found ← sections_from model_name prompt;
      match found with
      | Some sections => ret sections
      | None => sections_from_models rest prompt
      end
  end.

(** The body of [section_paper], one attempt. *)
Definition section_paper_once (text : string) : io json :=
  if negb (Py.truthy text) || (Py.len (Py.strip text) <? 100)%nat
  then ret empty_sections
  else
    let token_count := Utils.count_tokens tiktoken_count text in
    let text := if 28000 <? token_count then Py.take (Z.to_nat 100000) text else text in
    let sections_str := Py.join ", " Config.SECTION_ONTOLOGY in
    let prompt := SECTIONING_PROMPT sections_str text in
    sections_from_models (model :: model_fallbacks) prompt.

Definition section_paper (text : string) : io json :=
  Tenacity.retry 3 (Tenacity.wait_exponential 1 4 10) (section_paper_once text).

End Analyzer.

End PaperAnalyzer.

(** ** draft_generator.py *)

Module DraftGenerator.

(** The dictionary that [generate_review] returns. *)
Record review : Type := {
  success : bool;
  message : string;
  draft : option string;
  draft_path : option string;
  num_papers : option nat
}.

Section Generator.

Variable generate_content : string -> string -> nat -> result string.
Variable json_dumps : json -> string.

(** The prompt template of [config.py] with its [topic] and
    [analysis_data] slots. *)
Variable DRAFT_PROMPT : string -> string -> string.

(** [prepare_analysis_data], a reshaping of the loaded analyses. *)
Variable prepare_analysis_data : list json -> json.

(** [DRAFTS_DIR] and the time stamp of [save_draft]. *)
Variable DRAFTS_DIR : string.
Variable timestamp : string.

Definition model : string := Config.GEMINI_MODEL.
Definition model_fallbacks : list string := Config.AVAILABLE_MODELS.

(** The body of the loop over [models_to_try] for one model: [Some] is
    what the function returns, [None] stands for going on to the next
    model. *)
Definition draft_from (model_name prompt : string) : io (option string) :=
  try_except
    (text ← generate generate_content model_name prompt;
     if Py.truthy text then ret (Some text) else ret None)
    (fun _ => Some (ret None)).

Fixpoint draft_from_models (models_to_try : list string) (prompt : string)
  : io string :=
  match models_to_try with
  | [] => throw (DraftGenerationError "All models failed to generate draft")
  | model_name :: rest =>
      found ← draft_from model_name prompt;
      match found with
      | Some text => ret text
      | None => draft_from_models rest prompt
      end
  end.

(** The body of [generate_draft], one attempt. *)
Definition generate_draft_once (analysis_data : json) (topic : string) : io string :=
  let prompt := DRAFT_PROMPT topic (json_dumps analysis_data) in
  draft_from_models (model :: model_fallbacks) prompt.

Definition generate_draft (analysis_data : json) (topic : string) : io string :=
  Tenacity.retry 3 (Tenacity.wait_exponential 1 4 10)
    (generate_draft_once analysis_data topic).

Definition save_draft (draft : string) (topic : string) : io string :=
  let safe_topic := Utils.sanitize_filename topic in
  let filename := safe_topic +:+ "_review_draft_" +:+ timestamp +:+ ".txt" in
  let out_path := Path.join DRAFTS_DIR filename in
  Path.open_wb out_path;;
  Path.write out_path draft;;
  ret out_path.

(** [generate_review], from the analyses that [load_analyses] found. *)
Definition generate_review (analyses : list json) (topic : string) : io review :=
  if bool_decide (analyses = []) then
    ret {| success := false;
           message := "No successful analysis files found";
           draft := None; draft_path := None; num_papers := None |}
  else
    try_except
      (let analysis_data := prepare_analysis_data analyses in
       text ← generate_draft analysis_data topic;
       out_path ← save_draft text topic;
       ret {| success := true;
              message := "Successfully generated draft from "
                         +:+ pretty (length analyses) +:+ " papers";
              draft := Some text; draft_path := Some out_path;
              num_papers := Some (length analyses) |})
      (fun e =>
         Some (ret {| success := false;
                      message := "Draft generation failed: " +:+ exn_str e;
                      draft := None; draft_path := None; num_papers := None |})).

End Generator.

End DraftGenerator.

(** ** app.py *)

Module App.

(** [PipelineState].  Readings of [time.time()] and the differences between
    them are integers (clock ticks). *)
Record PipelineState : Type := {
  topic : string;
  papers : list Paper.t;
  search_success : bool;
  search_message : string;
  extracted_paths : list string;
  extraction_success : bool;
  extraction_message : string;
  analysis_paths : list string;
  analysis_success : bool;
  analysis_message : string;
  draft : option string;
  draft_path : option string;
  draft_success : bool;
  draft_message : string;
  error : option string;
  progress : list string;
  start_time : Z;
  stage_times : list (string * Z)
}.

(** The dictionary that [PaperSearcher.process_topic] returns. *)
Record search_result : Type := {
  found_success : bool;
  found_message : string;
  found_papers : list Paper.t
}.

(** [state["progress"].append(line)] *)
Definition append_progress (line : string) (s : PipelineState) : PipelineState :=
  {| topic := topic s; papers := papers s;
     search_success := search_success s; search_message := search_message s;
     extracted_paths := extracted_paths s;
     extraction_success := extraction_success s;
     extraction_message := extraction_message s;
     analysis_paths := analysis_paths s; analysis_success := analysis_success s;
     analysis_message := analysis_message s;
     draft := draft s; draft_path := draft_path s;
     draft_success := draft_success s; draft_message := draft_message s;
     error := error s; progress := progress s ++ [line];
     start_time := start_time s; stage_times := stage_times s |}.

(** [state["error"] = message] *)
Definition set_error (msg : string) (s : PipelineState) : PipelineState :=
  {| topic := topic s; papers := papers s;
     search_success := search_success s; search_message := search_message s;
     extracted_paths := extracted_paths s;
     extraction_success := extraction_success s;
     extraction_message := extraction_message s;
     analysis_paths := analysis_paths s; analysis_success := analysis_success s;
     analysis_message := analysis_message s;
     draft := draft s; draft_path := draft_path s;
     draft_success := draft_success s; draft_message := draft_message s;
     error := Some msg; progress := progress s;
     start_time := start_time s; stage_times := stage_times s |}.

(** [state["stage_times"][stage] = duration] *)
Definition set_stage_time (stage : string) (duration : Z) (s : PipelineState)
  : PipelineState :=
  {| topic := topic s; papers := papers s;
     search_success := search_success s; search_message := search_message s;
     extracted_paths := extracted_paths s;
     extraction_success := extraction_success s;
     extraction_message := extraction_message s;
     analysis_paths := analysis_paths s; analysis_success := analysis_success s;
     analysis_message := analysis_message s;
     draft := draft s; draft_path := draft_path s;
     draft_success := draft_success s; draft_message := draft_message s;
     error := error s; progress := progress s;
     start_time := start_time s;
     stage_times := Dict.set stage duration (stage_times s) |}.

(** The three assignments of [search_node] after the call. *)
Definition set_search (r : search_result) (s : PipelineState) : PipelineState :=
  {| topic := topic s; papers := found_papers r;
     search_success := found_success r; search_message := found_message r;
     extracted_paths := extracted_paths s;
     extraction_success := extraction_success s;
     extraction_message := extraction_message s;
     analysis_paths := analysis_paths s; analysis_success := analysis_success s;
     analysis_message := analysis_message s;
     draft := draft s; draft_path := draft_path s;
     draft_success := draft_success s; draft_message := draft_message s;
     error := error s; progress := progress s;
     start_time := start_time s; stage_times := stage_times s |}.

(** The three assignments of [extract_node] after the call. *)
Definition set_extraction (saved_files : list string) (s : PipelineState)
  : PipelineState :=
  {| topic := topic s; papers := papers s;
     search_success := search_success s; search_message := search_message s;
     extracted_paths := saved_files;
     extraction_success := negb (bool_decide (saved_files = []));
     extraction_message := "Extracted " +:+ pretty (length saved_files) +:+ " papers";
     analysis_paths := analysis_paths s; analysis_success := analysis_success s;
     analysis_message := analysis_message s;
     draft := draft s; draft_path := draft_path s;
     draft_success := draft_success s; draft_message := draft_message s;
     error := error s; progress := progress s;
     start_time := start_time s; stage_times := stage_times s |}.

(** The three assignments of [analyze_node] after the call. *)
Definition set_analysis (paths : list string) (s : PipelineState) : PipelineState :=
  {| topic := topic s; papers := papers s;
     search_success := search_success s; search_message := search_message s;
     extracted_paths := extracted_paths s;
     extraction_success := extraction_success s;
     extraction_message := extraction_message s;
     analysis_paths := paths;
     analysis_success := negb (bool_decide (paths = []));
     analysis_message := "Analyzed " +:+ pretty (length paths) +:+ " papers";
     draft := draft s; draft_path := draft_path s;
     draft_success := draft_success s; draft_message := draft_message s;
     error := error s; progress := progress s;
     start_time := start_time s; stage_times := stage_times s |}.

(** The two assignments of [draft_node] after the call. *)
Definition set_draft_status (r : DraftGenerator.review) (s : PipelineState)
  : PipelineState :=
  {| topic := topic s; papers := papers s;
     search_success := search_success s; search_message := search_message s;
     extracted_paths := extracted_paths s;
     extraction_success := extraction_success s;
     extraction_message := extraction_message s;
     analysis_paths := analysis_paths s; analysis_success := analysis_success s;
     analysis_message := analysis_message s;
     draft := draft s; draft_path := draft_path s;
     draft_success := DraftGenerator.success r;
     draft_message := DraftGenerator.message r;
     error := error s; progress := progress s;
     start_time := start_time s; stage_times := stage_times s |}.

(** [state["draft"] = ...; state["draft_path"] = ...] *)
Definition set_draft (r : DraftGenerator.review) (s : PipelineState)
  : PipelineState :=
  {| topic := topic s; papers := papers s;
     search_success := search_success s; search_message := search_message s;
     extracted_paths := extracted_paths s;
     extraction_success := extraction_success s;
     extraction_message := extraction_message s;
     analysis_paths := analysis_paths s; analysis_success := analysis_success s;
     analysis_message := analysis_message s;
     draft := DraftGenerator.draft r; draft_path := DraftGenerator.draft_path r;
     draft_success := draft_success s; draft_message := draft_message s;
     error := error s; progress := progress s;
     start_time := start_time s; stage_times := stage_times s |}.

(** [state.get("error")] as a condition. *)
Definition has_error (s : PipelineState) : bool :=
  match error s with
  | Some msg => Py.truthy msg
  | None => false
  end.

Section Nodes.

(** The clock, and [format_progress_message] (which stamps the time of the
    call on its message), as readings of the world. *)
Variable clock : world -> Z.
Variable stamped : world -> string -> string -> string.

(** [f"{x:.1f}"] for a duration. *)
Variable format_seconds : Z -> string.

(** The collaborators of the four working nodes. *)
Variable process_topic : string -> io search_result.
Variable process_all_pdfs : io (list string).
Variable process_all_papers : io (list string).
Variable generate_review : string -> io DraftGenerator.review.

(** [time.time()] *)
Definition time_time : io Z := fun w => (Ok (clock w), w).

(** [format_progress_message(step, status)] *)
Definition format_progress_message (step status : string) : io string :=
  fun w => (Ok (stamped w step status), w).

Definition create_initial_state (topic_ : string) : io PipelineState :=
  now ← time_time;
  ret {| topic := topic_; papers := [];
         search_success := false; search_message := "";
         extracted_paths := []; extraction_success := false;
         extraction_message := "";
         analysis_paths := []; analysis_success := false;
         analysis_message := "";
         draft := None; draft_path := None;
         draft_success := false; draft_message := "";
         error := None; progress := [];
         start_time := now; stage_times := [] |}.

(** [for i, paper in enumerate(papers, 1): progress.append(...)] *)
Fixpoint list_found (i : nat) (found : list Paper.t) (s : PipelineState)
  : PipelineState :=
  match found with
  | [] => s
  | paper :: rest =>
      list_found (S i) rest
        (append_progress ("   " +:+ pretty i +:+ ". "
                          +:+ Py.take 80 (Paper.title paper) +:+ "...") s)
  end.

(** [for path in paths[:3]: progress.append(f"   {icon} {Path(path).name}")] *)
Definition list_names (icon : string) (paths : list string) (s : PipelineState)
  : PipelineState :=
  fold_left
    (fun s path => append_progress ("   " +:+ icon +:+ " " +:+ Path.name path) s)
    (firstn 3 paths) s.

Definition search_node (state : PipelineState) : io PipelineState :=
  stage_start ← time_time;
  line ← format_progress_message "search"
           ("Searching for papers on: '" +:+ topic state +:+ "'");
  let state := append_progress line state in
  state ← try_except
    (r ← process_topic (topic state);
     let state := set_search r state in
     if negb (found_success r) then
       line ← format_progress_message "error"
                ("Search failed: " +:+ found_message r);
       ret (append_progress line (set_error (found_message r) state))
     else
       line ← format_progress_message "complete"
                ("Found " +:+ pretty (length (found_papers r))
                 +:+ " papers with PDFs");
       ret (list_found 1 (found_papers r) (append_progress line state)))
    (fun e =>
       Some (line ← format_progress_message "error"
                      ("Search failed: " +:+ exn_str e);
             ret (append_progress line (set_error (exn_str e) state))));
  stage_end ← time_time;
  ret (set_stage_time "search" (stage_end - stage_start) state).

Definition extract_node (state : PipelineState) : io PipelineState :=
  stage_start ← time_time;
  if has_error state then ret state
  else
    line ← format_progress_message "extract" "Extracting text from PDFs...";
    let state := append_progress line state in
    state ← try_except
      (saved_files ← process_all_pdfs;
       let state := set_extraction saved_files state in
       if negb (bool_decide (saved_files = [])) then
         line ← format_progress_message "complete"
                  ("Successfully extracted text from "
                   +:+ pretty (length saved_files) +:+ " papers");
         ret (list_names "📄" saved_files (append_progress line state))
       else
         line ← format_progress_message "error"
                  "Failed to extract text from any PDF";
         ret (append_progress line
                (set_error "No text extracted from any PDF" state)))
      (fun e =>
         Some (line ← format_progress_message "error"
                        ("Extraction failed: " +:+ exn_str e);
               ret (append_progress line (set_error (exn_str e) state))));
    stage_end ← time_time;
    ret (set_stage_time "extract" (stage_end - stage_start) state).

Definition analyze_node (state : PipelineState) : io PipelineState :=
  stage_start ← time_time;
  if has_error state then ret state
  else
    line ← format_progress_message "analyze" "Analyzing papers with Gemini AI...";
    let state := append_progress line state in
    state ← try_except
      (paths ← process_all_papers;
       let state := set_analysis paths state in
       if negb (bool_decide (paths = [])) then
         line ← format_progress_message "complete"
                  ("Successfully analyzed " +:+ pretty (length paths) +:+ " papers");
         ret (list_names "🔬" paths (append_progress line state))
       else
         line ← format_progress_message "error" "Failed to analyze any papers";
         ret (append_progress line
                (set_error "No papers successfully analyzed" state)))
      (fun e =>
         Some (line ← format_progress_message "error"
                        ("Analysis failed: " +:+ exn_str e);
               ret (append_progress line (set_error (exn_str e) state))));
    stage_end ← time_time;
    ret (set_stage_time "analyze" (stage_end - stage_start) state).

(** The text of the [TypeError] of [len(None)]. *)
Definition no_len : string := "object of type 'NoneType' has no len()".

Definition draft_node (state : PipelineState) : io PipelineState :=
  stage_start ← time_time;
  if has_error state then ret state
  else
    line ← format_progress_message "draft" "Generating research review draft...";
    let state := append_progress line state in
    state ← try_except
      (r ← generate_review (topic state);
       let state := set_draft_status r state in
       if DraftGenerator.success r then
         let state := set_draft r state in
         line ← format_progress_message "complete"
                  ("Draft generated successfully: "
                   +:+ default "None" (DraftGenerator.draft_path r));
         let state := append_progress line state in
         match DraftGenerator.draft r with
         | Some text =>
             let preview :=
               if (200 <? Py.len text)%nat then Py.take 200 text +:+ "..."
               else text in
             ret (append_progress ("   📝 Preview: " +:+ preview) state)
         | None =>
             (* [len(None)] raises inside the [try]; what was assigned and
                appended before stays *)
             line ← format_progress_message "error"
                      ("Draft generation failed: " +:+ no_len);
             ret (append_progress line (set_error no_len state))
         end
       else
         line ← format_progress_message "error"
                  ("Draft generation failed: " +:+ DraftGenerator.message r);
         ret (append_progress line
                (set_error (DraftGenerator.message r) state)))
      (fun e =>
         Some (line ← format_progress_message "error"
                        ("Draft generation failed: " +:+ exn_str e);
               ret (append_progress line (set_error (exn_str e) state))));
    stage_end ← time_time;
    ret (set_stage_time "draft" (stage_end - stage_start) state).

Definition rule : string := Py.replicate_char 50 "=".

(** [for stage, duration in state["stage_times"].items(): ...] *)
Definition list_stage_times (s : PipelineState) : PipelineState :=
  fold_left
    (fun s '(stage, duration) =>
       append_progress ("   • " +:+ Py.capitalize stage +:+ ": "
                        +:+ format_seconds duration +:+ "s") s)
    (stage_times s) s.

Definition finalize_node (state : PipelineState) : io PipelineState :=
  now ← time_time;
  let total_time := now - start_time state in
  let state := append_progress (String Py.newline rule) state in
  let state := append_progress "📊 PIPELINE SUMMARY" state in
  let state := append_progress rule state in
  if has_error state then
    let state := append_progress "❌ Status: Failed" state in
    ret (append_progress ("⚠️ Error: " +:+ default "" (error state)) state)
  else
    let state := append_progress "✅ Status: Completed Successfully" state in
    let state := append_progress
                   ("📚 Papers processed: " +:+ pretty (length (papers state)))
                   state in
    let state := append_progress
                   ("⏱️ Total time: " +:+ format_seconds total_time +:+ " seconds")
                   state in
    let state := append_progress (String Py.newline "📈 Stage Times:") state in
    ret (list_stage_times state).

(** The compiled graph: [search], [extract], [analyze], [draft],
    [finalize], each edge unconditional. *)
Definition invoke (initial_state : PipelineState) : io PipelineState :=
  state ← search_node initial_state;
  state ← extract_node state;
  state ← analyze_node state;
  state ← draft_node state;
  finalize_node state.

End Nodes.

End App.

(** ** pipeline.py *)

Module Pipeline.

(** The nodes that [build_pipeline] adds to the graph. *)
Inductive node : Type :=
| process_input | planner | search_articles | article_decisions
| download_articles
| extract_text | normalize_text | semantic_section | validate_sections
| store_sections
| paper_analyzer | cross_compare
| write_abstract | write_introduction | write_methods | write_results
| write_conclusion | write_references
| aggregate_paper
| critique_paper | revise_paper | final_draft.

Global Instance node_eq_dec : EqDecision node.
Proof. solve_decision. Defined.

(** Modelled from the spec: the critique record, a quality signal and
    revision suggestions (the [state] module is not among the sources). *)
Record CritiqueResult : Type := {
  adequate : bool;
  suggestions : string
}.

(** Modelled from the spec: the fields of [PaperState] that the revision loop
    reads or writes (the [state] module is not among the sources);
    [topic], [step_log], [errors] and [revision_count] are the keys that
    [run_pipeline] sets in its initial state. *)
Record PaperState : Type := {
  topic : string;
  step_log : list string;
  errors : list string;
  revision_count : nat;
  aggregated_draft : option string;
  critique : option CritiqueResult;
  final_draft_text : option string
}.

(** The initial state of [run_pipeline]. *)
Definition initial_state (topic_ : string) : PaperState :=
  {| topic := topic_; step_log := []; errors := []; revision_count := 0;
     aggregated_draft := None; critique := None; final_draft_text := None |}.

(** Modelled from the spec: the revision cap of the reference behaviour. *)
Definition REVISION_CAP : nat := 2.

(** Modelled from the spec: [revise_node], the router after the critique (it
    is imported from [draft_generator], whose copy among the sources does not
    define it): revise while the cap is not reached and the critique signals
    inadequate quality, otherwise finalize. *)
Definition revise_node (state : PaperState) : node :=
  if (revision_count state <? REVISION_CAP)%nat
     && match critique state with
        | Some c => negb (adequate c)
        | None => false
        end
  then revise_paper
  else final_draft.

Section Stages.

(** The stage functions that are imported from modules outside the
    sources, as functions of the state. *)
Variable stage : node -> PaperState -> PaperState.

(** The generation calls behind the critique and the revision: what they
    give for the designated field, and the messages they add to [errors]. *)
Variable run_critique : PaperState -> option CritiqueResult * list string.
Variable run_revision : PaperState -> option string * list string.

(** Modelled from the spec: [critique_paper_node] writes the critique (and
    may record errors); it does not touch [revision_count]. *)
Definition critique_paper_node (state : PaperState) : PaperState :=
  let '(result, failures) := run_critique state in
  {| topic := topic state;
     step_log := step_log state ++ ["critique_paper"];
     errors := errors state ++ failures;
     revision_count := revision_count state;
     aggregated_draft := aggregated_draft state;
     critique := result;
     final_draft_text := final_draft_text state |}.

(** Modelled from the spec: [revise_paper_node] increments
    [revision_count] and rewrites the aggregated draft from the critique. *)
Definition revise_paper_node (state : PaperState) : PaperState :=
  let '(rewritten, failures) := run_revision state in
  {| topic := topic state;
     step_log := step_log state ++ ["revise_paper"];
     errors := errors state ++ failures;
     revision_count := S (revision_count state);
     aggregated_draft := rewritten;
     critique := critique state;
     final_draft_text := final_draft_text state |}.

(** Modelled from the spec: [final_draft_node] always produces a text,
    falling back to the aggregated draft at hand. *)
Definition final_draft_node (state : PaperState) : PaperState :=
  {| topic := topic state;
     step_log := step_log state ++ ["final_draft"];
     errors := errors state;
     revision_count := revision_count state;
     aggregated_draft := aggregated_draft state;
     critique := critique state;
     final_draft_text := Some (default "" (aggregated_draft state)) |}.

(** The function that [build_pipeline] registers for a node. *)
Definition node_function (n : node) : PaperState -> PaperState :=
  match n with
  | critique_paper => critique_paper_node
  | revise_paper => revise_paper_node
  | final_draft => final_draft_node
  | other => stage other
  end.

(** The edges of [build_pipeline]; [None] is [END].  The one conditional
    edge, after [critique_paper], asks [revise_node]. *)
Definition next_node (n : node) (state : PaperState) : option node :=
  match n with
  | process_input => Some planner
  | planner => Some search_articles
  | search_articles => Some article_decisions
  | article_decisions => Some download_articles
  | download_articles => Some extract_text
  | extract_text => Some normalize_text
  | normalize_text => Some semantic_section
  | semantic_section => Some validate_sections
  | validate_sections => Some store_sections
  | store_sections => Some paper_analyzer
  | paper_analyzer => Some cross_compare
  | cross_compare => Some write_abstract
  | write_abstract => Some write_introduction
  | write_introduction => Some write_methods
  | write_methods => Some write_results
  | write_results => Some write_conclusion
  | write_conclusion => Some write_references
  | write_references => Some aggregate_paper
  | aggregate_paper => Some critique_paper
  | critique_paper => Some (revise_node state)
  | revise_paper => Some critique_paper
  | final_draft => None
  end.

(** The compiled graph at work: run the node, follow the edge.  [fuel]
    bounds the number of nodes run; [visited] collects them in order. *)
Fixpoint run_graph (fuel : nat) (n : node) (state : PaperState)
    (visited : list node) : option (PaperState * list node) :=
  match fuel with
  | O => None
  | S fuel' =>
      let state' := node_function n state in
      let visited' := visited ++ [n] in
      match next_node n state' with
      | None => Some (state', visited')
      | Some m => run_graph fuel' m state' visited'
      end
  end.

(** [run_generate_only], with the nodes it calls, in order. *)
Definition run_generate_only (state : PaperState) : PaperState * list node :=
  let chain :=
    [extract_text; normalize_text; semantic_section; validate_sections;
     store_sections; paper_analyzer; cross_compare;
     write_abstract; write_introduction; write_methods; write_results;
     write_conclusion; write_references; aggregate_paper] in
  let state := fold_left (fun s fn => node_function fn s) chain state in
  let state := critique_paper_node state in
  let decision := revise_node state in
  let '(state, called) :=
    if bool_decide (decision = revise_paper)
    then (critique_paper_node (revise_paper_node state),
          chain ++ [critique_paper; revise_paper; critique_paper])
    else (state, chain ++ [critique_paper]) in
  (final_draft_node state, called ++ [final_draft]).

(** [run_revise_only] on a state that has its [revision_count]. *)
Definition run_revise_only (state : PaperState) : PaperState * list node :=
  let state := critique_paper_node state in
  let state := revise_paper_node state in
  let state := critique_paper_node state in
  (final_draft_node state,
   [critique_paper; revise_paper; critique_paper; final_draft]).

End Stages.

(** How often a node occurs in a run. *)
Definition visits (n : node) (visited : list node) : nat :=
  length (filter (fun m => m = n) visited).

End Pipeline.

(** * Vocabulary of the properties, and sample data *)

(** What the loop of [chunk_text] maintains after the paragraphs [seen]:
    the closed chunks followed by the open one spell [seen]. *)
Definition chunk_inv (st : Utils.chunk_state) (seen : list string) : Prop :=
  let '(chunks, current_chunk, _) := st in
  match current_chunk with
  | [] => chunks = [] /\ seen = []
  | _ :: _ =>
      seen <> [] /\
      Py.join Py.para_sep (chunks ++ [Py.join Py.para_sep current_chunk]) =
      Py.join Py.para_sep seen
  end.

(** Three paragraphs, the last two separated by an empty one. *)
Definition sample_text : string :=
  "First paragraph." +:+ Py.para_sep +:+ "Second one."
  +:+ Py.para_sep +:+ Py.para_sep +:+ "Third.".

(** A character outside the class that [sanitize_filename] replaces. *)
Definition valid_char (c : ascii) : bool := negb (Utils.invalid_char c).

(** A short name followed by a dot and a 300-character extension. *)
Definition long_extension_name : string := "a." +:+ Py.replicate_char 300 "b".

(** The world after some more events, the files untouched. *)
Definition logged (evs : list event) (w : world) : world :=
  {| fs := fs w; log := log w ++ evs |}.

(** The gate in the words of its contract: the file is there, its
    extension is [.pdf], it is not empty, it can be read, and its first four
    bytes are the PDF signature. *)
Definition genuine_pdf (w : world) (file_path : string) : Prop :=
  exists f,
    fs w !! file_path = Some f /\
    Py.lower (Path.suffix file_path) = ".pdf" /\
    (0 < Py.len (content f))%nat /\
    readable f = true /\
    Py.take 4 (content f) = "%PDF".

(** The file-system accesses up to and including the first failing check. *)
Definition checks_reached (w : world) (file_path : string) : list event :=
  match fs w !! file_path with
  | None => [EvExists file_path]
  | Some f =>
      if negb (String.eqb (Py.lower (Path.suffix file_path)) ".pdf")
      then [EvExists file_path]
      else if (Py.len (content f) =? 0)%nat
           then [EvExists file_path; EvStat file_path]
           else [EvExists file_path; EvStat file_path; EvRead file_path]
  end.

(** A small disk to try the gate on. *)
Definition pdf_bytes : string := "%PDF-1.4 minimal".

Definition sample_disk : gmap string file :=
  <["papers/good.pdf" := {| content := pdf_bytes; readable := true |}]>
  (<["papers/empty.pdf" := {| content := ""; readable := true |}]>
  (<["papers/page.pdf" := {| content := "<html>"; readable := true |}]>
  (<["papers/locked.pdf" := {| content := pdf_bytes; readable := false |}]>
  (<["papers/good.txt" := {| content := pdf_bytes; readable := true |}]> ∅)))).

Definition sample_world : world := {| fs := sample_disk; log := [] |}.

(** A stretch of the log without a network request. *)
Definition no_request (evs : list event) : Prop :=
  count_events is_http_get evs = 0%nat.

(** What [download_pdf] promises about the target path when it returns. *)
Definition settled (pdf_path : string) (r : option string) (w : world) : Prop :=
  match r with
  | Some p => p = pdf_path /\ genuine_pdf w pdf_path
  | None => fs w !! pdf_path = None
  end.

(** The deterministic path of a paper's artifact. *)
Definition target_path (paper : Paper.t) (save_dir : string) : string :=
  Path.join save_dir (Utils.sanitize_filename (Paper.title paper) +:+ ".pdf").

(** Concrete data to run the download on. *)
Definition sample_paper : Paper.t :=
  {| Paper.title := "Attention: Is All You Need?";
     Paper.abstract := "";
     Paper.pdf_url := "https://example.org/attention.pdf";
     Paper.url := "https://example.org/attention";
     Paper.year := Some 2017;
     Paper.authors := [Some "A. Vaswani"];
     Paper.venue := Some "NeurIPS";
     Paper.citation_count := 0;
     Paper.local_path := None |}.

Definition sample_target : string := "papers/Attention_ Is All You Need_.pdf".

Definition blank_world : world := {| fs := ∅; log := [] |}.

(** A server that streams a small PDF, one that sends a web page, and a host
    that cannot be reached. *)
Definition pdf_server : string -> nat -> http_outcome :=
  fun _ _ => Streamed "application/pdf" ["%PDF-1.7"; ""; " body"] false.

Definition html_server : string -> nat -> http_outcome :=
  fun _ _ => Streamed "text/html" ["<html>"; "</html>"] false.

Definition unreachable_host : string -> nat -> http_outcome :=
  fun _ _ => ConnectionFailed "connection timed out".

(** A stale web page sits where the artifact should be. *)
Definition stale_world : world :=
  {| fs := {[ sample_target := {| content := "<html>"; readable := true |} ]};
     log := [] |}.

Definition after_first_download : world :=
  snd (PaperSearcher.download_pdf pdf_server sample_paper "papers" blank_world).

Section RetryTrace.

Variable wait : nat -> Z.
Variable evs : list event.

(** What a run of the executor looks like from outside when every attempt
    leaves the trace [evs] and raises: attempts separated by sleeps. *)
Fixpoint retry_trace (remaining attempt_number : nat) : list event :=
  evs ++ match remaining with
         | O => []
         | S r => EvSleep (wait attempt_number) :: retry_trace r (S attempt_number)
         end.

(** The sleeps of such a run, in order. *)
Fixpoint retry_waits (remaining attempt_number : nat) : list Z :=
  match remaining with
  | O => []
  | S r => wait attempt_number :: retry_waits r (S attempt_number)
  end.

End RetryTrace.

(** The request that [search_papers] sends. *)
Definition search_request : event :=
  EvHttpGet (PaperSearcher.base_url +:+ "/paper/search").

(** A reader that finds three pages, the second one blank. *)
Definition sample_fitz : string -> option (list string) :=
  fun _ => Some ["Title page"; "   "; "Body text"].

(** Every model answers every request with an empty text or an error. *)
Definition exhausted (generate_content : string -> string -> nat -> result string)
  : Prop :=
  forall model_name prompt n,
    generate_content model_name prompt n = Ok "" \/
    exists e, generate_content model_name prompt n = Raise e.

Definition all_failed : exn :=
  DraftGenerationError "All models failed to generate draft".

Definition models_to_try : list string :=
  Config.GEMINI_MODEL :: Config.AVAILABLE_MODELS.

(** A generation service whose models all answer with an empty text. *)
Definition silent_service : string -> string -> nat -> result string :=
  fun _ _ _ => Ok "".

Definition plain_dumps : json -> string := fun _ => "{}".

Definition plain_draft_prompt : string -> string -> string :=
  fun topic analysis_data => topic +:+ " " +:+ analysis_data.

(** The five lines that [finalize_node] adds for a failed run. *)
Definition failure_report (msg : string) : list string :=
  [String Py.newline App.rule; "📊 PIPELINE SUMMARY"; App.rule;
   "❌ Status: Failed"; "⚠️ Error: " +:+ msg].

(** [state["progress"].extend(lines)], everything else as it was. *)
Definition with_report (lines : list string) (s : App.PipelineState)
  : App.PipelineState :=
  fold_left (fun s line => App.append_progress line s) lines s.

(** A message stamp that shows the status only. *)
Definition plain_stamp : world -> string -> string -> string :=
  fun _ _ status => status.

(** A search that found nothing, and the state it leaves. *)
Definition empty_search : string -> io App.search_result :=
  fun _ => ret {| App.found_success := false;
                  App.found_message := "No papers found with PDF links";
                  App.found_papers := [] |}.

Definition failed_state : App.PipelineState :=
  {| App.topic := "graph neural networks"; App.papers := [];
     App.search_success := false;
     App.search_message := "No papers found with PDF links";
     App.extracted_paths := []; App.extraction_success := false;
     App.extraction_message := "";
     App.analysis_paths := []; App.analysis_success := false;
     App.analysis_message := "";
     App.draft := None; App.draft_path := None;
     App.draft_success := false; App.draft_message := "";
     App.error := Some "No papers found with PDF links";
     App.progress := ["Searching for papers on: 'graph neural networks'";
                      "Search failed: No papers found with PDF links"];
     App.start_time := 0; App.stage_times := [("search", 0)] |}.

(** The nodes before the critique, in the order of the edges. *)
Definition lead_in : list Pipeline.node :=
  [Pipeline.process_input; Pipeline.planner; Pipeline.search_articles;
   Pipeline.article_decisions; Pipeline.download_articles;
   Pipeline.extract_text; Pipeline.normalize_text; Pipeline.semantic_section;
   Pipeline.validate_sections; Pipeline.store_sections;
   Pipeline.paper_analyzer; Pipeline.cross_compare;
   Pipeline.write_abstract; Pipeline.write_introduction; Pipeline.write_methods;
   Pipeline.write_results; Pipeline.write_conclusion; Pipeline.write_references;
   Pipeline.aggregate_paper].

(** A critique that is never satisfied, and one that always is. *)
Definition harsh_critique
  : Pipeline.PaperState -> option Pipeline.CritiqueResult * list string :=
  fun _ => (Some {| Pipeline.adequate := false;
                    Pipeline.suggestions := "tighten the argument" |}, []).

Definition kind_critique
  : Pipeline.PaperState -> option Pipeline.CritiqueResult * list string :=
  fun _ => (Some {| Pipeline.adequate := true; Pipeline.suggestions := "" |}, []).

Definition plain_revision : Pipeline.PaperState -> option string * list string :=
  fun s => (Some (default "" (Pipeline.aggregated_draft s) +:+ " (revised)"), []).

Definition tail_of_run (l : list Pipeline.node) : list Pipeline.node := drop 19 l.

(** ** Vocabulary of the further properties *)

(** The token count of a group of paragraphs, as the loop of [chunk_text]
    adds it up. *)
Definition group_tokens (tiktoken_count : string -> option Z)
    (group : list string) : Z :=
  fold_right Z.add 0 (map (Utils.count_tokens tiktoken_count) group).

(** A chunk is within the budget, or it is a single paragraph. *)
Definition fits (tiktoken_count : string -> option Z) (max_tokens : Z)
    (group : list string) : Prop :=
  group <> [] /\
  (length group = 1%nat \/ group_tokens tiktoken_count group <= max_tokens).

(** What the loop of [chunk_text] keeps: the closed chunks are the joins of
    groups that fit, the open chunk fits, the counter is the open chunk's
    count, and nothing of what was read is lost or reordered. *)
Definition grouped (tiktoken_count : string -> option Z) (max_tokens : Z)
    (st : Utils.chunk_state) (seen : list string) : Prop :=
  let '(chunks, current_chunk, current_tokens) := st in
  exists groups,
    chunks = map (Py.join Py.para_sep) groups /\
    Forall (fits tiktoken_count max_tokens) groups /\
    concat groups ++ current_chunk = seen /\
    current_tokens = group_tokens tiktoken_count current_chunk /\
    (current_chunk = [] \/ fits tiktoken_count max_tokens current_chunk).

(** A computation changes the disk at most at the paths of [P]. *)
Definition touches_only {A : Type} (P : string -> Prop) (m : io A) : Prop :=
  forall w r w', m w = (r, w') ->
  forall q, ~ P q -> fs w' !! q = fs w !! q.

(** A paper that [process_topic] has put on disk: its [local_path] is the
    target path of its title and the file there passes the gate. *)
Definition on_disk (save_dir : string) (w : world) (paper : Paper.t) : Prop :=
  exists p,
    Paper.local_path paper = Some p /\
    p = Path.join save_dir (Utils.sanitize_filename (Paper.title paper) +:+ ".pdf") /\
    genuine_pdf w p.

(** An answer of the search service: one entry with a PDF, one without, one
    with an empty link. *)
Definition sample_entries : list search_entry :=
  [ {| e_title := Some "Attention: Is All You Need?"; e_abstract := None;
       e_url := Some "https://example.org/attention";
       e_open_access_pdf := Some "https://example.org/attention.pdf";
       e_year := Some 2017; e_authors := [Some "A. Vaswani"];
       e_venue := Some "NeurIPS"; e_citation_count := Some 7 |};
    {| e_title := Some "Closed access"; e_abstract := None; e_url := None;
       e_open_access_pdf := None; e_year := None; e_authors := [];
       e_venue := None; e_citation_count := None |};
    {| e_title := None; e_abstract := None; e_url := None;
       e_open_access_pdf := Some ""; e_year := None; e_authors := [];
       e_venue := None; e_citation_count := None |} ].

Definition answering_search : string -> Z -> nat -> search_outcome :=
  fun _ _ _ => SearchData sample_entries.

Definition failing_search : string -> Z -> nat -> search_outcome :=
  fun _ _ _ => SearchFailed "connection timed out".

Definition plain_metadata : string -> string -> nat -> list Paper.t -> string :=
  fun topic stamp n _ => topic +:+ " " +:+ stamp +:+ " " +:+ pretty n.

(** A computation only adds events of [Q] to the log. *)
Definition emits_only {A : Type} (Q : event -> Prop) (m : io A) : Prop :=
  forall w r w', m w = (r, w') ->
  exists evs, log w' = log w ++ evs /\ Forall Q evs.


(** Where [save_metadata] writes. *)
Definition metadata_path (save_dir topic : string) : string :=
  Path.join save_dir (Utils.sanitize_filename topic +:+ "_metadata.json").

(** A run of [process_topic] against the sample services. *)
Definition sample_topic_run : result PaperSearcher.topic_result * world :=
  PaperSearcher.process_topic pdf_server answering_search 3 "papers"
    "2024-01-01 00:00:00" plain_metadata "attention" blank_world.

Definition sample_topic_result : PaperSearcher.topic_result :=
  match fst sample_topic_run with
  | Ok r => r
  | Raise _ => {| PaperSearcher.success := false; PaperSearcher.message := "";
                  PaperSearcher.papers := [] |}
  end.

(** A dictionary that has every key of a list. *)
Definition has_keys (keys : list string) (v : json) : Prop :=
  exists fields, v = JObj fields /\
    forall key, In key keys -> is_Some (Dict.get key fields).

(** The models of the fallback chain that were asked, in order: a front part
    of the chain. *)
Definition asked (k : nat) : list event :=
  map EvGenerate (firstn k (Config.GEMINI_MODEL :: Config.AVAILABLE_MODELS)).

(** What a caller keeps of one answer of the generation service: its text
    when there is one, nothing when the call raised or the text is empty. *)
Definition answer_of (r : result string) : option string :=
  match r with
  | Ok text => if Py.truthy text then Some text else None
  | Raise _ => None
  end.

(** A service whose configured model is down and whose first fallback
    answers. *)
Definition degraded_service (model_name prompt : string) (n : nat) : result string :=
  match n with
  | O => Raise (OSError "503 model overloaded")
  | S _ => Ok ("A review. " +:+ prompt)
  end.

(** Where [save_draft] writes. *)
Definition draft_target (DRAFTS_DIR timestamp topic : string) : string :=
  Path.join DRAFTS_DIR
    (Utils.sanitize_filename topic +:+ "_review_draft_" +:+ timestamp +:+ ".txt").

(** The draft that the degraded service gives for the sample topic. *)
Definition sample_draft : string := "A review. graph neural networks {}".

(** A later state of the same run: the topic and the start time are the
    same, and the progress log has only grown at its end. *)
Definition extends (s s' : App.PipelineState) : Prop :=
  App.topic s' = App.topic s /\
  App.start_time s' = App.start_time s /\
  exists lines, App.progress s' = App.progress s ++ lines.

(** The stage times recorded in [s] are still recorded in [s']. *)
Definition keeps_times (s s' : App.PipelineState) : Prop :=
  forall stage, is_Some (Dict.get stage (App.stage_times s)) ->
                is_Some (Dict.get stage (App.stage_times s')).

(** A collaborator that returns [a] in every world (it may change the
    world), and one that raises [e] in every world. *)
Definition returns {A : Type} (m : io A) (a : A) : Prop :=
  forall w, exists w', m w = (Ok a, w').

Definition raises {A : Type} (m : io A) (e : exn) : Prop :=
  forall w, exists w', m w = (Raise e, w').

(** The state of a run that has not started, and collaborators that all
    succeed. *)
Definition fresh_state : App.PipelineState :=
  {| App.topic := "graph neural networks"; App.papers := [];
     App.search_success := false; App.search_message := "";
     App.extracted_paths := []; App.extraction_success := false;
     App.extraction_message := "";
     App.analysis_paths := []; App.analysis_success := false;
     App.analysis_message := "";
     App.draft := None; App.draft_path := None;
     App.draft_success := false; App.draft_message := "";
     App.error := None; App.progress := [];
     App.start_time := 0; App.stage_times := [] |}.

Definition good_search : App.search_result :=
  {| App.found_success := true;
     App.found_message := "Successfully downloaded 1 valid PDFs";
     App.found_papers := [sample_paper] |}.

Definition good_review : DraftGenerator.review :=
  {| DraftGenerator.success := true;
     DraftGenerator.message := "Successfully generated draft from 1 papers";
     DraftGenerator.draft := Some "A review.";
     DraftGenerator.draft_path := Some "drafts/graph neural networks_review_draft_1.txt";
     DraftGenerator.num_papers := Some 1%nat |}.

(** The four working stages, as [stage_times] names them. *)
Definition working_stages : list string := ["search"; "extract"; "analyze"; "draft"].

(** * Properties *)

(** ** String primitives *)

Section PyFacts.

Lemma join_cons_nonempty sep x y rest :
  Py.join sep (x :: y :: rest) = x +:+ sep +:+ Py.join sep (y :: rest).
Proof. reflexivity. Qed.

Lemma join_push_front sep c parts :
  parts <> [] ->
  Py.join sep (Py.push_front c parts) = String c (Py.join sep parts).
Proof.
  destruct parts as [|p rest]; [congruence|]. intros _.
  destruct rest as [|q rest]; reflexivity.
Qed.

Lemma split_paragraphs_step c1 c2 s2 :
  Py.split_paragraphs (String c1 (String c2 s2)) =
  if Ascii.eqb c1 Py.newline && Ascii.eqb c2 Py.newline
  then EmptyString :: Py.split_paragraphs s2
  else Py.push_front c1 (Py.split_paragraphs (String c2 s2)).
Proof. reflexivity. Qed.

Lemma push_front_nonempty c parts : Py.push_front c parts <> [].
Proof. by destruct parts. Qed.

Lemma split_paragraphs_nonempty s : Py.split_paragraphs s <> [].
Proof.
  destruct s as [|c1 [|c2 s2]]; [done | done |].
  rewrite split_paragraphs_step.
  destruct (Ascii.eqb c1 Py.newline && Ascii.eqb c2 Py.newline); [done|].
  apply push_front_nonempty.
Qed.

(** Splitting at the paragraph separator and joining again is the
    identity: [split] loses nothing but the separators. *)
Lemma join_split_paragraphs s :
  Py.join Py.para_sep (Py.split_paragraphs s) = s.
Proof.
  cut (Py.join Py.para_sep (Py.split_paragraphs s) = s /\
       forall c, Py.join Py.para_sep (Py.split_paragraphs (String c s)) = String c s).
  { intros [H _]. exact H. }
  induction s as [|c2 s2 [IH1 IH2]].
  - split; [reflexivity|]. intros c. reflexivity.
  - split; [apply IH2|]. intros c1.
    rewrite split_paragraphs_step.
    destruct (Ascii.eqb c1 Py.newline && Ascii.eqb c2 Py.newline) eqn:E.
    + apply andb_true_iff in E as [E1 E2].
      apply Ascii.eqb_eq in E1, E2. subst c1 c2.
      pose proof (split_paragraphs_nonempty s2) as Hne.
      destruct (Py.split_paragraphs s2) as [|p rest] eqn:Hs; [done|].
      rewrite join_cons_nonempty, IH1. reflexivity.
    + rewrite join_push_front by apply split_paragraphs_nonempty.
      rewrite IH2. reflexivity.
Qed.

End PyFacts.

Section JoinFacts.

Variable sep : string.

Lemma append_assoc3 (a b c : string) : (a +:+ b) +:+ c = a +:+ (b +:+ c).
Proof.
  induction a as [|x a IH]; [reflexivity|].
  change (String x ((a +:+ b) +:+ c) = String x (a +:+ (b +:+ c))).
  by rewrite IH.
Qed.

Lemma join_single (x : string) : Py.join sep [x] = x.
Proof. reflexivity. Qed.

Lemma join_snoc_append (l : list string) (a t : string) :
  Py.join sep (l ++ [a +:+ t]) = Py.join sep (l ++ [a]) +:+ t.
Proof.
  induction l as [|x l IH]; [reflexivity|].
  destruct l as [|y l].
  - change (Py.join sep [x; a +:+ t] = Py.join sep [x; a] +:+ t).
    rewrite !join_cons_nonempty, !join_single.
    by rewrite !append_assoc3.
  - change (Py.join sep (x :: y :: (l ++ [a +:+ t])) =
            Py.join sep (x :: y :: (l ++ [a])) +:+ t).
    change (Py.join sep (y :: (l ++ [a +:+ t])) =
            Py.join sep (y :: (l ++ [a])) +:+ t) in IH.
    rewrite !join_cons_nonempty, IH.
    by rewrite !append_assoc3.
Qed.

Lemma join_snoc (l : list string) (x : string) :
  l <> [] -> Py.join sep (l ++ [x]) = Py.join sep l +:+ sep +:+ x.
Proof.
  induction l as [|y l IH]; [done|]. intros _.
  destruct l as [|z l]; [reflexivity|].
  change (Py.join sep (y :: z :: (l ++ [x])) =
          Py.join sep (y :: z :: l) +:+ sep +:+ x).
  change (z :: l <> [] -> Py.join sep (z :: (l ++ [x])) =
          Py.join sep (z :: l) +:+ sep +:+ x) in IH.
  rewrite !join_cons_nonempty, IH by done.
  by rewrite !append_assoc3.
Qed.

End JoinFacts.

(** ** utils.py: chunk_text *)

Section ChunkFacts.

Variable tiktoken_count : string -> option Z.
Variable max_tokens : Z.

Lemma chunk_step_inv st seen para :
  chunk_inv st seen ->
  chunk_inv (Utils.chunk_step tiktoken_count max_tokens st para) (seen ++ [para]).
Proof.
  destruct st as [[chunks cur] tokens]. unfold Utils.chunk_step, chunk_inv.
  destruct cur as [|p cur].
  - intros [-> ->]. rewrite bool_decide_eq_true_2 by done.
    rewrite andb_false_r. simpl. split; [done | reflexivity].
  - intros [Hne Hjoin]. rewrite bool_decide_eq_false_2 by done.
    rewrite andb_true_r.
    destruct (max_tokens <? tokens + Utils.count_tokens tiktoken_count para).
    + split; [by destruct seen|].
      rewrite join_snoc by (by destruct chunks).
      rewrite join_single, Hjoin, join_snoc by done. reflexivity.
    + change ((p :: cur) ++ [para]) with (p :: (cur ++ [para])).
      destruct (cur ++ [para]) as [|q rest] eqn:Hc; [by destruct cur|].
      split; [by destruct seen|]. rewrite <- Hc.
      change (p :: (cur ++ [para])) with ((p :: cur) ++ [para]).
      rewrite (join_snoc _ (p :: cur)) by done.
      rewrite join_snoc_append, Hjoin, join_snoc by done. reflexivity.
Qed.

Lemma chunk_fold_inv paragraphs st seen :
  chunk_inv st seen ->
  chunk_inv (fold_left (Utils.chunk_step tiktoken_count max_tokens) paragraphs st)
            (seen ++ paragraphs).
Proof.
  revert st seen. induction paragraphs as [|para rest IH]; intros st seen Hinv.
  - by rewrite app_nil_r.
  - simpl fold_left. replace (seen ++ para :: rest) with ((seen ++ [para]) ++ rest)
      by (by rewrite <- app_assoc).
    apply IH, chunk_step_inv, Hinv.
Qed.

(** Joining the chunks spells the input, for every budget. *)
Lemma chunk_text_join text :
  Py.join Py.para_sep (Utils.chunk_text tiktoken_count text max_tokens) = text.
Proof.
  unfold Utils.chunk_text.
  pose proof (chunk_fold_inv (Py.split_paragraphs text) ([], [], 0) []) as Hinv.
  destruct (fold_left _ _ _) as [[chunks cur] tokens].
  specialize (Hinv (conj eq_refl eq_refl)). unfold chunk_inv in Hinv.
  rewrite app_nil_l in Hinv.
  destruct cur as [|p cur].
  - destruct Hinv as [_ Hnil]. by apply split_paragraphs_nonempty in Hnil.
  - destruct Hinv as [_ Hjoin]. rewrite bool_decide_eq_false_2 by done.
    rewrite Hjoin. apply join_split_paragraphs.
Qed.

End ChunkFacts.

(** C9: for every text and every positive token budget, joining the chunks
    returned by [chunk_text] with the two-newline separator gives back the
    text exactly, whatever the token counter answers. *)
Theorem chunk_text_lossless (tiktoken_count : string -> option Z)
    (text : string) (max_tokens : Z) :
  0 < max_tokens ->
  Py.join Py.para_sep (Utils.chunk_text tiktoken_count text max_tokens) = text.
Proof. intros _. apply chunk_text_join. Qed.

Example chunk_text_sample :
  Utils.chunk_text (fun _ => None) sample_text 2 =
  ["First paragraph."; "Second one." +:+ Py.para_sep; "Third."].
Proof. vm_compute. reflexivity. Qed.

Lemma chunk_text_lossless_witness :
  0 < 2 /\
  Py.join Py.para_sep (Utils.chunk_text (fun _ => None) sample_text 2) = sample_text.
Proof. split; [lia | apply (chunk_text_lossless (fun _ => None) sample_text 2); lia]. Defined.

(** ** utils.py: sanitize_filename *)

Section SanitizeFacts.

Lemma all_chars_append p (a b : string) :
  Py.all_chars p (a +:+ b) = Py.all_chars p a && Py.all_chars p b.
Proof.
  induction a as [|c a IH]; [reflexivity|].
  change (p c && Py.all_chars p (a +:+ b) =
          p c && Py.all_chars p a && Py.all_chars p b).
  by rewrite IH, andb_assoc.
Qed.

Lemma all_chars_take p n s :
  Py.all_chars p s = true -> Py.all_chars p (Py.take n s) = true.
Proof.
  revert s. induction n as [|n IH]; intros [|c s]; simpl; try done.
  intros [Hc Hs]%andb_true_iff. by rewrite Hc, IH.
Qed.

Lemma all_chars_rsplit_dot p s name ext :
  Py.all_chars p s = true -> Py.rsplit_dot s = Some (name, ext) ->
  Py.all_chars p name = true /\ Py.all_chars p ext = true.
Proof.
  revert name ext. induction s as [|c s IH]; intros name ext; simpl; [done|].
  intros [Hc Hs]%andb_true_iff.
  destruct (Py.rsplit_dot s) as [[n e]|].
  - intros [= <- <-]. destruct (IH n e Hs eq_refl) as [Hn He].
    simpl. by rewrite Hc, Hn.
  - destruct (Ascii.eqb c "."); [|done]. by intros [= <- <-].
Qed.

Lemma replace_invalid_valid s :
  Py.all_chars valid_char (Utils.replace_invalid s) = true.
Proof.
  unfold Utils.replace_invalid.
  induction s as [|c s IH]; [reflexivity|]. simpl. rewrite IH, andb_true_r.
  unfold valid_char. destruct (Utils.invalid_char c) eqn:E; [reflexivity|].
  by rewrite E.
Qed.

(** The character half of the contract holds on every input. *)
Lemma sanitize_filename_valid_chars filename :
  Py.all_chars valid_char (Utils.sanitize_filename filename) = true.
Proof.
  unfold Utils.sanitize_filename.
  pose proof (replace_invalid_valid filename) as Hv.
  destruct (200 <? Py.len (Utils.replace_invalid filename))%nat; [|exact Hv].
  destruct (Py.rsplit_dot (Utils.replace_invalid filename)) as [[name ext]|] eqn:Hs.
  - destruct (all_chars_rsplit_dot _ _ _ _ Hv Hs) as [Hn He].
    rewrite !all_chars_append, all_chars_take by done.
    destruct (Py.truthy ext); [|reflexivity].
    rewrite all_chars_append, He. reflexivity.
  - rewrite !all_chars_append, all_chars_take by done. reflexivity.
Qed.

Lemma len_append (a b : string) : Py.len (a +:+ b) = (Py.len a + Py.len b)%nat.
Proof.
  induction a as [|c a IH]; [reflexivity|].
  change (S (Py.len (a +:+ b)) = S (Py.len a + Py.len b)). by rewrite IH.
Qed.

Lemma len_take n s : (Py.len (Py.take n s) <= n)%nat.
Proof.
  unfold Py.len. revert s.
  induction n as [|n IH]; intros [|c s]; simpl; try lia.
  specialize (IH s). lia.
Qed.

(** The length limit is met whenever the name carries no dot. *)
Lemma sanitize_filename_length_without_dot filename :
  Py.rsplit_dot (Utils.replace_invalid filename) = None ->
  (Py.len (Utils.sanitize_filename filename) <= 200)%nat.
Proof.
  intros Hs. unfold Utils.sanitize_filename. rewrite Hs.
  destruct (200 <? Py.len (Utils.replace_invalid filename))%nat eqn:E.
  - rewrite !len_append. pose proof (len_take 195 (Utils.replace_invalid filename)).
    change (Py.truthy "") with false. cbv iota.
    change (Py.len "...") with 3%nat. change (Py.len "") with 0%nat. lia.
  - apply Nat.ltb_ge in E. lia.
Qed.

End SanitizeFacts.

(** C10: [sanitize_filename] removes every character of the invalid class, but
    it does not keep the result within 200 characters: only the part before
    the last dot is cut, so a long extension survives whole.  On
    [long_extension_name] the result is 305 characters long. *)
Theorem sanitize_filename_long_extension :
  Py.all_chars valid_char (Utils.sanitize_filename long_extension_name) = true /\
  Utils.sanitize_filename long_extension_name =
    "a" +:+ "..." +:+ "." +:+ Py.replicate_char 300 "b" /\
  Py.len (Utils.sanitize_filename long_extension_name) = 305%nat.
Proof. vm_compute. repeat split; reflexivity. Qed.

(** ** Running computations *)

Section RunFacts.

Context {A B : Type}.

Lemma bind_ok (m : io A) (f : A -> io B) w a w' :
  m w = (Ok a, w') -> (m ≫= f) w = f a w'.
Proof. intros H. unfold mbind, io_bind. by rewrite H. Qed.

Lemma bind_raise (m : io A) (f : A -> io B) w e w' :
  m w = (Raise e, w') -> (m ≫= f) w = (Raise e, w').
Proof. intros H. unfold mbind, io_bind. by rewrite H. Qed.

Lemma try_ok (body : io A) handler w a w' :
  body w = (Ok a, w') -> try_except body handler w = (Ok a, w').
Proof. intros H. unfold try_except. by rewrite H. Qed.

Lemma try_caught (body : io A) handler h w e w' :
  body w = (Raise e, w') -> handler e = Some h ->
  try_except body handler w = h w'.
Proof. intros H Hh. unfold try_except. by rewrite H, Hh. Qed.

Lemma try_passed (body : io A) handler w e w' :
  body w = (Raise e, w') -> handler e = None ->
  try_except body handler w = (Raise e, w').
Proof. intros H Hh. unfold try_except. by rewrite H, Hh. Qed.

End RunFacts.

Lemma logged_logged evs1 evs2 w :
  logged evs2 (logged evs1 w) = logged (evs1 ++ evs2) w.
Proof. unfold logged. cbn. by rewrite <- app_assoc. Qed.

Lemma emit_as_logged ev w : emit ev w = logged [ev] w.
Proof. reflexivity. Qed.

Ltac norm_log := rewrite ?emit_as_logged, ?logged_logged; cbn [app].

Lemma count_events_app kind l1 l2 :
  count_events kind (l1 ++ l2) = (count_events kind l1 + count_events kind l2)%nat.
Proof. unfold count_events. by rewrite filter_app, length_app. Qed.

Lemma count_events_cons kind ev l :
  count_events kind (ev :: l) =
  ((if kind ev then 1 else 0) + count_events kind l)%nat.
Proof.
  unfold count_events. destruct (kind ev) eqn:E.
  - by rewrite filter_cons_True.
  - rewrite filter_cons_False; [done|]. by rewrite E.
Qed.

Lemma count_events_nil kind : count_events kind [] = 0%nat.
Proof. reflexivity. Qed.

Section PathFacts.

Lemma emit_log ev w : log (emit ev w) = log w ++ [ev].
Proof. reflexivity. Qed.

Lemma emit_fs ev w : fs (emit ev w) = fs w.
Proof. reflexivity. Qed.

Lemma exists_run p w :
  Path.exists_ p w = (Ok (bool_decide (is_Some (fs w !! p))), emit (EvExists p) w).
Proof. reflexivity. Qed.

Lemma exists_present p w f :
  fs w !! p = Some f -> Path.exists_ p w = (Ok true, emit (EvExists p) w).
Proof. intros H. rewrite exists_run, bool_decide_eq_true_2; eauto. Qed.

Lemma exists_absent p w :
  fs w !! p = None -> Path.exists_ p w = (Ok false, emit (EvExists p) w).
Proof.
  intros H. rewrite exists_run, bool_decide_eq_false_2; [done|].
  rewrite H. by intros [? ?].
Qed.

Lemma st_size_present p w f :
  fs w !! p = Some f ->
  Path.st_size p w = (Ok (Py.len (content f)), emit (EvStat p) w).
Proof. intros H. unfold Path.st_size. by rewrite H. Qed.

Lemma read_bytes_readable p n w f :
  fs w !! p = Some f -> readable f = true ->
  Path.read_bytes p n w = (Ok (Py.take n (content f)), emit (EvRead p) w).
Proof. intros H Hr. unfold Path.read_bytes. by rewrite H, Hr. Qed.

Lemma read_bytes_unreadable p n w f :
  fs w !! p = Some f -> readable f = false ->
  Path.read_bytes p n w = (Raise (OSError "Permission denied"), emit (EvRead p) w).
Proof. intros H Hr. unfold Path.read_bytes. by rewrite H, Hr. Qed.

Lemma unlink_present p w f :
  fs w !! p = Some f ->
  Path.unlink p w = (Ok tt, emit (EvUnlink p) (set_fs (delete p (fs w)) w)).
Proof. intros H. unfold Path.unlink. by rewrite H. Qed.

End PathFacts.

(** ** The validation gate *)

Section ValidationGate.

Lemma validate_pdf_run file_path w :
  exists b,
    PaperSearcher.validate_pdf file_path w =
      (Ok b, logged (checks_reached w file_path) w) /\
    (b = true <-> genuine_pdf w file_path).
Proof.
  unfold PaperSearcher.validate_pdf, checks_reached, genuine_pdf.
  destruct (fs w !! file_path) as [f|] eqn:Hf.
  2:{ erewrite bind_ok by (by apply exists_absent). cbn [negb].
      eexists; split; [reflexivity|]. split; [done|]. by intros (? & ? & _). }
  erewrite bind_ok by (by eapply exists_present). cbn [negb].
  destruct (String.eqb (Py.lower (Path.suffix file_path)) ".pdf") eqn:Hext; cbn [negb].
  2:{ eexists; split; [reflexivity|]. split; [done|].
      intros (? & _ & Hs & _). apply String.eqb_neq in Hext. done. }
  apply String.eqb_eq in Hext.
  erewrite bind_ok by (by eapply st_size_present; rewrite emit_fs).
  norm_log.
  destruct (Py.len (content f) =? 0)%nat eqn:Hsize.
  { eexists; split; [reflexivity|]. split; [done|].
    intros (g & [= <-] & _ & Hpos & _). apply Nat.eqb_eq in Hsize. lia. }
  apply Nat.eqb_neq in Hsize.
  destruct (readable f) eqn:Hread.
  - erewrite try_ok.
    2:{ erewrite bind_ok by (by eapply read_bytes_readable). reflexivity. }
    norm_log.
    eexists; split; [reflexivity|]. split.
    + intros Hhdr%String.eqb_eq. exists f. repeat split; try done. lia.
    + intros (g & [= <-] & _ & _ & _ & Hhdr). by apply String.eqb_eq.
  - erewrite try_caught.
    2:{ erewrite bind_raise by (by eapply read_bytes_unreadable). reflexivity. }
    2:{ reflexivity. }
    norm_log.
    eexists; split; [reflexivity|].
    split; [done|]. intros (g & [= <-] & _ & _ & Hr & _). congruence.
Qed.

Lemma genuine_pdf_decided w file_path :
  genuine_pdf w file_path \/ ~ genuine_pdf w file_path.
Proof.
  destruct (validate_pdf_run file_path w) as ([|] & _ & Hiff).
  - left. by apply Hiff.
  - right. intros Hg. apply Hiff in Hg. discriminate.
Qed.

Lemma text_extractor_validate_pdf_same file_path :
  TextExtractor.validate_pdf file_path = PaperSearcher.validate_pdf file_path.
Proof. reflexivity. Qed.

End ValidationGate.


Example validate_good :
  PaperSearcher.validate_pdf "papers/good.pdf" sample_world =
  (Ok true, logged [EvExists "papers/good.pdf"; EvStat "papers/good.pdf";
                    EvRead "papers/good.pdf"] sample_world).
Proof. vm_compute. reflexivity. Qed.

Example validate_empty :
  PaperSearcher.validate_pdf "papers/empty.pdf" sample_world =
  (Ok false, logged [EvExists "papers/empty.pdf"; EvStat "papers/empty.pdf"]
               sample_world).
Proof. vm_compute. reflexivity. Qed.

Example validate_wrong_header :
  fst (PaperSearcher.validate_pdf "papers/page.pdf" sample_world) = Ok false.
Proof. vm_compute. reflexivity. Qed.

Example validate_unreadable :
  fst (PaperSearcher.validate_pdf "papers/locked.pdf" sample_world) = Ok false.
Proof. vm_compute. reflexivity. Qed.

Example validate_wrong_extension :
  PaperSearcher.validate_pdf "papers/good.txt" sample_world =
  (Ok false, logged [EvExists "papers/good.txt"] sample_world).
Proof. vm_compute. reflexivity. Qed.

Example validate_missing :
  PaperSearcher.validate_pdf "papers/none.pdf" sample_world =
  (Ok false, logged [EvExists "papers/none.pdf"] sample_world).
Proof. vm_compute. reflexivity. Qed.


(** ** tenacity *)

Section RetryFacts.

Context {A : Type}.

(** An attempt that returns is not repeated. *)
Lemma attempts_ok remaining k wait (op : io A) w a w' :
  op w = (Ok a, w') -> Tenacity.attempts remaining k wait op w = (Ok a, w').
Proof. intros H. destruct remaining; simpl; by rewrite H. Qed.

Lemma retry_ok n wait (op : io A) w a w' :
  op w = (Ok a, w') -> Tenacity.retry n wait op w = (Ok a, w').
Proof. apply attempts_ok. Qed.

Lemma attempts_raise_last k wait (op : io A) w e w' :
  op w = (Raise e, w') ->
  Tenacity.attempts 0 k wait op w = (Raise (RetryError e), w').
Proof. intros H. simpl. by rewrite H. Qed.

Lemma attempts_raise_again remaining k wait (op : io A) w e w' :
  op w = (Raise e, w') ->
  Tenacity.attempts (S remaining) k wait op w =
  Tenacity.attempts remaining (S k) wait op (emit (EvSleep (wait k)) w').
Proof. intros H. simpl. by rewrite H. Qed.

End RetryFacts.

(** ** papersearch.py: download_pdf *)

Section DownloadFacts.

Variable fetch : string -> nat -> http_outcome.

Lemma genuine_pdf_same_files w1 w2 p :
  fs w1 = fs w2 -> genuine_pdf w1 p -> genuine_pdf w2 p.
Proof. unfold genuine_pdf. intros ->. done. Qed.

Lemma checks_reached_no_request w p : no_request (checks_reached w p).
Proof.
  unfold checks_reached, no_request.
  destruct (fs w !! p); [|reflexivity].
  destruct (negb _); [reflexivity|]. by destruct (_ =? _)%nat.
Qed.

(** Writing the chunks keeps the file in place and is silent. *)
Lemma write_chunks_run p chunks w f :
  fs w !! p = Some f ->
  exists w' f',
    PaperSearcher.write_chunks p chunks w = (Ok tt, w') /\
    fs w' !! p = Some f' /\ log w' = log w.
Proof.
  revert w f. induction chunks as [|chunk rest IH]; intros w f Hf.
  - exists w, f. done.
  - simpl PaperSearcher.write_chunks. destruct (Py.truthy chunk).
    + set (w1 := set_fs (<[p := {| content := content f +:+ chunk;
                                   readable := readable f |}]> (fs w)) w).
      assert (Path.write p chunk w = (Ok tt, w1)) as Hw
        by (unfold Path.write; by rewrite Hf).
      destruct (IH w1 _ (lookup_insert_eq _ _ _)) as (w' & f' & Hrun & Hf' & Hlog).
      exists w', f'. erewrite bind_ok by exact Hw. done.
    + destruct (IH w f Hf) as (w' & f' & Hrun & Hf' & Hlog).
      exists w', f'. erewrite bind_ok by reflexivity. done.
Qed.

Lemma validate_then p w :
  exists b w',
    PaperSearcher.validate_pdf p w = (Ok b, w') /\
    fs w' = fs w /\
    (exists probes, log w' = log w ++ probes /\ no_request probes) /\
    (b = true <-> genuine_pdf w p).
Proof.
  destruct (validate_pdf_run p w) as (b & Hrun & Hiff).
  exists b, (logged (checks_reached w p) w). repeat split; try done.
  - exists (checks_reached w p). split; [done|]. apply checks_reached_no_request.
  - apply Hiff.
  - apply Hiff.
Qed.

Lemma fetch_and_validate_run paper p w :
  fs w !! p = None ->
  exists r w' post,
    PaperSearcher.fetch_and_validate fetch paper p w = (Ok r, w') /\
    settled p r w' /\
    log w' = log w ++ EvHttpGet (Paper.pdf_url paper) :: post /\
    no_request post.
Proof.
  intros Habsent. unfold PaperSearcher.fetch_and_validate.
  set (handler := fun e : exn => _).
  set (w0 := emit (EvHttpGet (Paper.pdf_url paper)) w).
  assert (Hget : PaperSearcher.session_get fetch (Paper.pdf_url paper) w =
                 (Ok (fetch (Paper.pdf_url paper) (count_events is_http_get (log w))), w0))
    by reflexivity.
  assert (Hcleanup : forall msg,
    handler (RequestException msg) =
    Some (present ← Path.exists_ p;
          (if (present : bool) then Path.unlink p else ret tt);; ret None))
    by reflexivity.
  destruct (fetch (Paper.pdf_url paper) (count_events is_http_get (log w)))
    as [msg|code|ctype chunks broken] eqn:Hout.
  - (* the request itself fails: nothing was written *)
    erewrite try_caught; [| erewrite bind_ok by exact Hget; reflexivity | apply Hcleanup].
    erewrite bind_ok by (by apply exists_absent).
    erewrite bind_ok by reflexivity.
    exists None, (emit (EvExists p) w0), [EvExists p].
    repeat split; try done. cbn. by rewrite <- app_assoc.
  - erewrite try_caught; [| erewrite bind_ok by exact Hget; reflexivity | apply Hcleanup].
    erewrite bind_ok by (by apply exists_absent).
    erewrite bind_ok by reflexivity.
    exists None, (emit (EvExists p) w0), [EvExists p].
    repeat split; try done. cbn. by rewrite <- app_assoc.
  - (* a body arrives *)
    set (w1 := emit (EvOpenWrite p)
                 (set_fs (<[p := {| content := ""; readable := true |}]> (fs w0)) w0)).
    assert (Hopen : Path.open_wb p w0 = (Ok tt, w1)) by reflexivity.
    destruct (write_chunks_run p chunks w1 _ (lookup_insert_eq _ _ _))
      as (w2 & f2 & Hwrite & Hf2 & Hlog2).
    destruct broken.
    + (* the stream breaks: the partial file is removed *)
      erewrite try_caught; [| | apply (Hcleanup "stream interrupted")].
      2:{ erewrite bind_ok by exact Hget. cbv beta iota.
          erewrite bind_ok by exact Hopen.
          erewrite bind_ok by exact Hwrite.
          erewrite bind_raise by reflexivity. reflexivity. }
      erewrite bind_ok by (by eapply exists_present).
      erewrite bind_ok by (eapply unlink_present; by rewrite emit_fs).
      eexists None, _, [EvOpenWrite p; EvExists p; EvUnlink p].
      split; [reflexivity|]. split; [apply lookup_delete_eq|].
      split; [|reflexivity]. cbn. rewrite Hlog2. cbn. by rewrite <- !app_assoc.
    + destruct (validate_then p w2) as (b & w3 & Hval & Hfs3 & (probes & Hlog3 & Hnr) & Hiff).
      destruct b.
      * (* the file passes the gate and is kept *)
        erewrite try_ok.
        2:{ erewrite bind_ok by exact Hget. cbv beta iota.
            erewrite bind_ok by exact Hopen.
            erewrite bind_ok by exact Hwrite.
            erewrite bind_ok by reflexivity.
            erewrite bind_ok by exact Hval. cbv beta iota. reflexivity. }
        exists (Some p), w3, (EvOpenWrite p :: probes).
        split; [reflexivity|]. split.
        { split; [done|]. eapply genuine_pdf_same_files; [symmetry; exact Hfs3|].
          by apply Hiff. }
        split; [|exact Hnr]. rewrite Hlog3, Hlog2. cbn. by rewrite <- !app_assoc.
      * (* the file fails the gate and is removed *)
        erewrite try_ok.
        2:{ erewrite bind_ok by exact Hget. cbv beta iota.
            erewrite bind_ok by exact Hopen.
            erewrite bind_ok by exact Hwrite.
            erewrite bind_ok by reflexivity.
            erewrite bind_ok by exact Hval. cbv beta iota.
            erewrite bind_ok by (eapply unlink_present; rewrite Hfs3; exact Hf2).
            reflexivity. }
        eexists None, _, (EvOpenWrite p :: probes ++ [EvUnlink p]).
        split; [reflexivity|]. split; [apply lookup_delete_eq|].
        split.
        { cbn. rewrite Hlog3, Hlog2. cbn. by rewrite <- !app_assoc. }
        unfold no_request in *.
        rewrite count_events_cons, count_events_app, Hnr. reflexivity.
Qed.

Lemma download_pdf_once_run paper save_dir w :
  let p := target_path paper save_dir in
  exists r w',
    PaperSearcher.download_pdf_once fetch paper save_dir w = (Ok r, w') /\
    settled p r w' /\
    (genuine_pdf w p ->
       r = Some p /\ fs w' = fs w /\
       exists probes, log w' = log w ++ probes /\ no_request probes) /\
    (forall f, fs w !! p = Some f -> ~ genuine_pdf w p ->
       exists pre post,
         log w' = log w ++ pre ++ [EvUnlink p; EvHttpGet (Paper.pdf_url paper)] ++ post /\
         no_request pre) /\
    (~ genuine_pdf w p ->
       count_events is_http_get (log w') = S (count_events is_http_get (log w))).
Proof.
  intros p. unfold PaperSearcher.download_pdf_once. fold (target_path paper save_dir).
  fold p. destruct (fs w !! p) as [f|] eqn:Hf.
  - erewrite bind_ok by (by eapply exists_present). cbv beta iota.
    destruct (validate_then p (emit (EvExists p) w))
      as (b & w3 & Hval & Hfs3 & (probes & Hlog3 & Hnr) & Hiff).
    rewrite emit_fs in Hfs3. rewrite emit_log in Hlog3.
    assert (Hgen : genuine_pdf (emit (EvExists p) w) p <-> genuine_pdf w p)
      by (split; apply genuine_pdf_same_files; by rewrite emit_fs).
    erewrite bind_ok by exact Hval. cbv beta iota. destruct b.
    + (* already there and valid *)
      exists (Some p), w3. split; [reflexivity|].
      assert (genuine_pdf w p) as Hg by (apply Hgen, Hiff; reflexivity).
      split; [split; [done|]; eapply genuine_pdf_same_files; [symmetry; exact Hfs3|done]|].
      split.
      { intros _. split; [done|]. split; [done|].
        exists (EvExists p :: probes). split; [by rewrite Hlog3, <- app_assoc|].
        unfold no_request in *. by rewrite count_events_cons, Hnr. }
      split; intros; tauto.
    + (* there but invalid: removed, then fetched *)
      assert (~ genuine_pdf w p) as Hng.
      { intros Hg. apply Hgen, Hiff in Hg. discriminate. }
      erewrite bind_ok by (eapply unlink_present; rewrite Hfs3; exact Hf).
      set (w4 := emit (EvUnlink p) (set_fs (delete p (fs w3)) w3)).
      destruct (fetch_and_validate_run paper p w4 (lookup_delete_eq _ _))
        as (r & w' & post & Hrun & Hset & Hlog & Hpost).
      exists r, w'. split; [exact Hrun|]. split; [exact Hset|].
      assert (Hlog' : log w' = log w ++ (EvExists p :: probes) ++
                [EvUnlink p; EvHttpGet (Paper.pdf_url paper)] ++ post).
      { rewrite Hlog. unfold w4. rewrite emit_log. cbn [set_fs log].
        rewrite Hlog3. cbn. by rewrite <- !app_assoc. }
      split; [tauto|]. split.
      * intros _ _ _. exists (EvExists p :: probes), post. split; [exact Hlog'|].
        unfold no_request in *. by rewrite count_events_cons, Hnr.
      * intros _. rewrite Hlog'. unfold no_request in *.
        rewrite !count_events_app, !count_events_cons, Hnr, Hpost. cbn. lia.
  - (* nothing there yet *)
    erewrite bind_ok by (by apply exists_absent). cbv beta iota.
    assert (~ genuine_pdf w p) as Hng.
    { intros (g & Hg & _). congruence. }
    destruct (fetch_and_validate_run paper p (emit (EvExists p) w))
      as (r & w' & post & Hrun & Hset & Hlog & Hpost); [by rewrite emit_fs|].
    exists r, w'. split; [exact Hrun|]. split; [exact Hset|].
    split; [tauto|]. split; [congruence|].
    intros _. rewrite Hlog, emit_log. unfold no_request in *.
    rewrite !count_events_app, !count_events_cons, Hpost. cbn. lia.
Qed.

(** The function never raises, so the retry wrapper around it never fires. *)
Lemma download_pdf_is_one_attempt paper save_dir w :
  PaperSearcher.download_pdf fetch paper save_dir w =
  PaperSearcher.download_pdf_once fetch paper save_dir w.
Proof.
  destruct (download_pdf_once_run paper save_dir w) as (r & w' & Hrun & _).
  unfold PaperSearcher.download_pdf. rewrite Hrun. by apply retry_ok.
Qed.

End DownloadFacts.


(** A valid artifact at the target path is returned as it is: no request,
    no change on disk. *)
Lemma download_pdf_skips_valid fetch paper save_dir w :
  genuine_pdf w (target_path paper save_dir) ->
  exists w',
    PaperSearcher.download_pdf fetch paper save_dir w =
      (Ok (Some (target_path paper save_dir)), w') /\
    fs w' = fs w /\
    count_events is_http_get (log w') = count_events is_http_get (log w).
Proof.
  intros Hg. rewrite download_pdf_is_one_attempt.
  destruct (download_pdf_once_run fetch paper save_dir w)
    as (r & w' & Hrun & _ & Hskip & _).
  destruct (Hskip Hg) as (-> & Hfs & probes & Hlog & Hnr).
  exists w'. split; [exact Hrun|]. split; [exact Hfs|].
  rewrite Hlog, count_events_app. unfold no_request in Hnr. lia.
Qed.


(** C7: when a first call of [download_pdf] has returned a path for a paper,
    a second call on the same paper returns the same path, sends no request
    and leaves the disk as it is. *)
Theorem download_pdf_idempotent
    (fetch : string -> nat -> http_outcome) (paper : Paper.t)
    (save_dir : string) (w0 w1 : world) (artifact : string) :
  PaperSearcher.download_pdf fetch paper save_dir w0 = (Ok (Some artifact), w1) ->
  exists w2,
    PaperSearcher.download_pdf fetch paper save_dir w1 = (Ok (Some artifact), w2) /\
    artifact = target_path paper save_dir /\
    fs w2 = fs w1 /\
    count_events is_http_get (log w2) = count_events is_http_get (log w1).
Proof.
  intros Hfirst. rewrite download_pdf_is_one_attempt in Hfirst.
  destruct (download_pdf_once_run fetch paper save_dir w0)
    as (r & w' & Hrun & Hset & _).
  rewrite Hfirst in Hrun. injection Hrun as <- <-.
  destruct Hset as [-> Hgen].
  destruct (download_pdf_skips_valid fetch paper save_dir w1 Hgen)
    as (w2 & Hsecond & Hfs & Hcount).
  exists w2. done.
Qed.

Example target_path_sample : target_path sample_paper "papers" = sample_target.
Proof. vm_compute. reflexivity. Qed.

Example download_from_pdf_server :
  PaperSearcher.download_pdf pdf_server sample_paper "papers" blank_world =
  (Ok (Some sample_target),
   {| fs := {[ sample_target := {| content := "%PDF-1.7 body"; readable := true |} ]};
      log := [EvExists sample_target; EvHttpGet "https://example.org/attention.pdf";
              EvOpenWrite sample_target; EvExists sample_target;
              EvStat sample_target; EvRead sample_target] |}).
Proof. vm_compute. reflexivity. Qed.

Example download_from_html_server :
  PaperSearcher.download_pdf html_server sample_paper "papers" blank_world =
  (Ok None,
   {| fs := ∅;
      log := [EvExists sample_target; EvHttpGet "https://example.org/attention.pdf";
              EvOpenWrite sample_target; EvExists sample_target;
              EvStat sample_target; EvRead sample_target; EvUnlink sample_target] |}).
Proof. vm_compute. reflexivity. Qed.

Example download_over_stale_file :
  PaperSearcher.download_pdf pdf_server sample_paper "papers" stale_world =
  (Ok (Some sample_target),
   {| fs := {[ sample_target := {| content := "%PDF-1.7 body"; readable := true |} ]};
      log := [EvExists sample_target; EvExists sample_target; EvStat sample_target;
              EvRead sample_target; EvUnlink sample_target;
              EvHttpGet "https://example.org/attention.pdf";
              EvOpenWrite sample_target; EvExists sample_target;
              EvStat sample_target; EvRead sample_target] |}).
Proof. vm_compute. reflexivity. Qed.


Lemma download_pdf_idempotent_witness :
  exists w2,
    PaperSearcher.download_pdf pdf_server sample_paper "papers" after_first_download =
      (Ok (Some sample_target), w2) /\
    sample_target = target_path sample_paper "papers" /\
    fs w2 = fs after_first_download /\
    count_events is_http_get (log w2) =
    count_events is_http_get (log after_first_download).
Proof.
  apply (download_pdf_idempotent pdf_server sample_paper "papers"
           blank_world after_first_download sample_target).
  vm_compute. reflexivity.
Defined.

(** ** The retry executor *)

Section RetryBound.

Context {A : Type}.
Variable wait : nat -> Z.
Variable evs : list event.

Lemma attempts_always_raising (op : io A) e remaining k w :
  (forall w, op w = (Raise e, logged evs w)) ->
  Tenacity.attempts remaining k wait op w =
  (Raise (RetryError e), logged (retry_trace wait evs remaining k) w).
Proof.
  intros Hop. revert k w. induction remaining as [|r IH]; intros k w.
  - erewrite attempts_raise_last by apply Hop. cbn [retry_trace].
    by rewrite app_nil_r.
  - erewrite attempts_raise_again by apply Hop. rewrite IH. norm_log.
    reflexivity.
Qed.

(** Such a run holds exactly [remaining + 1] attempts. *)
Lemma retry_trace_attempts (kind : event -> bool) remaining k :
  (forall s, kind (EvSleep s) = false) ->
  count_events kind (retry_trace wait evs remaining k) =
  (S remaining * count_events kind evs)%nat.
Proof.
  intros Hsleep. revert k. induction remaining as [|r IH]; intros k.
  - cbn [retry_trace]. rewrite app_nil_r. lia.
  - cbn [retry_trace]. rewrite count_events_app, count_events_cons, IH, Hsleep. lia.
Qed.

(** And its sleeps are the waits of the attempts that failed before the
    last one. *)
Lemma retry_trace_sleeps remaining k :
  count_events is_sleep evs = 0%nat ->
  count_events is_sleep (retry_trace wait evs remaining k) = length (retry_waits wait remaining k).
Proof.
  intros Hev. revert k. induction remaining as [|r IH]; intros k.
  - cbn [retry_trace retry_waits]. by rewrite app_nil_r.
  - cbn [retry_trace retry_waits].
    rewrite count_events_app, count_events_cons, IH, Hev. reflexivity.
Qed.

End RetryBound.

Section Backoff.

Variables multiplier min max : Z.
Hypothesis multiplier_nonneg : 0 <= multiplier.

(** The exponential wait never shrinks from one attempt to the next. *)
Lemma wait_exponential_mono a b :
  (a <= b)%nat ->
  Tenacity.wait_exponential multiplier min max a <=
  Tenacity.wait_exponential multiplier min max b.
Proof.
  intros Hab. unfold Tenacity.wait_exponential.
  assert (2 ^ (Z.of_nat a - 1) <= 2 ^ (Z.of_nat b - 1)) as Hpow
    by (apply Z.pow_le_mono_r; lia).
  assert (multiplier * 2 ^ (Z.of_nat a - 1) <= multiplier * 2 ^ (Z.of_nat b - 1))
    by (apply Z.mul_le_mono_nonneg_l; lia).
  lia.
Qed.

Lemma retry_waits_sorted remaining k :
  Sorted Z.le (retry_waits (Tenacity.wait_exponential multiplier min max) remaining k).
Proof.
  revert k. induction remaining as [|r IH]; intros k; [constructor|].
  cbn [retry_waits]. constructor; [apply IH|].
  destruct r as [|r]; constructor. apply wait_exponential_mono. lia.
Qed.

End Backoff.

(** ** papersearch.py: search_papers *)

Section SearchFacts.

Variable search_api : string -> Z -> nat -> search_outcome.

(** A search service that is down makes the executor use all three
    attempts, two seconds apart, and then give up. *)
Lemma search_papers_service_down topic limit msg w :
  (forall query size n, search_api query size n = SearchFailed msg) ->
  PaperSearcher.search_papers search_api topic limit w =
  (Raise (RetryError (PaperSearchError ("Failed to search papers: " +:+ msg))),
   logged [search_request; EvSleep 2; search_request; EvSleep 2; search_request] w).
Proof.
  intros Hdown. unfold PaperSearcher.search_papers, Tenacity.retry.
  erewrite (attempts_always_raising _ [search_request]); [reflexivity|].
  intros w0. unfold PaperSearcher.search_papers_once.
  erewrite try_caught.
  2:{ erewrite bind_ok by reflexivity. cbv beta. rewrite Hdown. reflexivity. }
  2:{ reflexivity. }
  reflexivity.
Qed.

End SearchFacts.

(** C5: the executor is bounded and its waits never shrink, and at the
    search call site a service that is down is tried exactly three times; but
    at the download call site the wrapped function catches the request error
    itself and returns [None], so the executor sees a success: an unreachable
    host is tried once, without any wait, instead of three times. *)
Theorem download_pdf_unreachable_host_single_attempt :
  PaperSearcher.download_pdf unreachable_host sample_paper "papers" blank_world =
  (Ok None,
   {| fs := ∅;
      log := [EvExists sample_target; EvHttpGet "https://example.org/attention.pdf";
              EvExists sample_target] |}) /\
  PaperSearcher.search_papers (fun _ _ _ => SearchFailed "connection timed out")
    "attention" 3 blank_world =
  (Raise (RetryError (PaperSearchError
     "Failed to search papers: connection timed out")),
   {| fs := ∅;
      log := [search_request; EvSleep 2; search_request; EvSleep 2; search_request] |}).
Proof. split; vm_compute; reflexivity. Qed.

(** ** text_extraction.py: extract_raw_text *)

Section ExtractionFacts.

Variable fitz_pages : string -> option (list string).

Lemma truthy_rstrip s : Py.truthy (Py.rstrip s) = negb (Py.all_chars Py.isspace s).
Proof.
  induction s as [|c s IH]; [reflexivity|].
  cbn [Py.rstrip Py.all_chars]. destruct (Py.rstrip s) as [|d t].
  - cbn in IH. apply (f_equal negb) in IH. rewrite negb_involutive in IH.
    cbn in IH. rewrite <- IH, andb_true_r. by destruct (Py.isspace c).
  - cbn in IH. symmetry in IH. apply negb_true_iff in IH.
    rewrite IH, andb_false_r. reflexivity.
Qed.

Lemma all_space_lstrip s :
  Py.all_chars Py.isspace (Py.lstrip s) = Py.all_chars Py.isspace s.
Proof.
  induction s as [|c s IH]; [reflexivity|].
  cbn [Py.lstrip]. destruct (Py.isspace c) eqn:E; [|reflexivity].
  cbn [Py.all_chars]. by rewrite E, IH.
Qed.

(** A page counts as text exactly when it holds a character that is not
    white space. *)
Lemma has_text_spec text :
  TextExtractor.has_text text = negb (Py.all_chars Py.isspace text).
Proof.
  unfold TextExtractor.has_text, Py.strip.
  by rewrite truthy_rstrip, all_space_lstrip.
Qed.

Lemma has_text_nonempty text :
  TextExtractor.has_text text = true -> text <> "".
Proof. intros H ->. discriminate. Qed.

Lemma append_nonempty_l (a b : string) : a <> "" -> a +:+ b <> "".
Proof. by destruct a. Qed.

Lemma join_kept_nonempty pages :
  TextExtractor.kept_pages pages <> [] ->
  Py.join Py.para_sep (TextExtractor.kept_pages pages) <> "".
Proof.
  unfold TextExtractor.kept_pages.
  induction pages as [|text rest IH]; [done|]. cbn [List.filter].
  destruct (TextExtractor.has_text text) eqn:E; [|exact IH]. intros _.
  destruct (List.filter TextExtractor.has_text rest) as [|q kept].
  - by apply has_text_nonempty.
  - rewrite join_cons_nonempty. by apply append_nonempty_l, has_text_nonempty.
Qed.

Lemma kept_pages_nil pages :
  TextExtractor.kept_pages pages = [] <->
  (forall text, In text pages -> TextExtractor.has_text text = false).
Proof.
  unfold TextExtractor.kept_pages. induction pages as [|text rest IH]; [done|].
  cbn [List.filter]. destruct (TextExtractor.has_text text) eqn:E.
  - split; [done|]. intros H. specialize (H text (or_introl eq_refl)). congruence.
  - rewrite IH. split.
    + intros H t [<-|Ht]; [done|]. by apply H.
    + intros H t Ht. apply H. by right.
Qed.

Lemma fitz_open_run pdf_path w f pages :
  fs w !! pdf_path = Some f -> fitz_pages (content f) = Some pages ->
  TextExtractor.fitz_open fitz_pages pdf_path w = (Ok pages, emit (EvRead pdf_path) w).
Proof. intros Hf Hp. unfold TextExtractor.fitz_open. by rewrite Hf, Hp. Qed.

Lemma extract_raw_text_run pdf_path w f page_texts :
  genuine_pdf w pdf_path ->
  fs w !! pdf_path = Some f ->
  fitz_pages (content f) = Some page_texts ->
  fst (TextExtractor.extract_raw_text fitz_pages pdf_path w) =
  if bool_decide (TextExtractor.kept_pages page_texts = [])
  then Raise (TextExtractionError
                "Text extraction failed: No text extracted from PDF")
  else Ok (Py.join Py.para_sep (TextExtractor.kept_pages page_texts)).
Proof.
  intros Hgen Hf Hpages. unfold TextExtractor.extract_raw_text.
  destruct (validate_then pdf_path w) as (b & w3 & Hval & Hfs3 & _ & Hiff).
  apply Hiff in Hgen. subst b.
  erewrite bind_ok by exact Hval. cbv beta iota. cbn [negb].
  assert (Hopen := fitz_open_run pdf_path w3 f page_texts).
  rewrite Hfs3 in Hopen. specialize (Hopen Hf Hpages).
  destruct (bool_decide (TextExtractor.kept_pages page_texts = [])) eqn:E.
  - erewrite try_caught.
    2:{ erewrite bind_ok by exact Hopen. cbv beta zeta. rewrite E. reflexivity. }
    2:{ reflexivity. }
    reflexivity.
  - erewrite try_ok; [reflexivity|].
    erewrite bind_ok by exact Hopen. cbv beta zeta. rewrite E. reflexivity.
Qed.

End ExtractionFacts.

(** C8: on a valid PDF that PyMuPDF reads, [extract_raw_text] raises
    [TextExtractionError] exactly when no page has text (a page of white space
    only has none); otherwise it returns the texts of the pages that have
    some, in page order, joined by blank lines, and that result is not
    empty. *)
Theorem extract_raw_text_fails_iff_no_text
    (fitz_pages : string -> option (list string))
    (pdf_path : string) (w : world) (f : file) (page_texts : list string) :
  genuine_pdf w pdf_path ->
  fs w !! pdf_path = Some f ->
  fitz_pages (content f) = Some page_texts ->
  let r := fst (TextExtractor.extract_raw_text fitz_pages pdf_path w) in
  ((exists msg, r = Raise (TextExtractionError msg)) <->
   (forall text, In text page_texts -> TextExtractor.has_text text = false)) /\
  ((exists text, In text page_texts /\ TextExtractor.has_text text = true) ->
   r = Ok (Py.join Py.para_sep (List.filter TextExtractor.has_text page_texts)) /\
   Py.join Py.para_sep (List.filter TextExtractor.has_text page_texts) <> "").
Proof.
  intros Hgen Hf Hpages r. subst r.
  rewrite (extract_raw_text_run fitz_pages pdf_path w f page_texts Hgen Hf Hpages).
  rewrite <- kept_pages_nil. fold (TextExtractor.kept_pages page_texts).
  destruct (bool_decide (TextExtractor.kept_pages page_texts = [])) eqn:E.
  - apply bool_decide_eq_true in E. split; [split; eauto|].
    intros (text & Hin & Htext). exfalso.
    pose proof (proj1 (kept_pages_nil page_texts) E text Hin). congruence.
  - apply bool_decide_eq_false in E. split.
    + split; [intros (msg & ?); discriminate | done].
    + intros _. split; [reflexivity|]. by apply join_kept_nonempty.
Qed.

Example extract_sample :
  fst (TextExtractor.extract_raw_text sample_fitz "papers/good.pdf" sample_world) =
  Ok ("Title page" +:+ Py.para_sep +:+ "Body text").
Proof. vm_compute. reflexivity. Qed.

Example extract_blank_pages :
  fst (TextExtractor.extract_raw_text (fun _ => Some ["   "; ""]) "papers/good.pdf"
         sample_world) =
  Raise (TextExtractionError "Text extraction failed: No text extracted from PDF").
Proof. vm_compute. reflexivity. Qed.

Lemma extract_raw_text_fails_iff_no_text_witness :
  let page_texts := ["Title page"; "   "; "Body text"] in
  let r := fst (TextExtractor.extract_raw_text sample_fitz "papers/good.pdf"
                  sample_world) in
  ((exists msg, r = Raise (TextExtractionError msg)) <->
   (forall text, In text page_texts -> TextExtractor.has_text text = false)) /\
  ((exists text, In text page_texts /\ TextExtractor.has_text text = true) ->
   r = Ok (Py.join Py.para_sep (List.filter TextExtractor.has_text page_texts)) /\
   Py.join Py.para_sep (List.filter TextExtractor.has_text page_texts) <> "").
Proof.
  apply (extract_raw_text_fails_iff_no_text sample_fitz "papers/good.pdf" sample_world
           {| content := pdf_bytes; readable := true |}
           ["Title page"; "   "; "Body text"]).
  - exists {| content := pdf_bytes; readable := true |}.
    vm_compute. repeat split; try reflexivity. lia.
  - vm_compute. reflexivity.
  - reflexivity.
Defined.

(** ** The fallback chain of the generation calls *)

Section FallbackFacts.

Variable generate_content : string -> string -> nat -> result string.
Variable json_loads : string -> option json.
Variable first_fenced_block : string -> option string.
Variable json_dumps : json -> string.
Variable ANALYSIS_PROMPT : string -> string.
Variable DRAFT_PROMPT : string -> string -> string.

Hypothesis all_models_fail : exhausted generate_content.

Lemma insights_from_exhausted model_name prompt w :
  PaperAnalyzer.insights_from generate_content json_loads first_fenced_block
    model_name prompt w =
  (Ok None, logged [EvGenerate model_name] w).
Proof.
  unfold PaperAnalyzer.insights_from.
  destruct (all_models_fail model_name prompt (count_events is_generate (log w)))
    as [Hempty | [e Herr]].
  - erewrite try_ok; [reflexivity|].
    erewrite bind_ok; [|unfold generate; by rewrite Hempty]. reflexivity.
  - erewrite try_caught.
    2:{ erewrite bind_raise; [reflexivity|]. unfold generate. by rewrite Herr. }
    2:{ reflexivity. }
    reflexivity.
Qed.

Lemma insights_from_models_exhausted models prompt w :
  PaperAnalyzer.insights_from_models generate_content json_loads first_fenced_block
    models prompt w =
  (Ok PaperAnalyzer._get_default_insights, logged (map EvGenerate models) w).
Proof.
  revert w. induction models as [|m rest IH]; intros w.
  - cbn. unfold ret, logged. rewrite app_nil_r. by destruct w.
  - cbn [PaperAnalyzer.insights_from_models].
    erewrite bind_ok by apply insights_from_exhausted. cbv beta iota.
    rewrite IH. norm_log. reflexivity.
Qed.

(** When no model answers, [extract_insights] still returns, and what it
    returns is the default record; the retry wrapper has nothing to do. *)
Lemma extract_insights_exhausted sections w :
  exists evs,
    PaperAnalyzer.extract_insights generate_content json_loads first_fenced_block
      json_dumps ANALYSIS_PROMPT sections w =
    (Ok PaperAnalyzer._get_default_insights, logged evs w) /\
    count_events is_sleep evs = 0%nat.
Proof.
  unfold PaperAnalyzer.extract_insights, PaperAnalyzer.extract_insights_once.
  destruct (negb (existsb Py.truthy (Dict.values sections))).
  - exists []. split; [|reflexivity]. apply retry_ok.
    unfold ret, logged. rewrite app_nil_r. by destruct w.
  - eexists. split; [apply retry_ok, insights_from_models_exhausted|].
    reflexivity.
Qed.

Lemma draft_from_exhausted model_name prompt w :
  DraftGenerator.draft_from generate_content model_name prompt w =
  (Ok None, logged [EvGenerate model_name] w).
Proof.
  unfold DraftGenerator.draft_from.
  destruct (all_models_fail model_name prompt (count_events is_generate (log w)))
    as [Hempty | [e Herr]].
  - erewrite try_ok; [reflexivity|].
    erewrite bind_ok; [|unfold generate; by rewrite Hempty]. reflexivity.
  - erewrite try_caught.
    2:{ erewrite bind_raise; [reflexivity|]. unfold generate. by rewrite Herr. }
    2:{ reflexivity. }
    reflexivity.
Qed.

Lemma draft_from_models_exhausted models prompt w :
  DraftGenerator.draft_from_models generate_content models prompt w =
  (Raise all_failed, logged (map EvGenerate models) w).
Proof.
  revert w. induction models as [|m rest IH]; intros w.
  - cbn. unfold throw, logged. rewrite app_nil_r. by destruct w.
  - cbn [DraftGenerator.draft_from_models].
    erewrite bind_ok by apply draft_from_exhausted. cbv beta iota.
    rewrite IH. norm_log. reflexivity.
Qed.

(** When no model answers, [generate_draft] raises: each of its three
    attempts goes through the whole chain, with four seconds in between. *)
Lemma generate_draft_exhausted analysis_data topic w :
  DraftGenerator.generate_draft generate_content json_dumps DRAFT_PROMPT
    analysis_data topic w =
  (Raise (RetryError all_failed),
   logged (map EvGenerate models_to_try ++ [EvSleep 4] ++
           map EvGenerate models_to_try ++ [EvSleep 4] ++
           map EvGenerate models_to_try) w).
Proof.
  unfold DraftGenerator.generate_draft, Tenacity.retry.
  erewrite (attempts_always_raising _ (map EvGenerate models_to_try)).
  - reflexivity.
  - intros w0. apply draft_from_models_exhausted.
Qed.

Variable prepare_analysis_data : list json -> json.
Variable DRAFTS_DIR : string.
Variable timestamp : string.

(** The caller of [generate_draft] turns that exception into a result. *)
Lemma generate_review_exhausted analyses topic w :
  analyses <> [] ->
  fst (DraftGenerator.generate_review generate_content json_dumps DRAFT_PROMPT
         prepare_analysis_data DRAFTS_DIR timestamp analyses topic w) =
  Ok {| DraftGenerator.success := false;
        DraftGenerator.message :=
          "Draft generation failed: RetryError[All models failed to generate draft]";
        DraftGenerator.draft := None;
        DraftGenerator.draft_path := None;
        DraftGenerator.num_papers := None |}.
Proof.
  intros Hne. unfold DraftGenerator.generate_review.
  rewrite bool_decide_eq_false_2 by done.
  erewrite try_caught.
  2:{ erewrite bind_raise by apply generate_draft_exhausted. reflexivity. }
  2:{ reflexivity. }
  reflexivity.
Qed.

End FallbackFacts.

(** C4, the case where the claim as stated fails: with every model
    silent, [generate_draft] does not return a default payload, it raises
    (the error of its last attempt, wrapped by the retry executor). *)
Lemma generate_draft_exhausted_raises :
  fst (DraftGenerator.generate_draft silent_service plain_dumps plain_draft_prompt
         (JObj []) "graph neural networks" blank_world) =
  Raise (RetryError (DraftGenerationError "All models failed to generate draft")) /\
  ~ (exists text,
       fst (DraftGenerator.generate_draft silent_service plain_dumps plain_draft_prompt
              (JObj []) "graph neural networks" blank_world) = Ok text).
Proof.
  assert (fst (DraftGenerator.generate_draft silent_service plain_dumps
                 plain_draft_prompt (JObj []) "graph neural networks" blank_world) =
          Raise (RetryError (DraftGenerationError
                               "All models failed to generate draft"))) as H
    by (vm_compute; reflexivity).
  split; [exact H|]. intros [text Htext]. rewrite H in Htext. discriminate.
Qed.

(** The default record is not empty either: its findings hold a notice. *)
Example default_insights_findings :
  PaperAnalyzer.key_findings PaperAnalyzer._get_default_insights =
  JArr [JStr "Analysis temporarily unavailable - API issue"].
Proof. reflexivity. Qed.

(** A text that is there but is not JSON is not a failure of the model: the
    first model wins, and the record has four empty lists. *)
Example extract_insights_unparseable :
  fst (PaperAnalyzer.extract_insights (fun _ _ _ => Ok "I cannot help with that.")
         (fun _ => None) (fun _ => None) plain_dumps (fun s => s)
         [("abstract", "We study graphs.")] blank_world) =
  Ok (JObj [("key_findings", JArr []); ("contributions", JArr []);
            ("limitations", JArr []); ("future_work", JArr [])]).
Proof. vm_compute. reflexivity. Qed.

(** C4, amended: when every model of the chain answers with an empty text or
    an error, [extract_insights] returns normally the default record of
    [_get_default_insights] (a notice as its only finding, the other three
    lists empty); [generate_draft] raises instead, once its three attempts are
    used up, and its caller [generate_review] catches that and returns a
    result with [success] false and no draft. *)
Theorem fallback_exhaustion
    (generate_content : string -> string -> nat -> result string)
    (json_loads : string -> option json)
    (first_fenced_block : string -> option string)
    (json_dumps : json -> string)
    (ANALYSIS_PROMPT : string -> string)
    (DRAFT_PROMPT : string -> string -> string)
    (prepare_analysis_data : list json -> json)
    (DRAFTS_DIR timestamp : string)
    (sections : list (string * string)) (analyses : list json)
    (topic : string) (w : world) :
  exhausted generate_content ->
  fst (PaperAnalyzer.extract_insights generate_content json_loads first_fenced_block
         json_dumps ANALYSIS_PROMPT sections w) =
    Ok PaperAnalyzer._get_default_insights /\
  fst (DraftGenerator.generate_draft generate_content json_dumps DRAFT_PROMPT
         (prepare_analysis_data analyses) topic w) =
    Raise (RetryError (DraftGenerationError "All models failed to generate draft")) /\
  (analyses <> [] ->
   exists msg,
     fst (DraftGenerator.generate_review generate_content json_dumps DRAFT_PROMPT
            prepare_analysis_data DRAFTS_DIR timestamp analyses topic w) =
     Ok {| DraftGenerator.success := false;
           DraftGenerator.message := msg;
           DraftGenerator.draft := None;
           DraftGenerator.draft_path := None;
           DraftGenerator.num_papers := None |}).
Proof.
  intros Hfail. split; [|split].
  - destruct (extract_insights_exhausted generate_content json_loads
                first_fenced_block json_dumps ANALYSIS_PROMPT Hfail sections w)
      as (evs & Hrun & _).
    by rewrite Hrun.
  - by rewrite generate_draft_exhausted.
  - intros Hne. eexists. by apply generate_review_exhausted.
Qed.

Lemma fallback_exhaustion_witness :
  fst (PaperAnalyzer.extract_insights silent_service (fun _ => None) (fun _ => None)
         plain_dumps (fun s => s) [("abstract", "We study graphs.")] blank_world) =
    Ok PaperAnalyzer._get_default_insights /\
  fst (DraftGenerator.generate_draft silent_service plain_dumps plain_draft_prompt
         ((fun _ => JObj []) [JObj []]) "graph neural networks" blank_world) =
    Raise (RetryError (DraftGenerationError "All models failed to generate draft")) /\
  ([JObj []] <> [] ->
   exists msg,
     fst (DraftGenerator.generate_review silent_service plain_dumps plain_draft_prompt
            (fun _ => JObj []) "drafts" "20240101_000000" [JObj []]
            "graph neural networks" blank_world) =
     Ok {| DraftGenerator.success := false;
           DraftGenerator.message := msg;
           DraftGenerator.draft := None;
           DraftGenerator.draft_path := None;
           DraftGenerator.num_papers := None |}).
Proof.
  apply (fallback_exhaustion silent_service (fun _ => None) (fun _ => None)
           plain_dumps (fun s => s) plain_draft_prompt (fun _ => JObj [])
           "drafts" "20240101_000000" [("abstract", "We study graphs.")]
           [JObj []] "graph neural networks" blank_world).
  intros model_name prompt n. left. reflexivity.
Defined.

(** ** app.py: the short circuit on a recorded error *)

Section ShortCircuit.

Variable clock : world -> Z.
Variable stamped : world -> string -> string -> string.
Variable format_seconds : Z -> string.
Variable process_topic : string -> io App.search_result.
Variable process_all_pdfs : io (list string).
Variable process_all_papers : io (list string).
Variable generate_review : string -> io DraftGenerator.review.

Lemma has_error_append line s :
  App.has_error (App.append_progress line s) = App.has_error s.
Proof. reflexivity. Qed.

Lemma extract_node_skips s w :
  App.has_error s = true ->
  App.extract_node clock stamped process_all_pdfs s w = (Ok s, w).
Proof.
  intros H. unfold App.extract_node.
  erewrite bind_ok by reflexivity. cbv beta. by rewrite H.
Qed.

Lemma analyze_node_skips s w :
  App.has_error s = true ->
  App.analyze_node clock stamped process_all_papers s w = (Ok s, w).
Proof.
  intros H. unfold App.analyze_node.
  erewrite bind_ok by reflexivity. cbv beta. by rewrite H.
Qed.

Lemma draft_node_skips s w :
  App.has_error s = true ->
  App.draft_node clock stamped generate_review s w = (Ok s, w).
Proof.
  intros H. unfold App.draft_node.
  erewrite bind_ok by reflexivity. cbv beta. by rewrite H.
Qed.

Lemma with_report_progress lines s :
  App.progress (with_report lines s) = App.progress s ++ lines.
Proof.
  revert s. induction lines as [|line rest IH]; intros s.
  - cbn. by rewrite app_nil_r.
  - cbn [with_report fold_left]. fold (with_report rest (App.append_progress line s)).
    rewrite IH. cbn. by rewrite <- app_assoc.
Qed.

Lemma with_report_error lines s :
  App.error (with_report lines s) = App.error s.
Proof.
  revert s. induction lines as [|line rest IH]; intros s; [reflexivity|].
  cbn [with_report fold_left]. fold (with_report rest (App.append_progress line s)).
  by rewrite IH.
Qed.

Lemma with_report_draft lines s :
  App.draft (with_report lines s) = App.draft s.
Proof.
  revert s. induction lines as [|line rest IH]; intros s; [reflexivity|].
  cbn [with_report fold_left]. fold (with_report rest (App.append_progress line s)).
  by rewrite IH.
Qed.

Lemma finalize_node_failed s w msg :
  App.error s = Some msg -> Py.truthy msg = true ->
  App.finalize_node clock format_seconds s w =
  (Ok (with_report (failure_report msg) s), w).
Proof.
  intros He Ht. unfold App.finalize_node.
  erewrite bind_ok by reflexivity. cbv beta zeta.
  rewrite !has_error_append. unfold App.has_error. rewrite He, Ht.
  cbn [App.error App.append_progress]. rewrite He. reflexivity.
Qed.

(** [finalize_node] returns in every state, and it always writes at least
    the three lines of the summary head. *)
Lemma finalize_node_always_reports s w :
  exists s' lines,
    App.finalize_node clock format_seconds s w = (Ok s', w) /\
    App.progress s' =
      App.progress s ++ String Py.newline App.rule :: "📊 PIPELINE SUMMARY"
                        :: App.rule :: lines.
Proof.
  unfold App.finalize_node. erewrite bind_ok by reflexivity. cbv beta zeta.
  rewrite !has_error_append. destruct (App.has_error s).
  - eexists _, _. split; [reflexivity|]. cbn. rewrite <- !app_assoc. reflexivity.
  - unfold App.list_stage_times.
    set (base := App.append_progress _ (App.append_progress _
                   (App.append_progress _ (App.append_progress _
                     (App.append_progress _ (App.append_progress _
                       (App.append_progress _ s))))))).
    assert (Hgrow : forall (times : list (string * Z)) (t : App.PipelineState),
              exists more,
                App.progress
                  (fold_left
                     (fun s0 '(stage, duration) =>
                        App.append_progress
                          ("   • " +:+ Py.capitalize stage +:+ ": "
                           +:+ format_seconds duration +:+ "s") s0) times t) =
                App.progress t ++ more).
    { induction times as [|[stage d] rest IH]; intros t.
      - exists []. cbn. by rewrite app_nil_r.
      - cbn [fold_left]. destruct (IH (App.append_progress
           ("   • " +:+ Py.capitalize stage +:+ ": " +:+ format_seconds d +:+ "s") t))
          as [more Hm].
        eexists. rewrite Hm. cbn. rewrite <- app_assoc. reflexivity. }
    destruct (Hgrow (App.stage_times base) base) as [more Hm].
    eexists _, _. split; [reflexivity|]. rewrite Hm. unfold base. cbn.
    rewrite <- !app_assoc. reflexivity.
Qed.

(** Once a node has recorded an error, the rest of the graph only adds the
    failure report. *)
Lemma invoke_after_error s0 s1 w0 w1 msg :
  App.search_node clock stamped process_topic s0 w0 = (Ok s1, w1) ->
  App.error s1 = Some msg -> Py.truthy msg = true ->
  App.invoke clock stamped format_seconds process_topic process_all_pdfs
    process_all_papers generate_review s0 w0 =
  (Ok (with_report (failure_report msg) s1), w1).
Proof.
  intros Hsearch He Ht.
  assert (App.has_error s1 = true) as Herr
    by (unfold App.has_error; by rewrite He).
  unfold App.invoke.
  erewrite bind_ok by exact Hsearch.
  erewrite bind_ok by (by apply extract_node_skips).
  erewrite bind_ok by (by apply analyze_node_skips).
  erewrite bind_ok by (by apply draft_node_skips).
  by apply finalize_node_failed.
Qed.

End ShortCircuit.

(** C2: in a state whose error record is set (and not empty), the extract,
    analyze and draft nodes return the state they were given and leave the
    world alone; the finalize node still runs: it returns the same state with
    its five-line failure report appended to the progress log, so its output
    is never empty. *)
Theorem error_short_circuits_all_but_finalize
    (clock : world -> Z) (stamped : world -> string -> string -> string)
    (format_seconds : Z -> string)
    (process_all_pdfs process_all_papers : io (list string))
    (generate_review : string -> io DraftGenerator.review)
    (s : App.PipelineState) (w : world) (msg : string) :
  App.error s = Some msg -> msg <> "" ->
  App.extract_node clock stamped process_all_pdfs s w = (Ok s, w) /\
  App.analyze_node clock stamped process_all_papers s w = (Ok s, w) /\
  App.draft_node clock stamped generate_review s w = (Ok s, w) /\
  exists s',
    App.finalize_node clock format_seconds s w = (Ok s', w) /\
    s' = with_report (failure_report msg) s /\
    App.progress s' = App.progress s ++ failure_report msg /\
    App.progress s' <> [] /\
    App.error s' = App.error s /\ App.draft s' = App.draft s.
Proof.
  intros He Hmsg.
  assert (Py.truthy msg = true) as Ht by (by destruct msg).
  assert (App.has_error s = true) as Herr by (unfold App.has_error; by rewrite He).
  split; [by apply extract_node_skips|].
  split; [by apply analyze_node_skips|].
  split; [by apply draft_node_skips|].
  exists (with_report (failure_report msg) s).
  split; [by apply finalize_node_failed|]. split; [reflexivity|].
  split; [apply with_report_progress|].
  split; [|split; [apply with_report_error | apply with_report_draft]].
  rewrite with_report_progress. by destruct (App.progress s).
Qed.

Example search_node_records_error :
  fst (App.search_node (fun _ => 0) plain_stamp empty_search
         {| App.topic := "graph neural networks"; App.papers := [];
            App.search_success := false; App.search_message := "";
            App.extracted_paths := []; App.extraction_success := false;
            App.extraction_message := "";
            App.analysis_paths := []; App.analysis_success := false;
            App.analysis_message := "";
            App.draft := None; App.draft_path := None;
            App.draft_success := false; App.draft_message := "";
            App.error := None; App.progress := [];
            App.start_time := 0; App.stage_times := [] |} blank_world) =
  Ok failed_state.
Proof. vm_compute. reflexivity. Qed.

Lemma error_short_circuits_all_but_finalize_witness :
  App.extract_node (fun _ => 0) plain_stamp (ret ["a.json"]) failed_state blank_world =
    (Ok failed_state, blank_world) /\
  App.analyze_node (fun _ => 0) plain_stamp (ret ["a.json"]) failed_state blank_world =
    (Ok failed_state, blank_world) /\
  App.draft_node (fun _ => 0) plain_stamp
    (fun _ => throw (RuntimeError "not reached")) failed_state blank_world =
    (Ok failed_state, blank_world) /\
  exists s',
    App.finalize_node (fun _ => 0) (fun _ => "0.0") failed_state blank_world =
      (Ok s', blank_world) /\
    s' = with_report (failure_report "No papers found with PDF links") failed_state /\
    App.progress s' =
      App.progress failed_state ++ failure_report "No papers found with PDF links" /\
    App.progress s' <> [] /\
    App.error s' = App.error failed_state /\ App.draft s' = App.draft failed_state.
Proof.
  apply (error_short_circuits_all_but_finalize (fun _ => 0) plain_stamp
           (fun _ => "0.0") (ret ["a.json"]) (ret ["a.json"])
           (fun _ => throw (RuntimeError "not reached")) failed_state blank_world
           "No papers found with PDF links").
  - reflexivity.
  - discriminate.
Defined.

(** ** pipeline.py: the revision loop *)

Section RevisionLoop.

Import Pipeline.

Variable stage : node -> PaperState -> PaperState.
Variable run_critique : PaperState -> option CritiqueResult * list string.
Variable run_revision : PaperState -> option string * list string.

Local Abbreviation critique_node := (critique_paper_node run_critique).
Local Abbreviation revise_step := (revise_paper_node run_revision).
Local Abbreviation run := (run_graph stage run_critique run_revision).

Lemma critique_keeps_count s : revision_count (critique_node s) = revision_count s.
Proof. unfold critique_paper_node. by destruct (run_critique s). Qed.

Lemma revise_increments_count s :
  revision_count (revise_step s) = S (revision_count s).
Proof. unfold revise_paper_node. by destruct (run_revision s). Qed.

(** At the cap the router finalizes, whatever the critique says. *)
Lemma revise_node_at_cap s :
  (REVISION_CAP <= revision_count s)%nat -> revise_node s = final_draft.
Proof.
  intros H. unfold revise_node.
  destruct (revision_count s <? REVISION_CAP)%nat eqn:E; [|reflexivity].
  apply Nat.ltb_lt in E. lia.
Qed.

Lemma revise_node_choice s :
  revise_node s = final_draft \/
  (revise_node s = revise_paper /\ (revision_count s < REVISION_CAP)%nat).
Proof.
  unfold revise_node.
  destruct (revision_count s <? REVISION_CAP)%nat eqn:E; [|by left].
  apply Nat.ltb_lt in E. destruct (critique s) as [c|]; [|by left].
  destruct (adequate c); [by left | by right].
Qed.

Lemma visits_app n l1 l2 : visits n (l1 ++ l2) = (visits n l1 + visits n l2)%nat.
Proof. unfold visits. by rewrite filter_app, length_app. Qed.

Lemma visits_cons n m l :
  visits n (m :: l) = ((if bool_decide (m = n) then 1 else 0) + visits n l)%nat.
Proof.
  unfold visits. destruct (bool_decide (m = n)) eqn:E.
  - apply bool_decide_eq_true in E. by rewrite filter_cons_True.
  - apply bool_decide_eq_false in E. by rewrite filter_cons_False.
Qed.

(** From the critique on, the graph comes to its end within
    [2 * (cap - revision_count) + 2] nodes, and the distance to the cap
    bounds the revisions. *)
Lemma loop_terminates d :
  forall s visited fuel,
    (REVISION_CAP - revision_count s <= d)%nat ->
    (2 * d + 2 <= fuel)%nat ->
    exists s' trail,
      run fuel critique_paper s visited = Some (s', visited ++ trail) /\
      (visits critique_paper trail <= d + 1)%nat /\
      (visits revise_paper trail <= d)%nat /\
      visits final_draft trail = 1%nat /\
      last trail = Some final_draft /\
      is_Some (final_draft_text s').
Proof.
  induction d as [|d IH]; intros s visited fuel Hd Hfuel.
  - destruct fuel as [|[|fuel]]; try lia.
    cbn [run_graph node_function next_node].
    rewrite revise_node_at_cap by (rewrite critique_keeps_count; lia).
    cbn [run_graph node_function next_node].
    eexists _, [critique_paper; final_draft].
    rewrite <- app_assoc. split; [reflexivity|].
    split; [vm_compute; lia|]. split; [vm_compute; lia|].
    split; [reflexivity|]. split; [reflexivity|]. cbn. eauto.
  - destruct fuel as [|[|fuel]]; try lia.
    cbn [run_graph node_function next_node].
    destruct (revise_node_choice (critique_node s)) as [-> | [-> Hlt]].
    + cbn [run_graph node_function next_node].
      eexists _, [critique_paper; final_draft].
      rewrite <- app_assoc. split; [reflexivity|].
      split; [vm_compute; lia|]. split; [vm_compute; lia|].
      split; [reflexivity|]. split; [reflexivity|]. cbn. eauto.
    + cbn [run_graph node_function next_node].
      rewrite critique_keeps_count in Hlt.
      destruct (IH (revise_step (critique_node s))
                   ((visited ++ [critique_paper]) ++ [revise_paper]) fuel)
        as (s' & trail & Hrun & Hc & Hr & Hf & Hlast & Htext).
      { rewrite revise_increments_count, critique_keeps_count. lia. }
      { lia. }
      exists s', (critique_paper :: revise_paper :: trail).
      rewrite Hrun, <- !app_assoc. split; [reflexivity|].
      rewrite !visits_cons.
      change (bool_decide (critique_paper = critique_paper)) with true.
      change (bool_decide (revise_paper = critique_paper)) with false.
      change (bool_decide (critique_paper = revise_paper)) with false.
      change (bool_decide (revise_paper = revise_paper)) with true.
      change (bool_decide (critique_paper = final_draft)) with false.
      change (bool_decide (revise_paper = final_draft)) with false.
      split; [lia|]. split; [lia|]. split; [lia|]. split; [|exact Htext].
      destruct trail; [discriminate|]. exact Hlast.
Qed.

(** Under a critique that is never satisfied, a run that starts at count
    zero revises exactly [cap] times and critiques [cap + 1] times. *)
Lemma loop_exact d :
  (forall s, exists c errs, run_critique s = (Some c, errs) /\ adequate c = false) ->
  forall s visited fuel,
    (revision_count s <= REVISION_CAP)%nat ->
    (REVISION_CAP - revision_count s)%nat = d ->
    (2 * d + 2 <= fuel)%nat ->
    exists s' trail,
      run fuel critique_paper s visited = Some (s', visited ++ trail) /\
      visits critique_paper trail = (d + 1)%nat /\
      visits revise_paper trail = d /\
      revision_count s' = REVISION_CAP.
Proof.
  intros Hbad. induction d as [|d IH]; intros s visited fuel Hle Hd Hfuel.
  - destruct fuel as [|[|fuel]]; try lia.
    cbn [run_graph node_function next_node].
    rewrite revise_node_at_cap by (rewrite critique_keeps_count; lia).
    cbn [run_graph node_function next_node].
    eexists _, [critique_paper; final_draft].
    rewrite <- app_assoc. split; [reflexivity|].
    split; [reflexivity|]. split; [reflexivity|].
    cbn [final_draft_node revision_count]. rewrite critique_keeps_count. lia.
  - destruct fuel as [|[|fuel]]; try lia.
    cbn [run_graph node_function next_node].
    assert (revise_node (critique_node s) = revise_paper) as ->.
    { unfold revise_node. rewrite critique_keeps_count.
      destruct (Hbad s) as (c & errs & Hc & Hq).
      unfold critique_paper_node. rewrite Hc. cbn [critique]. rewrite Hq.
      destruct (revision_count s <? REVISION_CAP)%nat eqn:E; [reflexivity|].
      apply Nat.ltb_ge in E. lia. }
    cbn [run_graph node_function next_node].
    destruct (IH (revise_step (critique_node s))
                 ((visited ++ [critique_paper]) ++ [revise_paper]) fuel)
      as (s' & trail & Hrun & Hc & Hr & Hcount).
    { rewrite revise_increments_count, critique_keeps_count. lia. }
    { rewrite revise_increments_count, critique_keeps_count. lia. }
    { lia. }
    exists s', (critique_paper :: revise_paper :: trail).
    rewrite Hrun, <- !app_assoc. split; [reflexivity|].
    rewrite !visits_cons.
    change (bool_decide (critique_paper = critique_paper)) with true.
    change (bool_decide (revise_paper = critique_paper)) with false.
    change (bool_decide (critique_paper = revise_paper)) with false.
    change (bool_decide (revise_paper = revise_paper)) with true.
    split; [lia|]. split; [lia|]. exact Hcount.
Qed.

Lemma run_lead_in fuel s :
  run (19 + fuel) process_input s [] =
  run fuel critique_paper (fold_left (fun s n => stage n s) lead_in s) lead_in.
Proof. reflexivity. Qed.

Lemma run_generate_only_calls s :
  let calls := snd (run_generate_only stage run_critique run_revision s) in
  (visits critique_paper calls <= 2)%nat /\ (visits revise_paper calls <= 1)%nat.
Proof.
  unfold run_generate_only. cbv zeta.
  destruct (bool_decide (revise_node _ = revise_paper)); vm_compute; lia.
Qed.

End RevisionLoop.

(** C1: every run of the graph comes to its end, for every behaviour of the
    stages, of the critique and of the revision, and from every state: within
    [19 + 2 * cap + 2] nodes it reaches [final_draft], having run
    [critique_paper] at most [cap + 1] times and [revise_paper] at most [cap]
    times (cap = 2); at the cap the router picks [final_draft] whatever the
    critique says; and [run_generate_only], which unrolls the loop by hand,
    stays within the same bounds. *)
Theorem revision_loop_terminates
    (stage : Pipeline.node -> Pipeline.PaperState -> Pipeline.PaperState)
    (run_critique : Pipeline.PaperState -> option Pipeline.CritiqueResult * list string)
    (run_revision : Pipeline.PaperState -> option string * list string)
    (s0 : Pipeline.PaperState) :
  (exists s' visited,
     Pipeline.run_graph stage run_critique run_revision
       (19 + (2 * Pipeline.REVISION_CAP + 2)) Pipeline.process_input s0 [] =
       Some (s', visited) /\
     (Pipeline.visits Pipeline.critique_paper visited <= Pipeline.REVISION_CAP + 1)%nat /\
     (Pipeline.visits Pipeline.revise_paper visited <= Pipeline.REVISION_CAP)%nat /\
     last visited = Some Pipeline.final_draft /\
     is_Some (Pipeline.final_draft_text s')) /\
  (forall s, (Pipeline.REVISION_CAP <= Pipeline.revision_count s)%nat ->
             Pipeline.revise_node s = Pipeline.final_draft) /\
  (let calls := snd (Pipeline.run_generate_only stage run_critique run_revision s0) in
   (Pipeline.visits Pipeline.critique_paper calls <= Pipeline.REVISION_CAP + 1)%nat /\
   (Pipeline.visits Pipeline.revise_paper calls <= Pipeline.REVISION_CAP)%nat).
Proof.
  split; [|split].
  - rewrite run_lead_in.
    destruct (loop_terminates stage run_critique run_revision Pipeline.REVISION_CAP
                (fold_left (fun s n => stage n s) lead_in s0) lead_in
                (2 * Pipeline.REVISION_CAP + 2))
      as (s' & trail & Hrun & Hc & Hr & _ & Hlast & Htext); [lia | lia |].
    exists s', (lead_in ++ trail). split; [exact Hrun|].
    rewrite !visits_app.
    change (Pipeline.visits Pipeline.critique_paper lead_in) with 0%nat.
    change (Pipeline.visits Pipeline.revise_paper lead_in) with 0%nat.
    split; [lia|]. split; [lia|]. split; [|exact Htext].
    destruct trail as [|n trail]; [discriminate|].
    rewrite last_app. by rewrite Hlast.
  - apply revise_node_at_cap.
  - pose proof (run_generate_only_calls stage run_critique run_revision s0) as [H1 H2].
    cbv zeta in *. unfold Pipeline.REVISION_CAP. split; lia.
Qed.

Example harsh_run :
  (fun r => (Pipeline.revision_count r.1, tail_of_run r.2)) <$>
  Pipeline.run_graph (fun _ s => s) harsh_critique plain_revision 25
    Pipeline.process_input (Pipeline.initial_state "graph neural networks") [] =
  Some (2%nat, [Pipeline.critique_paper; Pipeline.revise_paper;
                Pipeline.critique_paper; Pipeline.revise_paper;
                Pipeline.critique_paper; Pipeline.final_draft]).
Proof. vm_compute. reflexivity. Qed.

Example kind_run :
  (fun r => (Pipeline.revision_count r.1, tail_of_run r.2)) <$>
  Pipeline.run_graph (fun _ s => s) kind_critique plain_revision 25
    Pipeline.process_input (Pipeline.initial_state "graph neural networks") [] =
  Some (0%nat, [Pipeline.critique_paper; Pipeline.final_draft]).
Proof. vm_compute. reflexivity. Qed.

(** Under a critique that is never satisfied, [run_generate_only] stops after
    one revision, below the cap. *)
Example harsh_generate_only :
  drop 14 (snd (Pipeline.run_generate_only (fun _ s => s) harsh_critique plain_revision
                  (Pipeline.initial_state "graph neural networks"))) =
  [Pipeline.critique_paper; Pipeline.revise_paper; Pipeline.critique_paper;
   Pipeline.final_draft].
Proof. vm_compute. reflexivity. Qed.

Lemma revision_loop_terminates_witness :
  (exists s' visited,
     Pipeline.run_graph (fun _ s => s) harsh_critique plain_revision
       (19 + (2 * Pipeline.REVISION_CAP + 2)) Pipeline.process_input
       (Pipeline.initial_state "graph neural networks") [] = Some (s', visited) /\
     (Pipeline.visits Pipeline.critique_paper visited <= Pipeline.REVISION_CAP + 1)%nat /\
     (Pipeline.visits Pipeline.revise_paper visited <= Pipeline.REVISION_CAP)%nat /\
     last visited = Some Pipeline.final_draft /\
     is_Some (Pipeline.final_draft_text s')) /\
  (forall s, (Pipeline.REVISION_CAP <= Pipeline.revision_count s)%nat ->
             Pipeline.revise_node s = Pipeline.final_draft) /\
  (let calls := snd (Pipeline.run_generate_only (fun _ s => s) harsh_critique
                       plain_revision (Pipeline.initial_state "graph neural networks")) in
   (Pipeline.visits Pipeline.critique_paper calls <= Pipeline.REVISION_CAP + 1)%nat /\
   (Pipeline.visits Pipeline.revise_paper calls <= Pipeline.REVISION_CAP)%nat).
Proof.
  exact (revision_loop_terminates (fun _ s => s) harsh_critique plain_revision
           (Pipeline.initial_state "graph neural networks")).
Defined.

(** * Further properties of the code *)

(** ** utils.py: more on sanitize_filename *)

Lemma replace_invalid_clean filename :
  Py.all_chars valid_char filename = true -> Utils.replace_invalid filename = filename.
Proof.
  unfold Utils.replace_invalid.
  induction filename as [|c s IH]; [reflexivity|]. cbn [Py.all_chars Py.map_chars].
  intros [Hc Hs]%andb_true_iff. rewrite IH by done.
  unfold valid_char in Hc. apply negb_true_iff in Hc. by rewrite Hc.
Qed.

(** X1: A name that is clean and short comes back as it is. *)
Theorem sanitize_filename_keeps_clean_names (filename : string) :
  Py.all_chars valid_char filename = true ->
  (Py.len filename <= 200)%nat ->
  Utils.sanitize_filename filename = filename.
Proof.
  intros Hclean Hlen. unfold Utils.sanitize_filename.
  rewrite replace_invalid_clean by done.
  destruct (200 <? Py.len filename)%nat eqn:E; [|reflexivity].
  apply Nat.ltb_lt in E. lia.
Qed.

Lemma sanitize_filename_keeps_clean_names_witness :
  Utils.sanitize_filename "Graph Neural Networks - a survey.pdf" =
  "Graph Neural Networks - a survey.pdf".
Proof.
  apply (sanitize_filename_keeps_clean_names "Graph Neural Networks - a survey.pdf").
  - vm_compute. reflexivity.
  - vm_compute. lia.
Defined.

Lemma replace_invalid_len filename :
  Py.len (Utils.replace_invalid filename) = Py.len filename.
Proof.
  unfold Utils.replace_invalid, Py.len.
  induction filename as [|c s IH]; [reflexivity|]. cbn. by rewrite IH.
Qed.

(** X2: The length limit holds whenever what follows the last dot is at most one
    character long (or there is no dot at all). *)
Theorem sanitize_filename_length_short_extension (filename : string) :
  match Py.rsplit_dot (Utils.replace_invalid filename) with
  | Some (_, ext) => (Py.len ext <= 1)%nat
  | None => True
  end ->
  (Py.len (Utils.sanitize_filename filename) <= 200)%nat.
Proof.
  destruct (Py.rsplit_dot (Utils.replace_invalid filename)) as [[name ext]|] eqn:Hs.
  2:{ intros _. by apply sanitize_filename_length_without_dot. }
  intros Hext. unfold Utils.sanitize_filename. rewrite Hs.
  destruct (200 <? Py.len (Utils.replace_invalid filename))%nat eqn:E.
  - rewrite !len_append. pose proof (len_take 195 name).
    change (Py.len "...") with 3%nat.
    destruct ext as [|c ext]; cbn [Py.truthy].
    + change (Py.len "") with 0%nat. lia.
    + rewrite len_append. change (Py.len ".") with 1%nat. lia.
  - apply Nat.ltb_ge in E. lia.
Qed.

Lemma sanitize_filename_length_short_extension_witness :
  (Py.len (Utils.sanitize_filename (Py.replicate_char 250 "a" +:+ ".c")) <= 200)%nat.
Proof.
  apply (sanitize_filename_length_short_extension (Py.replicate_char 250 "a" +:+ ".c")).
  vm_compute. lia.
Defined.

(** ** utils.py: more on chunk_text *)

Section ChunkMore.

Variable tiktoken_count : string -> option Z.
Variable max_tokens : Z.

Local Abbreviation tokens := (Utils.count_tokens tiktoken_count).
Local Abbreviation sum_tokens := (group_tokens tiktoken_count).
Local Abbreviation fits_budget := (fits tiktoken_count max_tokens).
Local Abbreviation grouped_inv := (grouped tiktoken_count max_tokens).

Lemma group_tokens_snoc group para :
  sum_tokens (group ++ [para]) = sum_tokens group + tokens para.
Proof.
  unfold group_tokens. induction group as [|p g IH]; cbn; [lia|].
  cbn in IH. rewrite IH. lia.
Qed.

Lemma chunk_step_grouped st seen para :
  grouped_inv st seen ->
  grouped_inv (Utils.chunk_step tiktoken_count max_tokens st para) (seen ++ [para]).
Proof.
  destruct st as [[chunks cur] tok]. unfold Utils.chunk_step, grouped.
  intros (groups & -> & Hfit & <- & -> & Hcur).
  destruct cur as [|p cur].
  - rewrite bool_decide_eq_true_2 by done. rewrite andb_false_r.
    exists groups. split; [done|]. split; [done|].
    split; [by rewrite app_nil_r|].
    split; [unfold group_tokens; cbn; lia|]. right. split; [done|]. by left.
  - rewrite bool_decide_eq_false_2 by done. rewrite andb_true_r.
    destruct Hcur as [?|Hcur]; [done|].
    destruct (max_tokens <? sum_tokens (p :: cur) + tokens para) eqn:E.
    + exists (groups ++ [p :: cur]).
      split; [by rewrite map_app|].
      split; [apply Forall_app; split; [done|by constructor]|].
      split; [rewrite concat_app; cbn; by rewrite app_nil_r, <- !app_assoc|].
      split; [unfold group_tokens; cbn; lia|]. right. split; [done|]. by left.
    + apply Z.ltb_ge in E. exists groups.
      split; [done|]. split; [done|]. split; [by rewrite <- !app_assoc|].
      split; [by rewrite group_tokens_snoc|].
      right. split; [done|]. right. rewrite group_tokens_snoc. lia.
Qed.

Lemma chunk_fold_grouped paragraphs st seen :
  grouped_inv st seen ->
  grouped_inv (fold_left (Utils.chunk_step tiktoken_count max_tokens) paragraphs st)
              (seen ++ paragraphs).
Proof.
  revert st seen. induction paragraphs as [|para rest IH]; intros st seen Hinv.
  - by rewrite app_nil_r.
  - cbn [fold_left]. replace (seen ++ para :: rest) with ((seen ++ [para]) ++ rest)
      by (by rewrite <- app_assoc).
    apply IH, chunk_step_grouped, Hinv.
Qed.

Lemma chunk_text_groups text :
  exists groups,
    Utils.chunk_text tiktoken_count text max_tokens =
      map (Py.join Py.para_sep) groups /\
    concat groups = Py.split_paragraphs text /\
    Forall fits_budget groups /\ groups <> [].
Proof.
  unfold Utils.chunk_text.
  pose proof (chunk_fold_grouped (Py.split_paragraphs text) ([], [], 0) []) as Hinv.
  destruct (fold_left _ _ _) as [[chunks cur] tok].
  destruct Hinv as (groups & -> & Hfit & Hcat & _ & Hcur).
  { exists []. repeat split; try done. by left. }
  rewrite app_nil_l in Hcat. destruct Hcur as [-> | Hcur].
  - rewrite bool_decide_eq_true_2 by done. rewrite app_nil_r in Hcat.
    exists groups. repeat split; try done. intros ->.
    by apply (split_paragraphs_nonempty text).
  - rewrite bool_decide_eq_false_2 by apply Hcur.
    exists (groups ++ [cur]). rewrite map_app. split; [done|].
    split; [rewrite concat_app; cbn; by rewrite app_nil_r|].
    split; [apply Forall_app; split; [done|by constructor]|].
    by destruct groups.
Qed.

End ChunkMore.

(** X3: [chunk_text] regroups the paragraphs of the text, in order and without
    losing one, into chunks each of which either is a single paragraph or has
    paragraphs whose token counts add up to no more than the budget; and it
    always returns at least one chunk. *)
Theorem chunk_text_respects_budget (tiktoken_count : string -> option Z)
    (text : string) (max_tokens : Z) :
  exists groups : list (list string),
    Utils.chunk_text tiktoken_count text max_tokens =
      map (Py.join Py.para_sep) groups /\
    concat groups = Py.split_paragraphs text /\
    groups <> [] /\
    forall group, In group groups ->
      group <> [] /\
      (length group = 1%nat \/
       fold_right Z.add 0 (map (Utils.count_tokens tiktoken_count) group) <= max_tokens).
Proof.
  destruct (chunk_text_groups tiktoken_count max_tokens text)
    as (groups & Heq & Hcat & Hfit & Hne).
  exists groups. split; [done|]. split; [done|]. split; [done|].
  intros group Hin. rewrite Forall_forall in Hfit.
  apply (Hfit group). by apply list_elem_of_In.
Qed.

Section ChunkWithinBudget.

Variable tiktoken_count : string -> option Z.
Variable max_tokens : Z.
Hypothesis counts_nonneg : forall s n, tiktoken_count s = Some n -> 0 <= n.

Lemma count_tokens_nonneg text : 0 <= Utils.count_tokens tiktoken_count text.
Proof.
  unfold Utils.count_tokens. destruct (tiktoken_count text) eqn:E.
  - by eapply counts_nonneg.
  - apply Z.div_pos; lia.
Qed.

Lemma group_tokens_nonneg group : 0 <= group_tokens tiktoken_count group.
Proof.
  unfold group_tokens. induction group as [|p g IH]; cbn; [lia|].
  pose proof (count_tokens_nonneg p). cbn in IH. lia.
Qed.

Lemma group_tokens_app g1 g2 :
  group_tokens tiktoken_count (g1 ++ g2) =
  group_tokens tiktoken_count g1 + group_tokens tiktoken_count g2.
Proof.
  unfold group_tokens. induction g1 as [|p g IH]; cbn; [lia|].
  cbn in IH. rewrite IH. lia.
Qed.

Lemma chunk_fold_within_budget rest seen :
  group_tokens tiktoken_count (seen ++ rest) <= max_tokens ->
  fold_left (Utils.chunk_step tiktoken_count max_tokens) rest
    ([], seen, group_tokens tiktoken_count seen) =
  ([], seen ++ rest, group_tokens tiktoken_count (seen ++ rest)).
Proof.
  revert seen. induction rest as [|para rest IH]; intros seen Hsum.
  - by rewrite app_nil_r.
  - cbn [fold_left]. unfold Utils.chunk_step at 2.
    assert ((max_tokens <? group_tokens tiktoken_count seen
                           + Utils.count_tokens tiktoken_count para) = false) as ->.
    { apply Z.ltb_ge.
      change (seen ++ para :: rest) with (seen ++ [para] ++ rest) in Hsum.
      rewrite (app_assoc seen [para] rest) in Hsum.
      rewrite group_tokens_app, (group_tokens_snoc tiktoken_count) in Hsum.
      pose proof (group_tokens_nonneg rest). lia. }
    cbn [andb]. rewrite <- (group_tokens_snoc tiktoken_count).
    rewrite IH by (by rewrite <- app_assoc). by rewrite <- app_assoc.
Qed.

End ChunkWithinBudget.

(** X4: A text whose paragraphs add up to no more than the budget comes back as
    one chunk, unchanged (token counts being non-negative). *)
Theorem chunk_text_within_budget (tiktoken_count : string -> option Z)
    (text : string) (max_tokens : Z) :
  (forall s n, tiktoken_count s = Some n -> 0 <= n) ->
  fold_right Z.add 0
    (map (Utils.count_tokens tiktoken_count) (Py.split_paragraphs text)) <= max_tokens ->
  Utils.chunk_text tiktoken_count text max_tokens = [text].
Proof.
  intros Hpos Hsum. unfold Utils.chunk_text.
  pose proof (chunk_fold_within_budget tiktoken_count max_tokens Hpos
                (Py.split_paragraphs text) []) as Hfold.
  cbn [app] in Hfold. change (group_tokens tiktoken_count []) with 0 in Hfold.
  rewrite Hfold by exact Hsum.
  rewrite bool_decide_eq_false_2 by apply split_paragraphs_nonempty.
  cbn [app]. by rewrite join_split_paragraphs.
Qed.

Lemma chunk_text_within_budget_witness :
  Utils.chunk_text (fun _ => None) sample_text 30000 = [sample_text].
Proof.
  apply (chunk_text_within_budget (fun _ => None) sample_text 30000).
  - intros s n H. discriminate H.
  - vm_compute. discriminate.
Defined.

(** ** What a computation leaves alone on disk *)

Section Footprint.

Context {A B : Type}.
Variable P : string -> Prop.

Lemma touches_ret (a : A) : touches_only P (ret a).
Proof. intros w r w' [= <- <-] q _. reflexivity. Qed.

Lemma touches_throw (e : exn) : touches_only P (@throw A e).
Proof. intros w r w' [= <- <-] q _. reflexivity. Qed.

Lemma touches_bind (m : io A) (f : A -> io B) :
  touches_only P m -> (forall a, touches_only P (f a)) ->
  touches_only P (m ≫= f).
Proof.
  intros Hm Hf w r w' Hrun q Hq. unfold mbind, io_bind in Hrun.
  destruct (m w) as [[a|e] w1] eqn:E.
  - rewrite (Hf a w1 r w' Hrun q Hq). by eapply Hm.
  - injection Hrun as <- <-. by eapply Hm.
Qed.

Lemma touches_try (body : io A) (handler : exn -> option (io A)) :
  touches_only P body ->
  (forall e h, handler e = Some h -> touches_only P h) ->
  touches_only P (try_except body handler).
Proof.
  intros Hm Hh w r w' Hrun q Hq. unfold try_except in Hrun.
  destruct (body w) as [[a|e] w1] eqn:E.
  - injection Hrun as <- <-. by eapply Hm.
  - destruct (handler e) as [h|] eqn:Eh.
    + rewrite (Hh e h Eh w1 r w' Hrun q Hq). by eapply Hm.
    + injection Hrun as <- <-. by eapply Hm.
Qed.

Lemma touches_attempts remaining k wait (op : io A) :
  touches_only P op -> touches_only P (Tenacity.attempts remaining k wait op).
Proof.
  intros Hop. revert k. induction remaining as [|n IH]; intros k w r w' Hrun q Hq.
  - cbn in Hrun. destruct (op w) as [[a|e] w1] eqn:E;
      injection Hrun as <- <-; by eapply Hop.
  - cbn in Hrun. destruct (op w) as [[a|e] w1] eqn:E.
    + injection Hrun as <- <-. by eapply Hop.
    + rewrite (IH _ _ _ _ Hrun q Hq). cbn. by eapply Hop.
Qed.

Lemma touches_retry n wait (op : io A) :
  touches_only P op -> touches_only P (Tenacity.retry n wait op).
Proof. apply touches_attempts. Qed.

End Footprint.

Section FootprintOfPrimitives.

Variable P : string -> Prop.

Lemma touches_exists p : touches_only P (Path.exists_ p).
Proof. intros w r w' [= <- <-] q _. reflexivity. Qed.

Lemma touches_st_size p : touches_only P (Path.st_size p).
Proof.
  intros w r w' Hrun q _. unfold Path.st_size in Hrun.
  destruct (fs w !! p); injection Hrun as <- <-; reflexivity.
Qed.

Lemma touches_read_bytes p n : touches_only P (Path.read_bytes p n).
Proof.
  intros w r w' Hrun q _. unfold Path.read_bytes in Hrun.
  destruct (fs w !! p) as [f|]; [destruct (readable f)|];
    injection Hrun as <- <-; reflexivity.
Qed.

Lemma touches_unlink p : P p -> touches_only P (Path.unlink p).
Proof.
  intros Hp w r w' Hrun q Hq. unfold Path.unlink in Hrun.
  destruct (fs w !! p); injection Hrun as <- <-; [|reflexivity].
  cbn. apply lookup_delete_ne. by intros ->.
Qed.

Lemma touches_open_wb p : P p -> touches_only P (Path.open_wb p).
Proof.
  intros Hp w r w' [= <- <-] q Hq. cbn. apply lookup_insert_ne. by intros ->.
Qed.

Lemma touches_write p chunk : P p -> touches_only P (Path.write p chunk).
Proof.
  intros Hp w r w' Hrun q Hq. unfold Path.write in Hrun.
  destruct (fs w !! p); injection Hrun as <- <-; [|reflexivity].
  cbn. apply lookup_insert_ne. by intros ->.
Qed.

Lemma touches_sleep seconds : touches_only P (Tenacity.sleep seconds).
Proof. intros w r w' [= <- <-] q _. reflexivity. Qed.

Lemma touches_time_sleep seconds : touches_only P (PaperSearcher.time_sleep seconds).
Proof. intros w r w' [= <- <-] q _. reflexivity. Qed.

Lemma touches_session_get fetch url : touches_only P (PaperSearcher.session_get fetch url).
Proof. intros w r w' [= <- <-] q _. reflexivity. Qed.

Lemma touches_session_search search_api query limit :
  touches_only P (PaperSearcher.session_search search_api query limit).
Proof. intros w r w' [= <- <-] q _. reflexivity. Qed.

Lemma touches_generate generate_content model_name prompt :
  touches_only P (generate generate_content model_name prompt).
Proof. intros w r w' [= <- <-] q _. reflexivity. Qed.

Lemma touches_validate_pdf p : touches_only P (PaperSearcher.validate_pdf p).
Proof.
  intros w r w' Hrun q _.
  destruct (validate_pdf_run p w) as (b & Hb & _). rewrite Hb in Hrun.
  by injection Hrun as <- <-.
Qed.

Lemma touches_write_chunks p chunks :
  P p -> touches_only P (PaperSearcher.write_chunks p chunks).
Proof.
  intros Hp. induction chunks as [|chunk rest IH]; [apply touches_ret|].
  cbn [PaperSearcher.write_chunks]. apply touches_bind; [|intros _; exact IH].
  destruct (Py.truthy chunk); [by apply touches_write | apply touches_ret].
Qed.

Lemma touches_fetch_and_validate fetch paper p :
  P p -> touches_only P (PaperSearcher.fetch_and_validate fetch paper p).
Proof.
  intros Hp. unfold PaperSearcher.fetch_and_validate. apply touches_try.
  - apply touches_bind; [apply touches_session_get|].
    intros [msg|code|ctype chunks broken]; try apply touches_throw.
    apply touches_bind; [by apply touches_open_wb|]. intros _.
    apply touches_bind; [by apply touches_write_chunks|]. intros _.
    apply touches_bind; [destruct broken; [apply touches_throw|apply touches_ret]|].
    intros _. apply touches_bind; [apply touches_validate_pdf|].
    intros [|]; [apply touches_ret|].
    apply touches_bind; [by apply touches_unlink|]. intros _. apply touches_ret.
  - intros e h Hh. destruct e; try discriminate. injection Hh as <-.
    apply touches_bind; [apply touches_exists|].
    intros present. apply touches_bind; [|intros _; apply touches_ret].
    destruct present; [by apply touches_unlink | apply touches_ret].
Qed.

End FootprintOfPrimitives.

Lemma download_pdf_footprint fetch paper save_dir :
  touches_only (fun q => q = target_path paper save_dir)
    (PaperSearcher.download_pdf fetch paper save_dir).
Proof.
  apply touches_retry. unfold PaperSearcher.download_pdf_once.
  fold (target_path paper save_dir).
  apply touches_bind; [apply touches_exists|]. intros present.
  destruct present; [|by apply touches_fetch_and_validate].
  apply touches_bind; [apply touches_validate_pdf|]. intros [|]; [apply touches_ret|].
  apply touches_bind; [by apply touches_unlink|]. intros _.
  by apply touches_fetch_and_validate.
Qed.

(** X5: [download_pdf] changes the disk at the target path of the paper and
    nowhere else, whatever the remote side sends and however the call ends. *)
Theorem download_pdf_touches_only_target
    (fetch : string -> nat -> http_outcome) (paper : Paper.t) (save_dir : string)
    (w w' : world) (r : result (option string)) (q : string) :
  PaperSearcher.download_pdf fetch paper save_dir w = (r, w') ->
  q <> target_path paper save_dir ->
  fs w' !! q = fs w !! q.
Proof. intros Hrun Hq. by eapply download_pdf_footprint. Qed.

Lemma download_pdf_touches_only_target_witness :
  fs (snd (PaperSearcher.download_pdf pdf_server sample_paper "papers" sample_world))
    !! "papers/locked.pdf" =
  fs sample_world !! "papers/locked.pdf".
Proof.
  apply (download_pdf_touches_only_target pdf_server sample_paper "papers"
           sample_world
           (snd (PaperSearcher.download_pdf pdf_server sample_paper "papers" sample_world))
           (fst (PaperSearcher.download_pdf pdf_server sample_paper "papers" sample_world))
           "papers/locked.pdf").
  - by destruct (PaperSearcher.download_pdf pdf_server sample_paper "papers" sample_world).
  - vm_compute. discriminate.
Defined.

(** ** papersearch.py: search_papers *)

Section SearchMore.

Variable search_api : string -> Z -> nat -> search_outcome.

(** What [collect_papers] adds to the papers it starts from. *)
Lemma collect_papers_spec limit data acc :
  (Z.of_nat (length acc) < limit) ->
  exists added,
    PaperSearcher.collect_papers limit data acc = acc ++ added /\
    Z.of_nat (length (acc ++ added)) <= limit /\
    Forall (fun paper =>
              Paper.pdf_url paper <> "" /\ Paper.local_path paper = None /\
              exists entry, In entry data /\
                e_open_access_pdf entry = Some (Paper.pdf_url paper) /\
                Paper.title paper = default "Untitled" (e_title entry)) added.
Proof.
  revert acc. induction data as [|entry rest IH]; intros acc Hlen.
  - exists []. rewrite app_nil_r. repeat split; [lia | constructor].
  - cbn [PaperSearcher.collect_papers].
    assert (Hweaken : forall added : list Paper.t,
      Forall (fun paper =>
                Paper.pdf_url paper <> "" /\ Paper.local_path paper = None /\
                exists e, In e rest /\
                  e_open_access_pdf e = Some (Paper.pdf_url paper) /\
                  Paper.title paper = default "Untitled" (e_title e)) added ->
      Forall (fun paper =>
                Paper.pdf_url paper <> "" /\ Paper.local_path paper = None /\
                exists e, In e (entry :: rest) /\
                  e_open_access_pdf e = Some (Paper.pdf_url paper) /\
                  Paper.title paper = default "Untitled" (e_title e)) added).
    { intros added Hadded. eapply Forall_impl; [exact Hadded|].
      intros paper (H1 & H2 & e & He & H3).
      split; [done|]. split; [done|]. exists e. split; [by right | done]. }
    destruct (e_open_access_pdf entry) as [pdf|] eqn:Hpdf.
    2:{ destruct (IH acc Hlen) as (added & Heq & Hle & Hall).
        exists added. split; [done|]. split; [done|]. by apply Hweaken. }
    destruct (Py.truthy pdf) eqn:Htruthy.
    2:{ destruct (IH acc Hlen) as (added & Heq & Hle & Hall).
        exists added. split; [done|]. split; [done|]. by apply Hweaken. }
    set (paper := Paper.Build_t _ _ _ _ _ _ _ _ _).
    assert (Hpaper : Paper.pdf_url paper <> "" /\ Paper.local_path paper = None /\
              exists e, In e (entry :: rest) /\
                e_open_access_pdf e = Some (Paper.pdf_url paper) /\
                Paper.title paper = default "Untitled" (e_title e)).
    { split; [cbn; by destruct pdf|]. split; [done|].
      exists entry. split; [by left | done]. }
    destruct (limit <=? Z.of_nat (length (acc ++ [paper]))) eqn:E.
    + exists [paper]. split; [done|]. apply Z.leb_le in E.
      rewrite length_app in *. cbn [length] in *.
      split; [lia|]. by constructor.
    + apply Z.leb_gt in E.
      destruct (IH (acc ++ [paper]) E) as (added & Heq & Hle & Hall).
      exists (paper :: added). rewrite Heq, <- app_assoc. split; [done|].
      split; [by rewrite <- app_assoc in Hle|].
      constructor; [done | by apply Hweaken].
Qed.

End SearchMore.

(** X6: When the search service answers the first request, [search_papers]
    sends that one request (asking for twice the limit) and does not wait;
    for a limit of at least one it returns at most [limit] papers; each of
    them has a non-empty [pdf_url] taken from an entry of the answer, the
    title of that entry (or "Untitled"), and no [local_path] yet. *)
Theorem search_papers_answered
    (search_api : string -> Z -> nat -> search_outcome)
    (topic : string) (limit : Z) (data : list search_entry) (w : world) :
  search_api topic (limit * 2) (count_events is_http_get (log w)) = SearchData data ->
  1 <= limit ->
  exists found,
    PaperSearcher.search_papers search_api topic limit w =
      (Ok found, logged [search_request] w) /\
    Z.of_nat (length found) <= limit /\
    forall paper, In paper found ->
      Paper.pdf_url paper <> "" /\ Paper.local_path paper = None /\
      exists entry, In entry data /\
        e_open_access_pdf entry = Some (Paper.pdf_url paper) /\
        Paper.title paper = default "Untitled" (e_title entry).
Proof.
  intros Hanswer Hlimit.
  destruct (collect_papers_spec limit data []) as (found & Heq & Hle & Hall);
    [cbn; lia|].
  exists found. cbn [app] in *. split; [|split; [done|]].
  - unfold PaperSearcher.search_papers. apply retry_ok.
    unfold PaperSearcher.search_papers_once.
    erewrite try_ok; [reflexivity|].
    erewrite bind_ok by reflexivity. cbv beta. rewrite Hanswer, Heq. reflexivity.
  - intros paper Hin. rewrite Forall_forall in Hall. apply Hall.
    by apply list_elem_of_In.
Qed.

Lemma search_papers_answered_witness :
  exists found,
    PaperSearcher.search_papers answering_search "attention" 3 blank_world =
      (Ok found, logged [search_request] blank_world) /\
    Z.of_nat (length found) <= 3 /\
    forall paper, In paper found ->
      Paper.pdf_url paper <> "" /\ Paper.local_path paper = None /\
      exists entry, In entry sample_entries /\
        e_open_access_pdf entry = Some (Paper.pdf_url paper) /\
        Paper.title paper = default "Untitled" (e_title entry).
Proof.
  apply (search_papers_answered answering_search "attention" 3 sample_entries
           blank_world).
  - reflexivity.
  - lia.
Defined.

(** X7: A search service that is down makes [search_papers] send exactly three
    requests, two seconds apart, and then raise [RetryError] around the
    [PaperSearchError] of the last attempt. *)
Theorem search_papers_gives_up_after_three_attempts
    (search_api : string -> Z -> nat -> search_outcome)
    (topic : string) (limit : Z) (msg : string) (w : world) :
  (forall query size n, search_api query size n = SearchFailed msg) ->
  PaperSearcher.search_papers search_api topic limit w =
  (Raise (RetryError (PaperSearchError ("Failed to search papers: " +:+ msg))),
   logged [search_request; EvSleep 2; search_request; EvSleep 2; search_request] w).
Proof. apply search_papers_service_down. Qed.

Lemma search_papers_gives_up_after_three_attempts_witness :
  PaperSearcher.search_papers failing_search "attention" 3 blank_world =
  (Raise (RetryError (PaperSearchError
            ("Failed to search papers: " +:+ "connection timed out"))),
   logged [search_request; EvSleep 2; search_request; EvSleep 2; search_request]
     blank_world).
Proof.
  apply (search_papers_gives_up_after_three_attempts failing_search "attention" 3
           "connection timed out" blank_world).
  intros query size n. reflexivity.
Defined.

(** ** What a computation adds to the log *)

Section Emissions.

Context {A B : Type}.
Variable Q : event -> Prop.



Lemma emits_lift (r0 : result A) : emits_only Q (PaperAnalyzer.lift r0).
Proof. intros w r w' [= <- <-]. exists []. by rewrite app_nil_r. Qed.



End Emissions.

Section EmissionsOfPrimitives.

Variable Q : event -> Prop.

Lemma emits_one {A : Type} (m : io A) ev :
  Q ev -> (forall w, snd (m w) = emit ev w \/ snd (m w) = w) -> emits_only Q m.
Proof.
  intros Hev Hm w r w' Hrun. destruct (Hm w) as [H|H]; rewrite Hrun in H; cbn in H; subst w'.
  - exists [ev]. split; [reflexivity | by constructor].
  - exists []. by rewrite app_nil_r.
Qed.


Lemma emits_st_size p : Q (EvStat p) -> emits_only Q (Path.st_size p).
Proof.
  intros H. apply (emits_one _ (EvStat p) H). intros w. left.
  unfold Path.st_size. by destruct (fs w !! p).
Qed.

Lemma emits_read_bytes p n : Q (EvRead p) -> emits_only Q (Path.read_bytes p n).
Proof.
  intros H. apply (emits_one _ (EvRead p) H). intros w. left.
  unfold Path.read_bytes. destruct (fs w !! p) as [f|]; [by destruct (readable f)|done].
Qed.





Lemma emits_generate generate_content model_name prompt :
  Q (EvGenerate model_name) ->
  emits_only Q (generate generate_content model_name prompt).
Proof. intros H. apply (emits_one _ (EvGenerate model_name) H). intros w. by left. Qed.

Lemma emits_time_sleep seconds :
  Q (EvSleep seconds) -> emits_only Q (PaperSearcher.time_sleep seconds).
Proof. intros H. apply (emits_one _ (EvSleep seconds) H). intros w. by left. Qed.

End EmissionsOfPrimitives.







(** ** pathlib: names and suffixes of joined paths *)

Lemma contains_append c (a b : string) :
  Py.contains c (a +:+ b) = Py.contains c a || Py.contains c b.
Proof.
  induction a as [|d a IH]; [reflexivity|].
  change (Ascii.eqb c d || Py.contains c (a +:+ b) =
          Ascii.eqb c d || Py.contains c a || Py.contains c b).
  by rewrite IH, orb_assoc.
Qed.

Lemma all_chars_not_contains p c s :
  Py.all_chars p s = true -> p c = false -> Py.contains c s = false.
Proof.
  intros Hall Hc. induction s as [|d s IH]; [reflexivity|].
  cbn in Hall |- *. apply andb_true_iff in Hall as [Hd Hs].
  rewrite (IH Hs), orb_false_r. destruct (Ascii.eqb c d) eqn:E; [|reflexivity].
  apply Ascii.eqb_eq in E. congruence.
Qed.

Lemma sanitize_filename_no_slash filename :
  Py.contains "/" (Utils.sanitize_filename filename) = false.
Proof.
  apply (all_chars_not_contains valid_char);
    [apply sanitize_filename_valid_chars | reflexivity].
Qed.

(** The name of [dir / child] is [child] when [child] holds no slash. *)
Lemma name_join dir child :
  Py.contains "/" child = false -> Path.name (Path.join dir child) = child.
Proof.
  intros Hchild. unfold Path.join. induction dir as [|c dir IH].
  - change (Path.name (String "/" child) = child). cbn [Path.name].
    by rewrite Hchild.
  - change (Path.name (String c (dir +:+ "/" +:+ child)) = child). cbn [Path.name].
    rewrite !contains_append. change (Py.contains "/" "/") with true.
    cbn [orb]. rewrite orb_true_r. exact IH.
Qed.

Lemma rsplit_dot_none s : Py.contains "." s = false -> Py.rsplit_dot s = None.
Proof.
  induction s as [|c s IH]; [reflexivity|]. cbn [Py.contains Py.rsplit_dot].
  intros [Hc Hs]%orb_false_iff. rewrite (IH Hs).
  rewrite Ascii.eqb_sym in Hc. by rewrite Hc.
Qed.

(** [rsplit] cuts at the last dot. *)
Lemma rsplit_dot_last (stem ext : string) :
  Py.contains "." ext = false ->
  Py.rsplit_dot (stem +:+ "." +:+ ext) = Some (stem, ext).
Proof.
  intros Hext. induction stem as [|c stem IH].
  - change (Py.rsplit_dot (String "." ext) = Some ("", ext)). cbn [Py.rsplit_dot].
    by rewrite (rsplit_dot_none ext Hext).
  - change (Py.rsplit_dot (String c (stem +:+ "." +:+ ext)) = Some (String c stem, ext)).
    cbn [Py.rsplit_dot]. by rewrite IH.
Qed.

(** A path [dir / (stem + "." + ext)] with a clean stem has the suffix
    [.ext], or none when the stem is empty. *)
Lemma suffix_join dir stem ext :
  Py.contains "/" stem = false -> Py.contains "/" ext = false ->
  Py.contains "." ext = false ->
  Path.suffix (Path.join dir (stem +:+ "." +:+ ext)) =
  if Py.truthy stem && Py.truthy ext then "." +:+ ext else "".
Proof.
  intros Hs He Hd. unfold Path.suffix. rewrite name_join.
  - by rewrite rsplit_dot_last.
  - rewrite !contains_append, Hs, He. reflexivity.
Qed.

Lemma genuine_pdf_same_lookup w1 w2 p :
  fs w2 !! p = fs w1 !! p -> genuine_pdf w1 p -> genuine_pdf w2 p.
Proof. unfold genuine_pdf. by intros ->. Qed.

(** ** papersearch.py: process_topic *)

Lemma download_pdf_leaves_no_invalid_artifact_run fetch paper save_dir w :
  exists r w',
    PaperSearcher.download_pdf fetch paper save_dir w = (Ok r, w') /\
    settled (target_path paper save_dir) r w' /\
    (genuine_pdf w (target_path paper save_dir) ->
     fs w' = fs w /\ r = Some (target_path paper save_dir)).
Proof.
  rewrite download_pdf_is_one_attempt.
  destruct (download_pdf_once_run fetch paper save_dir w)
    as (r & w' & Hrun & Hset & Hskip & _).
  exists r, w'. split; [done|]. split; [done|]. intros Hg.
  destruct (Hskip Hg) as (-> & Hfs & _). done.
Qed.

Section ProcessTopic.

Variable fetch : string -> nat -> http_outcome.
Variable search_api : string -> Z -> nat -> search_outcome.
Variable MAX_PAPERS : Z.
Variable PAPERS_DIR : string.
Variable metadata_timestamp : string.
Variable dump_metadata : string -> string -> nat -> list Paper.t -> string.

Local Abbreviation stored := (on_disk PAPERS_DIR).

Lemma stored_same_files w1 w2 paper :
  (forall p, genuine_pdf w1 p -> fs w2 !! p = fs w1 !! p) ->
  stored w1 paper -> stored w2 paper.
Proof.
  intros Hsame (p & Hl & Hp & Hg). exists p. split; [done|]. split; [done|].
  eapply genuine_pdf_same_lookup; [|exact Hg]. by apply Hsame.
Qed.

Lemma download_papers_stored found :
  forall acc w r w',
    Forall (stored w) acc ->
    PaperSearcher.download_papers fetch PAPERS_DIR found acc w = (r, w') ->
    exists downloaded, r = Ok downloaded /\ Forall (stored w') downloaded /\
      (acc <> [] -> downloaded <> []).
Proof.
  induction found as [|paper rest IH]; intros acc w r w' Hacc Hrun.
  - injection Hrun as <- <-. by exists acc.
  - cbn [PaperSearcher.download_papers] in Hrun.
    destruct (download_pdf_leaves_no_invalid_artifact_run fetch paper PAPERS_DIR w)
      as (r1 & w1 & Hdl & Hset & Hskip).
    erewrite bind_ok in Hrun by exact Hdl. cbv beta zeta in Hrun.
    erewrite bind_ok in Hrun by reflexivity.
    assert (Hkeep : Forall (stored (emit (EvSleep 1) w1)) acc).
    { eapply Forall_impl; [exact Hacc|]. intros a Ha.
      eapply stored_same_files; [|exact Ha]. intros p Hp. rewrite emit_fs.
      destruct (genuine_pdf_decided w (target_path paper PAPERS_DIR)) as [Hg|Hng].
      - by rewrite (proj1 (Hskip Hg)).
      - eapply download_pdf_footprint; [exact Hdl|]. by intros ->. }
    destruct r1 as [p|].
    + destruct Hset as [-> Hgen].
      assert (Hnew : Forall (stored (emit (EvSleep 1) w1))
                [PaperSearcher.set_local_path (target_path paper PAPERS_DIR) paper]).
      { constructor; [|constructor]. exists (target_path paper PAPERS_DIR).
        split; [reflexivity|]. split; [reflexivity|].
        eapply genuine_pdf_same_lookup; [|exact Hgen]. by rewrite emit_fs. }
      destruct (IH _ _ _ _ (proj2 (Forall_app _ _ _) (conj Hkeep Hnew)) Hrun)
        as (downloaded & -> & Hall & Hne).
      exists downloaded. split; [done|]. split; [done|]. intros _. apply Hne.
      by destruct acc.
    + destruct (IH acc _ _ _ Hkeep Hrun) as (downloaded & -> & Hall & Hne).
      by exists downloaded.
Qed.

Lemma search_papers_leaves_disk topic limit :
  touches_only (fun _ => False) (PaperSearcher.search_papers search_api topic limit).
Proof.
  apply touches_retry. unfold PaperSearcher.search_papers_once. apply touches_try.
  - apply touches_bind; [apply touches_session_search|].
    intros [msg|data]; [apply touches_throw | apply touches_ret].
  - intros e h Hh. destruct e; try discriminate. injection Hh as <-.
    apply touches_throw.
Qed.

Lemma metadata_path_not_pdf topic :
  Py.lower (Path.suffix (metadata_path PAPERS_DIR topic)) <> ".pdf".
Proof.
  unfold metadata_path.
  change "_metadata.json" with ("_metadata" +:+ "." +:+ "json").
  rewrite <- append_assoc3. rewrite suffix_join.
  - destruct (Py.truthy _ && Py.truthy "json"); vm_compute; discriminate.
  - rewrite contains_append, sanitize_filename_no_slash. reflexivity.
  - reflexivity.
  - reflexivity.
Qed.

Lemma save_metadata_run found topic w :
  exists w',
    PaperSearcher.save_metadata metadata_timestamp dump_metadata found topic
      PAPERS_DIR w = (Ok (metadata_path PAPERS_DIR topic), w') /\
    (forall q, q <> metadata_path PAPERS_DIR topic -> fs w' !! q = fs w !! q) /\
    (exists f, fs w' !! metadata_path PAPERS_DIR topic = Some f /\
               content f = dump_metadata topic metadata_timestamp (length found) found).
Proof.
  unfold PaperSearcher.save_metadata. fold (metadata_path PAPERS_DIR topic).
  erewrite bind_ok by reflexivity.
  erewrite bind_ok.
  2:{ unfold Path.write. cbn [fs emit set_fs]. rewrite lookup_insert_eq. reflexivity. }
  eexists. split; [reflexivity|]. cbn [fs set_fs emit]. split.
  - intros q Hq. by rewrite !lookup_insert_ne.
  - eexists. rewrite lookup_insert_eq. split; [reflexivity|]. reflexivity.
Qed.

Lemma process_topic_run topic w r w' :
  PaperSearcher.process_topic fetch search_api MAX_PAPERS PAPERS_DIR
    metadata_timestamp dump_metadata topic w = (Ok r, w') ->
  (PaperSearcher.success r = true <-> PaperSearcher.papers r <> []) /\
  Forall (stored w') (PaperSearcher.papers r).
Proof.
  unfold PaperSearcher.process_topic. intros Hrun.
  destruct (PaperSearcher.search_papers search_api topic MAX_PAPERS w)
    as [[found|e] w0] eqn:Hsearch.
  2:{ erewrite bind_raise in Hrun by exact Hsearch. discriminate. }
  erewrite bind_ok in Hrun by exact Hsearch. cbv beta in Hrun.
  destruct (bool_decide (found = [])).
  { injection Hrun as <- <-. cbn. split; [split; done | constructor]. }
  destruct (PaperSearcher.download_papers fetch PAPERS_DIR found [] w0)
    as [r1 w1] eqn:Hloop.
  destruct (download_papers_stored found [] w0 r1 w1 (List.Forall_nil _) Hloop)
    as (downloaded & -> & Hall & _).
  erewrite bind_ok in Hrun by exact Hloop. cbv beta in Hrun.
  destruct (bool_decide (downloaded = [])) eqn:Hempty.
  { injection Hrun as <- <-. cbn. split; [split; done | constructor]. }
  apply bool_decide_eq_false in Hempty.
  destruct (save_metadata_run downloaded topic w1) as (w2 & Hsave & Hframe & _).
  erewrite bind_ok in Hrun by exact Hsave. injection Hrun as <- <-.
  cbn [PaperSearcher.success PaperSearcher.papers]. split; [split; done|].
  eapply Forall_impl; [exact Hall|]. intros paper Hp.
  eapply stored_same_files; [|exact Hp]. intros p Hg. apply Hframe.
  intros ->. destruct Hg as (f & _ & Hsuffix & _).
  by apply (metadata_path_not_pdf topic).
Qed.

End ProcessTopic.

(** X9: Whenever [process_topic] returns, every paper it reports carries as
    [local_path] the target path of its title, and the file at that path
    passes the validation gate on the disk as [process_topic] leaves it (after
    all downloads and after the metadata file is written); and it reports
    success exactly when it reports at least one paper. *)
Theorem process_topic_reports_only_papers_on_disk
    (fetch : string -> nat -> http_outcome)
    (search_api : string -> Z -> nat -> search_outcome)
    (MAX_PAPERS : Z) (PAPERS_DIR metadata_timestamp : string)
    (dump_metadata : string -> string -> nat -> list Paper.t -> string)
    (topic : string) (w w' : world) (r : PaperSearcher.topic_result) :
  PaperSearcher.process_topic fetch search_api MAX_PAPERS PAPERS_DIR
    metadata_timestamp dump_metadata topic w = (Ok r, w') ->
  (PaperSearcher.success r = true <-> PaperSearcher.papers r <> []) /\
  forall paper, In paper (PaperSearcher.papers r) ->
    exists p,
      Paper.local_path paper = Some p /\
      p = Path.join PAPERS_DIR (Utils.sanitize_filename (Paper.title paper) +:+ ".pdf") /\
      genuine_pdf w' p.
Proof.
  intros Hrun.
  destruct (process_topic_run fetch search_api MAX_PAPERS PAPERS_DIR
              metadata_timestamp dump_metadata topic w r w' Hrun) as [Hiff Hall].
  split; [exact Hiff|]. intros paper Hin. rewrite Forall_forall in Hall.
  apply (Hall paper). by apply list_elem_of_In.
Qed.

Example sample_topic_run_result :
  PaperSearcher.success sample_topic_result = true /\
  PaperSearcher.message sample_topic_result = "Successfully downloaded 1 valid PDFs" /\
  map Paper.local_path (PaperSearcher.papers sample_topic_result) = [Some sample_target] /\
  log (snd sample_topic_run) =
    [search_request; EvExists sample_target;
     EvHttpGet "https://example.org/attention.pdf"; EvOpenWrite sample_target;
     EvExists sample_target; EvStat sample_target; EvRead sample_target;
     EvSleep 1; EvOpenWrite "papers/attention_metadata.json"].
Proof. vm_compute. repeat split; reflexivity. Qed.

Lemma process_topic_reports_only_papers_on_disk_witness :
  (PaperSearcher.success sample_topic_result = true <->
   PaperSearcher.papers sample_topic_result <> []) /\
  forall paper, In paper (PaperSearcher.papers sample_topic_result) ->
    exists p,
      Paper.local_path paper = Some p /\
      p = Path.join "papers" (Utils.sanitize_filename (Paper.title paper) +:+ ".pdf") /\
      genuine_pdf (snd sample_topic_run) p.
Proof.
  apply (process_topic_reports_only_papers_on_disk pdf_server answering_search 3
           "papers" "2024-01-01 00:00:00" plain_metadata "attention" blank_world
           (snd sample_topic_run) sample_topic_result).
  vm_compute. reflexivity.
Defined.

(** X10: When the search service is down, [process_topic] raises what
    [search_papers] raises, after the three search requests: it attempts no
    download and writes nothing. *)
Theorem process_topic_search_down
    (fetch : string -> nat -> http_outcome)
    (search_api : string -> Z -> nat -> search_outcome)
    (MAX_PAPERS : Z) (PAPERS_DIR metadata_timestamp : string)
    (dump_metadata : string -> string -> nat -> list Paper.t -> string)
    (topic msg : string) (w : world) :
  (forall query size n, search_api query size n = SearchFailed msg) ->
  PaperSearcher.process_topic fetch search_api MAX_PAPERS PAPERS_DIR
    metadata_timestamp dump_metadata topic w =
  (Raise (RetryError (PaperSearchError ("Failed to search papers: " +:+ msg))),
   logged [search_request; EvSleep 2; search_request; EvSleep 2; search_request] w).
Proof.
  intros Hdown. unfold PaperSearcher.process_topic.
  erewrite bind_raise by (by apply search_papers_service_down). reflexivity.
Qed.

Lemma process_topic_search_down_witness :
  PaperSearcher.process_topic pdf_server failing_search 3 "papers"
    "2024-01-01 00:00:00" plain_metadata "attention" blank_world =
  (Raise (RetryError (PaperSearchError
            ("Failed to search papers: " +:+ "connection timed out"))),
   logged [search_request; EvSleep 2; search_request; EvSleep 2; search_request]
     blank_world).
Proof.
  apply (process_topic_search_down pdf_server failing_search 3 "papers"
           "2024-01-01 00:00:00" plain_metadata "attention" "connection timed out"
           blank_world).
  intros query size n. reflexivity.
Defined.

(** ** Dictionaries *)

Section DictFacts.

Context {V : Type}.

Lemma dict_get_set_eq key (value : V) d :
  Dict.get key (Dict.set key value d) = Some value.
Proof.
  induction d as [|[k v] d IH]; cbn.
  - by rewrite String.eqb_refl.
  - destruct (String.eqb key k) eqn:E; cbn; rewrite E; [reflexivity | exact IH].
Qed.

Lemma dict_get_set_ne key key' (value : V) d :
  key <> key' -> Dict.get key' (Dict.set key value d) = Dict.get key' d.
Proof.
  intros Hne. induction d as [|[k v] d IH]; cbn.
  - destruct (String.eqb key' key) eqn:E; [|reflexivity].
    apply String.eqb_eq in E. congruence.
  - destruct (String.eqb key k) eqn:E; cbn.
    + apply String.eqb_eq in E. subst k.
      destruct (String.eqb key' key) eqn:E'; [|reflexivity].
      apply String.eqb_eq in E'. congruence.
    + by rewrite IH.
Qed.

Lemma dict_set_keeps key key' (value : V) d :
  is_Some (Dict.get key' d) -> is_Some (Dict.get key' (Dict.set key value d)).
Proof.
  intros H. destruct (decide (key = key')) as [->|Hne].
  - rewrite dict_get_set_eq. eauto.
  - by rewrite dict_get_set_ne.
Qed.

End DictFacts.

(** ** paper_analyzer.py: the required fields of the insights *)

Section InsightFields.

Variable generate_content : string -> string -> nat -> result string.
Variable json_loads : string -> option json.
Variable first_fenced_block : string -> option string.
Variable json_dumps : json -> string.
Variable ANALYSIS_PROMPT : string -> string.

Lemma ensure_field_keeps insights field insights' :
  PaperAnalyzer.ensure_field insights field = Ok insights' ->
  exists d d', insights = JObj d /\ insights' = JObj d' /\
    is_Some (Dict.get field d') /\
    forall key, is_Some (Dict.get key d) -> is_Some (Dict.get key d').
Proof.
  unfold PaperAnalyzer.ensure_field. destruct insights as [| | | | |d]; try discriminate.
  destruct (Dict.get field d) as [v|] eqn:Hget.
  - destruct (json_truthy v); intros [= <-].
    + exists d, d. rewrite Hget. eauto.
    + eexists d, _. split; [done|]. split; [done|].
      rewrite dict_get_set_eq. split; [eauto|]. intros key. apply dict_set_keeps.
  - intros [= <-]. eexists d, _. split; [done|]. split; [done|].
    rewrite dict_get_set_eq. split; [eauto|]. intros key. apply dict_set_keeps.
Qed.

Lemma ensure_fields_keeps fields :
  forall d insights',
    PaperAnalyzer.ensure_fields (JObj d) fields = Ok insights' ->
    exists d', insights' = JObj d' /\
      (forall key, is_Some (Dict.get key d) -> is_Some (Dict.get key d')) /\
      (forall key, In key fields -> is_Some (Dict.get key d')).
Proof.
  induction fields as [|field rest IH]; intros d insights' Hrun.
  - injection Hrun as <-. exists d. split; [done|]. split; [done|]. intros key [].
  - cbn [PaperAnalyzer.ensure_fields] in Hrun.
    destruct (PaperAnalyzer.ensure_field (JObj d) field) as [i1|e] eqn:E; [|discriminate].
    destruct (ensure_field_keeps _ _ _ E) as (d0 & d1 & [= <-] & -> & Hfield & Hkeep).
    destruct (IH d1 insights' Hrun) as (d' & -> & Hkeep' & Hrest).
    exists d'. split; [done|]. split; [by eauto|].
    intros key [<-|Hin]; [by apply Hkeep' | by apply Hrest].
Qed.

Lemma ensure_required insights insights' :
  PaperAnalyzer.ensure_fields insights PaperAnalyzer.required_fields = Ok insights' ->
  has_keys PaperAnalyzer.required_fields insights'.
Proof.
  intros Hrun. destruct insights as [| | | | |d]; try discriminate.
  destruct (ensure_fields_keeps _ _ _ Hrun) as (d' & -> & _ & Hall).
  by exists d'.
Qed.

Lemma default_insights_required :
  has_keys PaperAnalyzer.required_fields PaperAnalyzer._get_default_insights.
Proof.
  eexists. split; [reflexivity|].
  intros key [<-|[<-|[<-|[<-|[]]]]]; cbn; eauto.
Qed.

(** One model: never an exception, one call, and a record that has the
    required fields when there is one. *)
Lemma insights_from_run model_name prompt w :
  exists found,
    PaperAnalyzer.insights_from generate_content json_loads first_fenced_block
      model_name prompt w = (Ok found, logged [EvGenerate model_name] w) /\
    forall insights, found = Some insights ->
      has_keys PaperAnalyzer.required_fields insights.
Proof.
  unfold PaperAnalyzer.insights_from, try_except.
  unfold mbind at 1, io_bind at 1, generate at 1.
  destruct (generate_content model_name prompt _) as [text|e].
  2:{ exists None. split; [reflexivity | discriminate]. }
  destruct (Py.truthy text); cbn [negb].
  2:{ exists None. split; [reflexivity | discriminate]. }
  unfold mbind, io_bind, PaperAnalyzer.lift.
  destruct (PaperAnalyzer.ensure_fields _ _) as [insights|e] eqn:E.
  2:{ exists None. split; [reflexivity | discriminate]. }
  destruct (PaperAnalyzer.json_len _).
  - exists (Some insights). split; [reflexivity|]. intros i [= <-].
    by eapply ensure_required.
  - exists None. split; [reflexivity | discriminate].
Qed.

Lemma insights_from_models_run models prompt w :
  exists insights k,
    PaperAnalyzer.insights_from_models generate_content json_loads first_fenced_block
      models prompt w = (Ok insights, logged (map EvGenerate (firstn k models)) w) /\
    has_keys PaperAnalyzer.required_fields insights.
Proof.
  revert w. induction models as [|m rest IH]; intros w.
  - exists PaperAnalyzer._get_default_insights, 0%nat. cbn.
    unfold ret, logged. rewrite app_nil_r. split; [by destruct w|].
    apply default_insights_required.
  - cbn [PaperAnalyzer.insights_from_models].
    destruct (insights_from_run m prompt w) as (found & Hrun & Hfound).
    erewrite bind_ok by exact Hrun. destruct found as [insights|].
    + exists insights, 1%nat. split; [reflexivity | by apply Hfound].
    + destruct (IH (logged [EvGenerate m] w)) as (insights & k & Hrest & Hkeys).
      exists insights, (S k). rewrite Hrest. norm_log. by split.
Qed.

End InsightFields.

(** X11: [extract_insights] always returns: whatever the models answer (nothing,
    an error, text that is not JSON, JSON of any shape), the result is a
    dictionary that has the four required fields.  The calls made are a front
    part of the chain (the configured model, then the fallbacks), in its
    order and so at most five, and the retry wrapper never waits. *)
Theorem extract_insights_always_has_required_fields
    (generate_content : string -> string -> nat -> result string)
    (json_loads : string -> option json)
    (first_fenced_block : string -> option string)
    (json_dumps : json -> string) (ANALYSIS_PROMPT : string -> string)
    (sections : list (string * string)) (w : world) :
  exists insights k,
    PaperAnalyzer.extract_insights generate_content json_loads first_fenced_block
      json_dumps ANALYSIS_PROMPT sections w =
      (Ok insights, logged (asked k) w) /\
    exists fields, insights = JObj fields /\
      forall field, In field ["key_findings"; "contributions"; "limitations"; "future_work"] ->
        is_Some (Dict.get field fields).
Proof.
  unfold PaperAnalyzer.extract_insights, PaperAnalyzer.extract_insights_once.
  destruct (negb (existsb Py.truthy (Dict.values sections))).
  - exists PaperAnalyzer._get_default_insights, 0%nat. split.
    + apply retry_ok. unfold ret, logged, asked. cbn. rewrite app_nil_r. by destruct w.
    + apply default_insights_required.
  - destruct (insights_from_models_run generate_content json_loads first_fenced_block
                (PaperAnalyzer.model :: PaperAnalyzer.model_fallbacks)
                (ANALYSIS_PROMPT (json_dumps (JObj (PaperAnalyzer.summarize sections)))) w)
      as (insights & k & Hrun & Hkeys).
    exists insights, k. split; [by apply retry_ok | exact Hkeys].
Qed.

(** ** paper_analyzer.py: the sections of a paper *)

Section SectionKeys.

Variable generate_content : string -> string -> nat -> result string.
Variable json_loads : string -> option json.
Variable first_fenced_block : string -> option string.

Lemma pad_section_keeps section fields key :
  is_Some (Dict.get key fields) ->
  is_Some (Dict.get key (PaperAnalyzer.pad_section fields section)).
Proof.
  unfold PaperAnalyzer.pad_section. destruct (Dict.get section fields); [done|].
  apply dict_set_keeps.
Qed.

Lemma pad_section_adds section fields :
  is_Some (Dict.get section (PaperAnalyzer.pad_section fields section)).
Proof.
  unfold PaperAnalyzer.pad_section.
  destruct (Dict.get section fields) eqn:E; [rewrite E; eauto|].
  rewrite dict_get_set_eq. eauto.
Qed.

Lemma pad_sections_fold sections :
  forall fields,
    (forall key, is_Some (Dict.get key fields) ->
                 is_Some (Dict.get key (fold_left PaperAnalyzer.pad_section sections fields))) /\
    (forall key, In key sections ->
                 is_Some (Dict.get key (fold_left PaperAnalyzer.pad_section sections fields))).
Proof.
  induction sections as [|section rest IH]; intros fields; cbn [fold_left].
  - split; [done | intros key []].
  - destruct (IH (PaperAnalyzer.pad_section fields section)) as [Hkeep Hall]. split.
    + intros key Hkey. by apply Hkeep, pad_section_keeps.
    + intros key [<-|Hin]; [apply Hkeep, pad_section_adds | by apply Hall].
Qed.

Lemma pad_sections_keys sections sections' :
  PaperAnalyzer.pad_sections sections = Ok sections' ->
  has_keys Config.SECTION_ONTOLOGY sections'.
Proof.
  destruct sections as [| | | | |fields]; try discriminate.
  unfold PaperAnalyzer.pad_sections. intros [= <-].
  eexists. split; [reflexivity|].
  exact (proj2 (pad_sections_fold Config.SECTION_ONTOLOGY fields)).
Qed.

Lemma empty_sections_keys :
  has_keys Config.SECTION_ONTOLOGY PaperAnalyzer.empty_sections.
Proof.
  eexists. split; [reflexivity|].
  intros key Hin. cbn in Hin.
  repeat (destruct Hin as [<-|Hin]; [cbn; eauto|]). destruct Hin.
Qed.

Lemma sections_from_run model_name prompt w :
  exists found,
    PaperAnalyzer.sections_from generate_content json_loads first_fenced_block
      model_name prompt w = (Ok found, logged [EvGenerate model_name] w) /\
    forall sections, found = Some sections ->
      has_keys Config.SECTION_ONTOLOGY sections.
Proof.
  unfold PaperAnalyzer.sections_from, try_except.
  unfold mbind at 1, io_bind at 1, generate at 1.
  destruct (generate_content model_name prompt _) as [text|e].
  2:{ exists None. split; [reflexivity | discriminate]. }
  destruct (Py.truthy text); cbn [negb].
  2:{ exists None. split; [reflexivity | discriminate]. }
  unfold mbind, io_bind, PaperAnalyzer.lift.
  destruct (PaperAnalyzer.pad_sections _) as [sections|e] eqn:E.
  - exists (Some sections). split; [reflexivity|]. intros s [= <-].
    by eapply pad_sections_keys.
  - exists None. split; [reflexivity | discriminate].
Qed.

Lemma sections_from_models_run models prompt w :
  exists sections k,
    PaperAnalyzer.sections_from_models generate_content json_loads first_fenced_block
      models prompt w = (Ok sections, logged (map EvGenerate (firstn k models)) w) /\
    has_keys Config.SECTION_ONTOLOGY sections.
Proof.
  revert w. induction models as [|m rest IH]; intros w.
  - exists PaperAnalyzer.empty_sections, 0%nat. cbn.
    unfold ret, logged. rewrite app_nil_r. split; [by destruct w|].
    apply empty_sections_keys.
  - cbn [PaperAnalyzer.sections_from_models].
    destruct (sections_from_run m prompt w) as (found & Hrun & Hfound).
    erewrite bind_ok by exact Hrun. destruct found as [sections|].
    + exists sections, 1%nat. split; [reflexivity | by apply Hfound].
    + destruct (IH (logged [EvGenerate m] w)) as (sections & k & Hrest & Hkeys).
      exists sections, (S k). rewrite Hrest. norm_log. by split.
Qed.

End SectionKeys.

(** X12: [section_paper] always returns a dictionary that has every section of
    the ontology as a key, whatever the text and whatever the models answer;
    a model whose answer is not a JSON object is passed over like one that
    fails.  The calls made are a front part of the chain (the configured
    model, then the fallbacks), in its order and so at most five, and the
    retry wrapper never waits. *)
Theorem section_paper_always_has_every_section
    (generate_content : string -> string -> nat -> result string)
    (json_loads : string -> option json)
    (first_fenced_block : string -> option string)
    (tiktoken_count : string -> option Z)
    (SECTIONING_PROMPT : string -> string -> string)
    (text : string) (w : world) :
  exists sections k,
    PaperAnalyzer.section_paper generate_content json_loads first_fenced_block
      tiktoken_count SECTIONING_PROMPT text w =
      (Ok sections, logged (asked k) w) /\
    exists fields, sections = JObj fields /\
      forall section, In section Config.SECTION_ONTOLOGY ->
        is_Some (Dict.get section fields).
Proof.
  unfold PaperAnalyzer.section_paper, PaperAnalyzer.section_paper_once.
  destruct (negb (Py.truthy text) || _).
  - exists PaperAnalyzer.empty_sections, 0%nat. split.
    + apply retry_ok. unfold ret, logged, asked. cbn. rewrite app_nil_r. by destruct w.
    + apply empty_sections_keys.
  - match goal with
    | |- context [PaperAnalyzer.sections_from_models _ _ _ ?ms ?p] =>
        destruct (sections_from_models_run generate_content json_loads
                    first_fenced_block ms p w) as (sections & k & Hrun & Hkeys)
    end.
    exists sections, k. split; [by apply retry_ok | exact Hkeys].
Qed.

(** X13: A text of fewer than 100 characters once stripped is not sent to any
    model: [section_paper] returns the nine sections, all empty, and leaves
    the world as it was. *)
Theorem section_paper_short_text
    (generate_content : string -> string -> nat -> result string)
    (json_loads : string -> option json)
    (first_fenced_block : string -> option string)
    (tiktoken_count : string -> option Z)
    (SECTIONING_PROMPT : string -> string -> string)
    (text : string) (w : world) :
  (Py.len (Py.strip text) < 100)%nat ->
  PaperAnalyzer.section_paper generate_content json_loads first_fenced_block
    tiktoken_count SECTIONING_PROMPT text w =
    (Ok (JObj (map (fun section => (section, JStr "")) Config.SECTION_ONTOLOGY)), w).
Proof.
  intros Hshort.
  unfold PaperAnalyzer.section_paper, PaperAnalyzer.section_paper_once.
  assert ((Py.len (Py.strip text) <? 100)%nat = true) as -> by by apply Nat.ltb_lt.
  rewrite orb_true_r. by apply retry_ok.
Qed.

Lemma section_paper_short_text_witness :
  PaperAnalyzer.section_paper silent_service (fun _ => None) (fun _ => None)
    (fun _ => None) (fun _ text => text) "   Abstract only.  " blank_world =
    (Ok (JObj (map (fun section => (section, JStr "")) Config.SECTION_ONTOLOGY)),
     blank_world).
Proof.
  apply section_paper_short_text. vm_compute. lia.
Defined.

(** ** draft_generator.py *)

Section DraftMore.

Variable generate_content : string -> string -> nat -> result string.
Variable json_dumps : json -> string.
Variable DRAFT_PROMPT : string -> string -> string.
Variable prepare_analysis_data : list json -> json.
Variable DRAFTS_DIR : string.
Variable timestamp : string.

Lemma answer_of_some r text :
  answer_of r = Some text -> r = Ok text /\ text <> "".
Proof.
  destruct r as [t|e]; [|discriminate]. cbn.
  destruct t; cbn; [discriminate|]. intros [= <-]. by split.
Qed.

Lemma draft_from_run model_name prompt w :
  DraftGenerator.draft_from generate_content model_name prompt w =
  (Ok (answer_of (generate_content model_name prompt
                    (count_events is_generate (log w)))),
   logged [EvGenerate model_name] w).
Proof.
  unfold DraftGenerator.draft_from, try_except.
  unfold mbind, io_bind, generate.
  destruct (generate_content _ _ _) as [text|e]; [|reflexivity].
  cbn [answer_of]. by destruct (Py.truthy text).
Qed.

Lemma count_generate_logged model_name w :
  count_events is_generate (log (logged [EvGenerate model_name] w)) =
  S (count_events is_generate (log w)).
Proof.
  cbn [logged log]. rewrite count_events_app, count_events_cons, count_events_nil.
  cbn [is_generate]. lia.
Qed.

Lemma draft_from_models_order winner rest prompt text skipped :
  forall w,
    (forall j model_name, skipped !! j = Some model_name ->
       answer_of (generate_content model_name prompt
                    (count_events is_generate (log w) + j)) = None) ->
    answer_of (generate_content winner prompt
                 (count_events is_generate (log w) + length skipped)) = Some text ->
    DraftGenerator.draft_from_models generate_content
      (skipped ++ winner :: rest) prompt w =
    (Ok text, logged (map EvGenerate (skipped ++ [winner])) w).
Proof.
  induction skipped as [|m skipped IH]; intros w Hskip Hwin.
  - cbn [app DraftGenerator.draft_from_models length] in *.
    erewrite bind_ok by apply draft_from_run.
    rewrite Nat.add_0_r in Hwin. by rewrite Hwin.
  - cbn [app DraftGenerator.draft_from_models].
    erewrite bind_ok by apply draft_from_run.
    specialize (Hskip 0%nat m eq_refl) as Hm. rewrite Nat.add_0_r in Hm. rewrite Hm.
    rewrite IH.
    + by norm_log.
    + intros j m' Hj. rewrite count_generate_logged.
      replace (S (count_events is_generate (log w)) + j)%nat
        with (count_events is_generate (log w) + S j)%nat by lia.
      by apply Hskip.
    + rewrite count_generate_logged.
      replace (S (count_events is_generate (log w)) + length skipped)%nat
        with (count_events is_generate (log w) + length (m :: skipped))%nat
        by (cbn [length]; lia).
      exact Hwin.
Qed.

Lemma draft_from_models_answer models prompt :
  forall w text w',
    DraftGenerator.draft_from_models generate_content models prompt w = (Ok text, w') ->
    text <> "" /\
    exists model_name n, In model_name models /\
      generate_content model_name prompt n = Ok text.
Proof.
  induction models as [|m rest IH]; intros w text w' Hrun; [discriminate|].
  cbn [DraftGenerator.draft_from_models] in Hrun.
  erewrite bind_ok in Hrun by apply draft_from_run.
  destruct (answer_of _) as [t|] eqn:E.
  - injection Hrun as <- _. apply answer_of_some in E as [E Hne].
    split; [exact Hne|]. eexists m, _. split; [by left | exact E].
  - destruct (IH _ _ _ Hrun) as (Hne & m' & n & Hin & Hans).
    split; [exact Hne|]. exists m', n. split; [by right | exact Hans].
Qed.

Lemma attempts_ok_inv {A : Type} remaining k wait (op : io A) w a w' :
  Tenacity.attempts remaining k wait op w = (Ok a, w') ->
  exists w0, op w0 = (Ok a, w').
Proof.
  revert k w. induction remaining as [|r IH]; intros k w Hrun; cbn in Hrun.
  - destruct (op w) as [[a0|e] w1] eqn:E; [|discriminate].
    exists w. by rewrite E.
  - destruct (op w) as [[a0|e] w1] eqn:E.
    + exists w. by rewrite E.
    + by eapply IH.
Qed.

Lemma touches_draft_from_models models prompt :
  touches_only (fun _ => False)
    (DraftGenerator.draft_from_models generate_content models prompt).
Proof.
  induction models as [|m rest IH]; [apply touches_throw|].
  cbn [DraftGenerator.draft_from_models]. apply touches_bind.
  - intros w r w' Hrun q _. rewrite draft_from_run in Hrun. by injection Hrun as <- <-.
  - intros [text|]; [apply touches_ret | exact IH].
Qed.

Lemma generate_draft_leaves_disk analysis_data topic w r w' :
  DraftGenerator.generate_draft generate_content json_dumps DRAFT_PROMPT
    analysis_data topic w = (r, w') ->
  fs w' = fs w.
Proof.
  intros Hrun. apply map_eq. intros q.
  eapply (touches_retry (fun _ => False)); [|exact Hrun|tauto].
  apply touches_draft_from_models.
Qed.

Lemma save_draft_run text topic w :
  exists w',
    DraftGenerator.save_draft DRAFTS_DIR timestamp text topic w =
      (Ok (draft_target DRAFTS_DIR timestamp topic), w') /\
    fs w' !! draft_target DRAFTS_DIR timestamp topic =
      Some {| content := text; readable := true |}.
Proof.
  unfold DraftGenerator.save_draft. fold (draft_target DRAFTS_DIR timestamp topic).
  set (p := draft_target DRAFTS_DIR timestamp topic).
  unfold mbind, io_bind, Path.open_wb, Path.write, ret. cbn.
  rewrite lookup_insert_eq. eexists. split; [reflexivity|]. cbn.
  by rewrite lookup_insert_eq.
Qed.

End DraftMore.

(** X14: The fallback chain of [generate_draft] is tried in order and stops at the
    first entry that answers: when the entries before it raise or answer
    with no text, and it answers with a text, that text is the draft, no
    later entry is called and the retry wrapper does not wait. *)
Theorem generate_draft_first_answer_wins
    (generate_content : string -> string -> nat -> result string)
    (json_dumps : json -> string) (DRAFT_PROMPT : string -> string -> string)
    (analysis_data : json) (topic : string) (w : world)
    (skipped : list string) (winner : string) (rest : list string)
    (text : string) :
  Config.GEMINI_MODEL :: Config.AVAILABLE_MODELS = skipped ++ winner :: rest ->
  (forall j model_name, skipped !! j = Some model_name ->
     answer_of (generate_content model_name
                  (DRAFT_PROMPT topic (json_dumps analysis_data))
                  (count_events is_generate (log w) + j)%nat) = None) ->
  generate_content winner (DRAFT_PROMPT topic (json_dumps analysis_data))
    (count_events is_generate (log w) + length skipped)%nat = Ok text ->
  text <> "" ->
  DraftGenerator.generate_draft generate_content json_dumps DRAFT_PROMPT
    analysis_data topic w =
  (Ok text, logged (map EvGenerate (skipped ++ [winner])) w).
Proof.
  intros Hchain Hskip Hwin Hne.
  unfold DraftGenerator.generate_draft, DraftGenerator.generate_draft_once.
  apply retry_ok. unfold DraftGenerator.model, DraftGenerator.model_fallbacks.
  rewrite Hchain. apply draft_from_models_order; [exact Hskip|].
  rewrite Hwin. cbn. by destruct text.
Qed.

Lemma generate_draft_first_answer_wins_witness :
  DraftGenerator.generate_draft degraded_service plain_dumps plain_draft_prompt
    (JObj []) "graph neural networks" blank_world =
  (Ok sample_draft,
   logged [EvGenerate "gemini-2.0-flash"; EvGenerate "gemini-2.0-flash"] blank_world).
Proof.
  apply (generate_draft_first_answer_wins degraded_service plain_dumps
           plain_draft_prompt (JObj []) "graph neural networks" blank_world
           ["gemini-2.0-flash"] "gemini-2.0-flash"
           ["gemini-2.0-flash-lite"; "gemini-2.5-flash"; "gemini-2.5-pro"]
           sample_draft).
  - reflexivity.
  - intros [|j] model_name; [reflexivity | discriminate].
  - reflexivity.
  - discriminate.
Defined.

(** X15: A draft that [generate_draft] returns is never empty, and it is the text
    that one model of the chain answered to the draft prompt; the function
    writes nothing to disk. *)
Theorem generate_draft_returns_an_answer
    (generate_content : string -> string -> nat -> result string)
    (json_dumps : json -> string) (DRAFT_PROMPT : string -> string -> string)
    (analysis_data : json) (topic : string) (w : world)
    (text : string) (w' : world) :
  DraftGenerator.generate_draft generate_content json_dumps DRAFT_PROMPT
    analysis_data topic w = (Ok text, w') ->
  text <> "" /\
  (exists model_name n,
     In model_name (Config.GEMINI_MODEL :: Config.AVAILABLE_MODELS) /\
     generate_content model_name (DRAFT_PROMPT topic (json_dumps analysis_data)) n =
       Ok text) /\
  fs w' = fs w.
Proof.
  intros Hrun. split; [|split].
  - apply attempts_ok_inv in Hrun as [w0 Hrun].
    by destruct (draft_from_models_answer _ _ _ _ _ _ Hrun).
  - apply attempts_ok_inv in Hrun as [w0 Hrun].
    by destruct (draft_from_models_answer _ _ _ _ _ _ Hrun).
  - by eapply generate_draft_leaves_disk.
Qed.

Lemma generate_draft_returns_an_answer_witness :
  sample_draft <> "" /\
  (exists model_name n,
     In model_name (Config.GEMINI_MODEL :: Config.AVAILABLE_MODELS) /\
     degraded_service model_name
       (plain_draft_prompt "graph neural networks" (plain_dumps (JObj []))) n =
       Ok sample_draft) /\
  fs (logged [EvGenerate "gemini-2.0-flash"; EvGenerate "gemini-2.0-flash"] blank_world) =
  fs blank_world.
Proof.
  apply (generate_draft_returns_an_answer degraded_service plain_dumps
           plain_draft_prompt (JObj []) "graph neural networks" blank_world).
  vm_compute. reflexivity.
Defined.

(** X16: [generate_review] never raises, and its report matches the disk: a
    report of success carries a draft that is not empty and the path of a
    file that holds exactly that draft, under [DRAFTS_DIR] with the sanitized
    topic in its name; a report of failure carries neither and the disk is as
    it was before the call. *)
Theorem generate_review_reports_what_it_saved
    (generate_content : string -> string -> nat -> result string)
    (json_dumps : json -> string) (DRAFT_PROMPT : string -> string -> string)
    (prepare_analysis_data : list json -> json)
    (DRAFTS_DIR timestamp : string)
    (analyses : list json) (topic : string) (w : world) :
  exists report w',
    DraftGenerator.generate_review generate_content json_dumps DRAFT_PROMPT
      prepare_analysis_data DRAFTS_DIR timestamp analyses topic w = (Ok report, w') /\
    if DraftGenerator.success report then
      exists text,
        DraftGenerator.draft report = Some text /\ text <> "" /\
        DraftGenerator.draft_path report =
          Some (Path.join DRAFTS_DIR
                  (Utils.sanitize_filename topic +:+ "_review_draft_" +:+ timestamp
                   +:+ ".txt")) /\
        content <$> fs w' !! Path.join DRAFTS_DIR
                  (Utils.sanitize_filename topic +:+ "_review_draft_" +:+ timestamp
                   +:+ ".txt") = Some text /\
        DraftGenerator.num_papers report = Some (length analyses) /\
        analyses <> []
    else
      DraftGenerator.draft report = None /\
      DraftGenerator.draft_path report = None /\
      fs w' = fs w.
Proof.
  unfold DraftGenerator.generate_review.
  destruct (bool_decide (analyses = [])) eqn:Hempty.
  { eexists _, w. split; [reflexivity|]. cbn. by repeat split. }
  apply bool_decide_eq_false in Hempty.
  destruct (DraftGenerator.generate_draft generate_content json_dumps DRAFT_PROMPT
              (prepare_analysis_data analyses) topic w) as [[text|e] w1] eqn:Hdraft.
  - assert (text <> "") as Hne.
    { apply attempts_ok_inv in Hdraft as [w0 Hdraft].
      by destruct (draft_from_models_answer _ _ _ _ _ _ Hdraft). }
    destruct (save_draft_run DRAFTS_DIR timestamp text topic w1) as (w2 & Hsave & Hfile).
    eexists _, w2. split.
    + apply try_ok. erewrite bind_ok by exact Hdraft.
      erewrite bind_ok by exact Hsave. reflexivity.
    + cbn. exists text. repeat split; try done.
      unfold draft_target in Hfile. by rewrite Hfile.
  - eexists _, w1. split.
    + erewrite try_caught; [reflexivity| |reflexivity].
      erewrite bind_raise by exact Hdraft. reflexivity.
    + cbn. repeat split. by eapply generate_draft_leaves_disk.
Qed.

(** ** app.py: the graph as a whole *)

Lemma extends_refl s : extends s s.
Proof. split; [done|]. split; [done|]. exists []. by rewrite app_nil_r. Qed.

Lemma extends_trans s1 s2 s3 : extends s1 s2 -> extends s2 s3 -> extends s1 s3.
Proof.
  intros (Ht & Hs & l1 & Hl1) (Ht' & Hs' & l2 & Hl2).
  split; [congruence|]. split; [congruence|].
  exists (l1 ++ l2). by rewrite Hl2, Hl1, app_assoc.
Qed.

Lemma extends_append line s x : extends s x -> extends s (App.append_progress line x).
Proof.
  intros H. eapply extends_trans; [exact H|].
  split; [done|]. split; [done|]. by exists [line].
Qed.

Lemma extends_frame (f : App.PipelineState -> App.PipelineState) s x :
  (forall y, App.topic (f y) = App.topic y /\
             App.start_time (f y) = App.start_time y /\
             App.progress (f y) = App.progress y) ->
  extends s x -> extends s (f x).
Proof.
  intros Hf (Ht & Hs & l & Hl). destruct (Hf x) as (Ht' & Hs' & Hl').
  split; [congruence|]. split; [congruence|]. exists l. congruence.
Qed.

Lemma extends_list_found found : forall i s x,
  extends s x -> extends s (App.list_found i found x).
Proof.
  induction found as [|paper rest IH]; intros i s x H; [exact H|].
  cbn [App.list_found]. by apply IH, extends_append.
Qed.

Lemma extends_list_names icon paths s x :
  extends s x -> extends s (App.list_names icon paths x).
Proof.
  unfold App.list_names. generalize (firstn 3 paths). intros l. revert x.
  induction l as [|path rest IH]; intros x H; [exact H|].
  cbn [fold_left]. by apply IH, extends_append.
Qed.

Lemma extends_list_stage_times format_seconds s x :
  extends s x -> extends s (App.list_stage_times format_seconds x).
Proof.
  unfold App.list_stage_times. generalize (App.stage_times x). intros l. revert x.
  induction l as [|[stage d] rest IH]; intros x H; [exact H|].
  cbn [fold_left]. by apply IH, extends_append.
Qed.

Ltac extends_step :=
  first
    [ apply extends_append
    | apply extends_list_found
    | apply extends_list_names
    | apply extends_list_stage_times
    | apply (extends_frame (App.set_error _)); [by intros []|]
    | apply (extends_frame (App.set_stage_time _ _)); [by intros []|]
    | apply (extends_frame (App.set_search _)); [by intros []|]
    | apply (extends_frame (App.set_extraction _)); [by intros []|]
    | apply (extends_frame (App.set_analysis _)); [by intros []|]
    | apply (extends_frame (App.set_draft_status _)); [by intros []|]
    | apply (extends_frame (App.set_draft _)); [by intros []|] ].

Ltac extends_solve := repeat extends_step; apply extends_refl.

(** What the loops that only append to the progress log leave alone. *)
Lemma list_found_field {X : Type} (f : App.PipelineState -> X) :
  (forall line y, f (App.append_progress line y) = f y) ->
  forall found i x, f (App.list_found i found x) = f x.
Proof.
  intros Hf. induction found as [|paper rest IH]; intros i x; [reflexivity|].
  cbn [App.list_found]. by rewrite IH, Hf.
Qed.

Lemma list_names_field {X : Type} (f : App.PipelineState -> X) :
  (forall line y, f (App.append_progress line y) = f y) ->
  forall icon paths x, f (App.list_names icon paths x) = f x.
Proof.
  intros Hf icon paths. unfold App.list_names. generalize (firstn 3 paths).
  intros l. induction l as [|path rest IH]; intros x; [reflexivity|].
  cbn [fold_left]. by rewrite IH, Hf.
Qed.

Lemma list_stage_times_field {X : Type} (f : App.PipelineState -> X) :
  (forall line y, f (App.append_progress line y) = f y) ->
  forall format_seconds x, f (App.list_stage_times format_seconds x) = f x.
Proof.
  intros Hf format_seconds x. unfold App.list_stage_times.
  generalize (App.stage_times x). intros l. revert x.
  induction l as [|[stage d] rest IH]; intros x; [reflexivity|].
  cbn [fold_left]. by rewrite IH, Hf.
Qed.

Ltac field_of f :=
  repeat first
    [ rewrite (list_found_field f) by reflexivity
    | rewrite (list_names_field f) by reflexivity
    | rewrite (list_stage_times_field f) by reflexivity
    | progress cbn [App.topic App.papers App.search_success App.search_message
                    App.extracted_paths App.extraction_success
                    App.extraction_message App.analysis_paths
                    App.analysis_success App.analysis_message App.draft
                    App.draft_path App.draft_success App.draft_message
                    App.error App.progress App.start_time App.stage_times
                    App.append_progress App.set_error App.set_stage_time
                    App.set_search App.set_extraction App.set_analysis
                    App.set_draft_status App.set_draft] ].

Ltac run_node :=
  unfold mbind, io_bind, App.time_time, App.format_progress_message, try_except, ret.

Section GraphRuns.

Variable clock : world -> Z.
Variable stamped : world -> string -> string -> string.
Variable format_seconds : Z -> string.
Variable process_topic : string -> io App.search_result.
Variable process_all_pdfs : io (list string).
Variable process_all_papers : io (list string).
Variable generate_review : string -> io DraftGenerator.review.

Lemma search_node_returns s w :
  exists s' w',
    App.search_node clock stamped process_topic s w = (Ok s', w') /\
    extends s s' /\ is_Some (Dict.get "search" (App.stage_times s')).
Proof.
  unfold App.search_node. run_node. cbn [App.topic App.append_progress].
  destruct (process_topic (App.topic s) w) as [[r|e] w1].
  - destruct (App.found_success r); cbn [negb];
      (eexists _, _; split; [reflexivity|]; split;
       [extends_solve | cbn [App.stage_times App.set_stage_time]; rewrite dict_get_set_eq; eauto]).
  - eexists _, _. split; [reflexivity|]. split; [extends_solve|].
    cbn [App.stage_times App.set_stage_time]. rewrite dict_get_set_eq. eauto.
Qed.

Lemma extract_node_returns s w :
  exists s' w',
    App.extract_node clock stamped process_all_pdfs s w = (Ok s', w') /\
    extends s s' /\ keeps_times s s'.
Proof.
  unfold App.extract_node. run_node.
  destruct (App.has_error s).
  { eexists _, _. split; [reflexivity|]. split; [apply extends_refl | by intros key]. }
  destruct (process_all_pdfs w) as [[files|e] w1].
  - destruct (bool_decide (files = [])); cbn [negb];
      (eexists _, _; split; [reflexivity|]; split; [extends_solve|]);
      intros key Hkey; field_of App.stage_times; by apply dict_set_keeps.
  - eexists _, _. split; [reflexivity|]. split; [extends_solve|].
    intros key Hkey. field_of App.stage_times. by apply dict_set_keeps.
Qed.

Lemma analyze_node_returns s w :
  exists s' w',
    App.analyze_node clock stamped process_all_papers s w = (Ok s', w') /\
    extends s s' /\ keeps_times s s'.
Proof.
  unfold App.analyze_node. run_node.
  destruct (App.has_error s).
  { eexists _, _. split; [reflexivity|]. split; [apply extends_refl | by intros key]. }
  destruct (process_all_papers w) as [[paths|e] w1].
  - destruct (bool_decide (paths = [])); cbn [negb];
      (eexists _, _; split; [reflexivity|]; split; [extends_solve|]);
      intros key Hkey; field_of App.stage_times; by apply dict_set_keeps.
  - eexists _, _. split; [reflexivity|]. split; [extends_solve|].
    intros key Hkey. field_of App.stage_times. by apply dict_set_keeps.
Qed.

Lemma draft_node_returns s w :
  exists s' w',
    App.draft_node clock stamped generate_review s w = (Ok s', w') /\
    extends s s' /\ keeps_times s s'.
Proof.
  unfold App.draft_node. run_node.
  destruct (App.has_error s).
  { eexists _, _. split; [reflexivity|]. split; [apply extends_refl | by intros key]. }
  cbn [App.topic App.append_progress].
  destruct (generate_review (App.topic s) w) as [[r|e] w1].
  - destruct (DraftGenerator.success r); [destruct (DraftGenerator.draft r)|];
      (eexists _, _; split; [reflexivity|]; split; [extends_solve|]);
      intros key Hkey; field_of App.stage_times; by apply dict_set_keeps.
  - eexists _, _. split; [reflexivity|]. split; [extends_solve|].
    intros key Hkey. field_of App.stage_times. by apply dict_set_keeps.
Qed.

Lemma finalize_node_returns s w :
  exists s' more,
    App.finalize_node clock format_seconds s w = (Ok s', w) /\
    App.topic s' = App.topic s /\ App.start_time s' = App.start_time s /\
    App.stage_times s' = App.stage_times s /\
    App.progress s' =
      App.progress s ++ String Py.newline App.rule :: "📊 PIPELINE SUMMARY"
                        :: App.rule :: more.
Proof.
  destruct (finalize_node_always_reports clock format_seconds s w)
    as (s' & more & Hrun & Hprogress).
  exists s', more. split; [exact Hrun|].
  unfold App.finalize_node in Hrun. run_node. cbv beta zeta in Hrun.
  rewrite !has_error_append in Hrun.
  destruct (App.has_error s); injection Hrun as <-.
  - by repeat split.
  - repeat split; [field_of App.topic | field_of App.start_time
                  | field_of App.stage_times | exact Hprogress]; reflexivity.
Qed.

End GraphRuns.

(** X17: A run of the graph never raises, whatever its four collaborators do
    (return anything, or raise anything): every failure of a stage ends up in
    the state.  The state that comes out is of the same run (same topic, same
    start time), its progress log is the one that went in with lines added at
    the end, at least the head of the summary, and the time of the search
    stage is always recorded. *)
Theorem invoke_never_raises
    (clock : world -> Z) (stamped : world -> string -> string -> string)
    (format_seconds : Z -> string)
    (process_topic : string -> io App.search_result)
    (process_all_pdfs process_all_papers : io (list string))
    (generate_review : string -> io DraftGenerator.review)
    (s : App.PipelineState) (w : world) :
  exists s' w' lines,
    App.invoke clock stamped format_seconds process_topic process_all_pdfs
      process_all_papers generate_review s w = (Ok s', w') /\
    App.topic s' = App.topic s /\
    App.start_time s' = App.start_time s /\
    App.progress s' = App.progress s ++ lines /\
    In "📊 PIPELINE SUMMARY" lines /\
    is_Some (Dict.get "search" (App.stage_times s')).
Proof.
  unfold App.invoke.
  destruct (search_node_returns clock stamped process_topic s w)
    as (s1 & w1 & H1 & (Ht1 & Hs1 & l1 & Hl1) & Hsearch).
  destruct (extract_node_returns clock stamped process_all_pdfs s1 w1)
    as (s2 & w2 & H2 & (Ht2 & Hs2 & l2 & Hl2) & Hk2).
  destruct (analyze_node_returns clock stamped process_all_papers s2 w2)
    as (s3 & w3 & H3 & (Ht3 & Hs3 & l3 & Hl3) & Hk3).
  destruct (draft_node_returns clock stamped generate_review s3 w3)
    as (s4 & w4 & H4 & (Ht4 & Hs4 & l4 & Hl4) & Hk4).
  destruct (finalize_node_returns clock format_seconds s4 w4)
    as (s5 & more & H5 & Ht5 & Hs5 & Hk5 & Hl5).
  exists s5, w4, (l1 ++ l2 ++ l3 ++ l4 ++ String Py.newline App.rule
                    :: "📊 PIPELINE SUMMARY" :: App.rule :: more).
  split.
  { erewrite bind_ok by exact H1. erewrite bind_ok by exact H2.
    erewrite bind_ok by exact H3. erewrite bind_ok by exact H4. exact H5. }
  split; [congruence|]. split; [congruence|]. split.
  { rewrite Hl5, Hl4, Hl3, Hl2, Hl1. by rewrite <- !app_assoc. }
  split.
  { rewrite !in_app_iff. do 4 right. right. by left. }
  rewrite Hk5. by apply Hk4, Hk3, Hk2.
Qed.

Section GraphOutcomes.

Variable clock : world -> Z.
Variable stamped : world -> string -> string -> string.
Variable format_seconds : Z -> string.
Variable process_topic : string -> io App.search_result.
Variable process_all_pdfs : io (list string).
Variable process_all_papers : io (list string).
Variable generate_review : string -> io DraftGenerator.review.

Lemma has_error_of_error s s' :
  App.error s' = App.error s -> App.has_error s' = App.has_error s.
Proof. unfold App.has_error. by intros ->. Qed.

Lemma search_node_found s w r w1 :
  process_topic (App.topic s) w = (Ok r, w1) ->
  App.found_success r = true ->
  exists duration line line',
    App.search_node clock stamped process_topic s w =
    (Ok (App.set_stage_time "search" duration
           (App.list_found 1 (App.found_papers r)
              (App.append_progress line'
                 (App.set_search r (App.append_progress line s))))), w1).
Proof.
  intros Hrun Hok. unfold App.search_node. run_node.
  cbn [App.topic App.append_progress]. rewrite Hrun, Hok. cbn [negb].
  eexists _, _, _. reflexivity.
Qed.

Lemma search_node_raised s w e w1 :
  process_topic (App.topic s) w = (Raise e, w1) ->
  exists duration line line',
    App.search_node clock stamped process_topic s w =
    (Ok (App.set_stage_time "search" duration
           (App.append_progress line'
              (App.set_error (exn_str e) (App.append_progress line s)))), w1).
Proof.
  intros Hrun. unfold App.search_node. run_node.
  cbn [App.topic App.append_progress]. rewrite Hrun.
  eexists _, _, _. reflexivity.
Qed.

Lemma extract_node_extracted s w files w1 :
  App.has_error s = false ->
  process_all_pdfs w = (Ok files, w1) -> files <> [] ->
  exists duration line line',
    App.extract_node clock stamped process_all_pdfs s w =
    (Ok (App.set_stage_time "extract" duration
           (App.list_names "📄" files
              (App.append_progress line'
                 (App.set_extraction files (App.append_progress line s))))), w1).
Proof.
  intros Herr Hrun Hne. unfold App.extract_node. run_node.
  rewrite Herr, Hrun. rewrite bool_decide_eq_false_2 by done. cbn [negb].
  eexists _, _, _. reflexivity.
Qed.

Lemma analyze_node_analyzed s w paths w1 :
  App.has_error s = false ->
  process_all_papers w = (Ok paths, w1) -> paths <> [] ->
  exists duration line line',
    App.analyze_node clock stamped process_all_papers s w =
    (Ok (App.set_stage_time "analyze" duration
           (App.list_names "🔬" paths
              (App.append_progress line'
                 (App.set_analysis paths (App.append_progress line s))))), w1).
Proof.
  intros Herr Hrun Hne. unfold App.analyze_node. run_node.
  rewrite Herr, Hrun. rewrite bool_decide_eq_false_2 by done. cbn [negb].
  eexists _, _, _. reflexivity.
Qed.

Lemma draft_node_drafted s w report text w1 :
  App.has_error s = false ->
  generate_review (App.topic s) w = (Ok report, w1) ->
  DraftGenerator.success report = true ->
  DraftGenerator.draft report = Some text ->
  exists duration line line' line'',
    App.draft_node clock stamped generate_review s w =
    (Ok (App.set_stage_time "draft" duration
           (App.append_progress line''
              (App.append_progress line'
                 (App.set_draft report
                    (App.set_draft_status report (App.append_progress line s)))))),
     w1).
Proof.
  intros Herr Hrun Hok Htext. unfold App.draft_node. run_node.
  rewrite Herr. cbn [App.topic App.append_progress]. rewrite Hrun, Hok, Htext.
  eexists _, _, _, _. reflexivity.
Qed.

Lemma finalize_node_completed s w :
  App.has_error s = false ->
  exists s',
    App.finalize_node clock format_seconds s w = (Ok s', w) /\
    In "✅ Status: Completed Successfully" (App.progress s') /\
    forall (X : Type) (f : App.PipelineState -> X),
      (forall line y, f (App.append_progress line y) = f y) -> f s' = f s.
Proof.
  intros Herr. unfold App.finalize_node. run_node. cbv beta zeta.
  rewrite !has_error_append, Herr. eexists. split; [reflexivity|].
  match goal with
  | |- context [App.list_stage_times format_seconds ?x] => set (base := x)
  end.
  destruct (extends_list_stage_times format_seconds base base (extends_refl base))
    as (_ & _ & more & Hmore).
  assert (forall X (f : App.PipelineState -> X),
            (forall line y, f (App.append_progress line y) = f y) ->
            f (App.list_stage_times format_seconds base) = f s) as Hframe.
  { intros X f Hf. rewrite (list_stage_times_field f Hf). unfold base.
    by rewrite !Hf. }
  split; [|exact Hframe].
  rewrite Hmore. unfold base. cbn [App.progress App.append_progress].
  rewrite !in_app_iff. left. left. left. left. right. by left.
Qed.

(** What the graph does after a search node that left no error. *)
Lemma run_after_search s1 w1 files paths report text :
  App.has_error s1 = false ->
  returns process_all_pdfs files -> files <> [] ->
  returns process_all_papers paths -> paths <> [] ->
  returns (generate_review (App.topic s1)) report ->
  DraftGenerator.success report = true ->
  DraftGenerator.draft report = Some text ->
  exists s' w',
    (state ← App.extract_node clock stamped process_all_pdfs s1;
     state ← App.analyze_node clock stamped process_all_papers state;
     state ← App.draft_node clock stamped generate_review state;
     App.finalize_node clock format_seconds state) w1 = (Ok s', w') /\
    App.error s' = App.error s1 /\
    App.papers s' = App.papers s1 /\
    App.extracted_paths s' = files /\
    App.analysis_paths s' = paths /\
    App.draft s' = Some text /\
    App.draft_path s' = DraftGenerator.draft_path report /\
    (App.extraction_success s' = true /\ App.analysis_success s' = true /\
     App.draft_success s' = true) /\
    (forall stage,
       is_Some (Dict.get stage (App.stage_times s1)) \/
       In stage ["extract"; "analyze"; "draft"] ->
       is_Some (Dict.get stage (App.stage_times s'))) /\
    In "✅ Status: Completed Successfully" (App.progress s').
Proof.
  intros Herr Hpdfs Hfiles Hpapers Hpaths Hreview Hok Htext.
  destruct (Hpdfs w1) as [w2 Hrun2].
  destruct (extract_node_extracted s1 w1 files w2 Herr Hrun2 Hfiles)
    as (d2 & l2 & l2' & H2).
  set (s2 := App.set_stage_time _ _ _) in H2.
  assert (App.has_error s2 = false) as Herr2.
  { rewrite <- Herr. apply has_error_of_error. unfold s2. by field_of App.error. }
  destruct (Hpapers w2) as [w3 Hrun3].
  destruct (analyze_node_analyzed s2 w2 paths w3 Herr2 Hrun3 Hpaths)
    as (d3 & l3 & l3' & H3).
  set (s3 := App.set_stage_time _ _ _) in H3.
  assert (App.has_error s3 = false) as Herr3.
  { rewrite <- Herr2. apply has_error_of_error. unfold s3. by field_of App.error. }
  assert (App.topic s3 = App.topic s1) as Htopic.
  { unfold s3. field_of App.topic. unfold s2. by field_of App.topic. }
  destruct (Hreview w3) as [w4 Hrun4]. rewrite <- Htopic in Hrun4.
  destruct (draft_node_drafted s3 w3 report text w4 Herr3 Hrun4 Hok Htext)
    as (d4 & l4 & l4' & l4'' & H4).
  set (s4 := App.set_stage_time _ _ _) in H4.
  assert (App.has_error s4 = false) as Herr4.
  { rewrite <- Herr3. apply has_error_of_error. unfold s4. by field_of App.error. }
  destruct (finalize_node_completed s4 w4 Herr4) as (s5 & H5 & Hdone & Hframe).
  exists s5, w4. split.
  { erewrite bind_ok by exact H2. erewrite bind_ok by exact H3.
    erewrite bind_ok by exact H4. exact H5. }
  split.
  { rewrite (Hframe _ App.error) by reflexivity.
    unfold s4. field_of App.error. unfold s3. field_of App.error.
    unfold s2. by field_of App.error. }
  split.
  { rewrite (Hframe _ App.papers) by reflexivity.
    unfold s4. field_of App.papers. unfold s3. field_of App.papers.
    unfold s2. by field_of App.papers. }
  split.
  { rewrite (Hframe _ App.extracted_paths) by reflexivity.
    unfold s4. field_of App.extracted_paths. unfold s3. field_of App.extracted_paths.
    unfold s2. by field_of App.extracted_paths. }
  split.
  { rewrite (Hframe _ App.analysis_paths) by reflexivity.
    unfold s4. field_of App.analysis_paths. unfold s3. by field_of App.analysis_paths. }
  split.
  { rewrite (Hframe _ App.draft) by reflexivity.
    unfold s4. by field_of App.draft. }
  split.
  { rewrite (Hframe _ App.draft_path) by reflexivity.
    unfold s4. by field_of App.draft_path. }
  split.
  { rewrite (Hframe _ App.extraction_success), (Hframe _ App.analysis_success),
      (Hframe _ App.draft_success) by reflexivity.
    split; [|split].
    - unfold s4. field_of App.extraction_success. unfold s3.
      field_of App.extraction_success. unfold s2. field_of App.extraction_success.
      by rewrite bool_decide_eq_false_2.
    - unfold s4. field_of App.analysis_success. unfold s3.
      field_of App.analysis_success. by rewrite bool_decide_eq_false_2.
    - unfold s4. by field_of App.draft_success. }
  split; [|exact Hdone].
  intros stage Hstage. rewrite (Hframe _ App.stage_times) by reflexivity.
  unfold s4. field_of App.stage_times.
  destruct (decide (stage = "draft")) as [->|Hd]; [rewrite dict_get_set_eq; eauto|].
  rewrite dict_get_set_ne by done.
  unfold s3. field_of App.stage_times.
  destruct (decide (stage = "analyze")) as [->|Ha]; [rewrite dict_get_set_eq; eauto|].
  rewrite dict_get_set_ne by done.
  unfold s2. field_of App.stage_times.
  destruct (decide (stage = "extract")) as [->|He]; [rewrite dict_get_set_eq; eauto|].
  rewrite dict_get_set_ne by done.
  destruct Hstage as [H|[<-|[<-|[<-|[]]]]]; done.
Qed.

End GraphOutcomes.

(** X18: When every stage succeeds, the run ends without an error: the state
    holds the papers of the search, the extracted and analysed paths, the
    draft and its path as the stages returned them, the three success flags
    set, a time for each of the four working stages, and the summary reports
    completion. *)
Theorem invoke_successful_run
    (clock : world -> Z) (stamped : world -> string -> string -> string)
    (format_seconds : Z -> string)
    (process_topic : string -> io App.search_result)
    (process_all_pdfs process_all_papers : io (list string))
    (generate_review : string -> io DraftGenerator.review)
    (s : App.PipelineState) (w : world)
    (found : App.search_result) (files paths : list string)
    (report : DraftGenerator.review) (text : string) :
  App.has_error s = false ->
  returns (process_topic (App.topic s)) found -> App.found_success found = true ->
  returns process_all_pdfs files -> files <> [] ->
  returns process_all_papers paths -> paths <> [] ->
  returns (generate_review (App.topic s)) report ->
  DraftGenerator.success report = true ->
  DraftGenerator.draft report = Some text ->
  exists s' w',
    App.invoke clock stamped format_seconds process_topic process_all_pdfs
      process_all_papers generate_review s w = (Ok s', w') /\
    App.error s' = App.error s /\
    App.papers s' = App.found_papers found /\
    App.extracted_paths s' = files /\
    App.analysis_paths s' = paths /\
    App.draft s' = Some text /\
    App.draft_path s' = DraftGenerator.draft_path report /\
    (App.extraction_success s' = true /\ App.analysis_success s' = true /\
     App.draft_success s' = true) /\
    (forall stage, In stage ["search"; "extract"; "analyze"; "draft"] ->
       is_Some (Dict.get stage (App.stage_times s'))) /\
    In "✅ Status: Completed Successfully" (App.progress s').
Proof.
  intros Herr Hsearch Hfound Hpdfs Hfiles Hpapers Hpaths Hreview Hok Htext.
  destruct (Hsearch w) as [w1 Hrun1].
  destruct (search_node_found clock stamped process_topic s w found w1 Hrun1 Hfound)
    as (d1 & l1 & l1' & H1).
  set (s1 := App.set_stage_time _ _ _) in H1.
  assert (App.has_error s1 = false) as Herr1.
  { rewrite <- Herr. apply has_error_of_error. unfold s1. by field_of App.error. }
  assert (App.topic s1 = App.topic s) as Htopic.
  { unfold s1. by field_of App.topic. }
  rewrite <- Htopic in Hreview.
  destruct (run_after_search clock stamped format_seconds process_all_pdfs
              process_all_papers generate_review s1 w1 files paths report text
              Herr1 Hpdfs Hfiles Hpapers Hpaths Hreview Hok Htext)
    as (s' & w' & Hrun & He & Hp & Hx & Ha & Hd & Hdp & Hflags & Htimes & Hdone).
  exists s', w'. split.
  { unfold App.invoke. erewrite bind_ok by exact H1. exact Hrun. }
  split. { rewrite He. unfold s1. by field_of App.error. }
  split. { rewrite Hp. unfold s1. by field_of App.papers. }
  do 5 (split; [assumption|]). split; [|exact Hdone].
  intros stage [<-|Hstage]; apply Htimes; [left | by right].
  unfold s1. field_of App.stage_times. rewrite dict_get_set_eq. eauto.
Qed.

Lemma invoke_successful_run_witness :
  exists s' w',
    App.invoke (fun _ => 0) plain_stamp (fun _ => "0.0")
      (fun _ => ret good_search) (ret ["extracted/a.json"])
      (ret ["analysis/a.json"]) (fun _ => ret good_review) fresh_state blank_world =
      (Ok s', w') /\
    App.error s' = App.error fresh_state /\
    App.papers s' = App.found_papers good_search /\
    App.extracted_paths s' = ["extracted/a.json"] /\
    App.analysis_paths s' = ["analysis/a.json"] /\
    App.draft s' = Some "A review." /\
    App.draft_path s' = DraftGenerator.draft_path good_review /\
    (App.extraction_success s' = true /\ App.analysis_success s' = true /\
     App.draft_success s' = true) /\
    (forall stage, In stage ["search"; "extract"; "analyze"; "draft"] ->
       is_Some (Dict.get stage (App.stage_times s'))) /\
    In "✅ Status: Completed Successfully" (App.progress s').
Proof.
  apply (invoke_successful_run (fun _ => 0) plain_stamp (fun _ => "0.0")
           (fun _ => ret good_search) (ret ["extracted/a.json"])
           (ret ["analysis/a.json"]) (fun _ => ret good_review)
           fresh_state blank_world good_search ["extracted/a.json"]
           ["analysis/a.json"] good_review "A review.").
  - reflexivity.
  - intros w0. by exists w0.
  - reflexivity.
  - intros w0. by exists w0.
  - discriminate.
  - intros w0. by exists w0.
  - discriminate.
  - intros w0. by exists w0.
  - reflexivity.
  - reflexivity.
Defined.

(** X19: A stage failure whose exception has an empty text goes unnoticed: the
    search node records the empty text as the error, the later nodes test
    the error for truth and so run as if nothing had happened, and when they
    succeed the summary reports completion, with the error record still set
    to the empty text and the papers of the state untouched. *)
Theorem invoke_overlooks_error_without_text
    (clock : world -> Z) (stamped : world -> string -> string -> string)
    (format_seconds : Z -> string)
    (process_topic : string -> io App.search_result)
    (process_all_pdfs process_all_papers : io (list string))
    (generate_review : string -> io DraftGenerator.review)
    (s : App.PipelineState) (w : world)
    (e : exn) (files paths : list string)
    (report : DraftGenerator.review) (text : string) :
  raises (process_topic (App.topic s)) e -> exn_str e = "" ->
  returns process_all_pdfs files -> files <> [] ->
  returns process_all_papers paths -> paths <> [] ->
  returns (generate_review (App.topic s)) report ->
  DraftGenerator.success report = true ->
  DraftGenerator.draft report = Some text ->
  exists s' w',
    App.invoke clock stamped format_seconds process_topic process_all_pdfs
      process_all_papers generate_review s w = (Ok s', w') /\
    App.error s' = Some "" /\
    App.papers s' = App.papers s /\
    App.draft s' = Some text /\
    In "✅ Status: Completed Successfully" (App.progress s').
Proof.
  intros Hsearch Hstr Hpdfs Hfiles Hpapers Hpaths Hreview Hok Htext.
  destruct (Hsearch w) as [w1 Hrun1].
  destruct (search_node_raised clock stamped process_topic s w e w1 Hrun1)
    as (d1 & l1 & l1' & H1).
  set (s1 := App.set_stage_time _ _ _) in H1.
  assert (App.error s1 = Some "") as Herror.
  { unfold s1. field_of App.error. by rewrite Hstr. }
  assert (App.has_error s1 = false) as Herr1.
  { unfold App.has_error. by rewrite Herror. }
  assert (App.topic s1 = App.topic s) as Htopic.
  { unfold s1. by field_of App.topic. }
  rewrite <- Htopic in Hreview.
  destruct (run_after_search clock stamped format_seconds process_all_pdfs
              process_all_papers generate_review s1 w1 files paths report text
              Herr1 Hpdfs Hfiles Hpapers Hpaths Hreview Hok Htext)
    as (s' & w' & Hrun & He & Hp & _ & _ & Hd & _ & _ & _ & Hdone).
  exists s', w'. split.
  { unfold App.invoke. erewrite bind_ok by exact H1. exact Hrun. }
  split; [by rewrite He|]. split; [|by split].
  rewrite Hp. unfold s1. by field_of App.papers.
Qed.

Lemma invoke_overlooks_error_without_text_witness :
  exists s' w',
    App.invoke (fun _ => 0) plain_stamp (fun _ => "0.0")
      (fun _ => throw (RuntimeError "")) (ret ["extracted/a.json"])
      (ret ["analysis/a.json"]) (fun _ => ret good_review) fresh_state blank_world =
      (Ok s', w') /\
    App.error s' = Some "" /\
    App.papers s' = App.papers fresh_state /\
    App.draft s' = Some "A review." /\
    In "✅ Status: Completed Successfully" (App.progress s').
Proof.
  apply (invoke_overlooks_error_without_text (fun _ => 0) plain_stamp
           (fun _ => "0.0") (fun _ => throw (RuntimeError ""))
           (ret ["extracted/a.json"]) (ret ["analysis/a.json"])
           (fun _ => ret good_review) fresh_state blank_world (RuntimeError "")
           ["extracted/a.json"] ["analysis/a.json"] good_review "A review.").
  - intros w0. by exists w0.
  - reflexivity.
  - intros w0. by exists w0.
  - discriminate.
  - intros w0. by exists w0.
  - discriminate.
  - intros w0. by exists w0.
  - reflexivity.
  - reflexivity.
Defined.
